(** * Api-AWS: the workshop ("taller") API of [src/index.js]

    The Express handlers of [src/index.js] talk to two external services:
    a DynamoDB table ([Talleres]) and an S3 bucket.  Every call to one of
    them is an [await] on a promise, and a Node.js process runs a handler
    without interruption between two [await]s.  The embedding follows that
    shape:

    - a handler is a program ([Prog]) whose only effects are the awaited
      service calls ([Cmd]), with the [try]/[catch] of the source;
    - the two services are modelled by their documented behaviour on a
      [World] (table, bucket, log of calls);
    - running one handler alone is [run]; running two requests
      concurrently is [run_par], which interleaves them at their awaits.

    Left out, as plumbing of the HTTP layer: multer's temporary files and
    their clean-up ([cleanTempFiles]), its file filter and size limit, the
    error middleware, the Swagger pages, the routes [/] and [/test-aws],
    and the [stack] member of the slide handler's 500 body. *)

From stdpp Require Import gmap strings list fin_maps.
From Stdlib Require Import DecimalString.

Open Scope string_scope.
Open Scope list_scope.

(** ** Data model *)

(** A slide, as the object literal [nuevoSlide] of the source. *)
Record Slide := mkSlide {
  id : string;
  titulo : string;
  descripcion : string;
  imagenUrl : option string;      (* [null] when no image was sent *)
  createdAt : string
}.

(** Attribute values the application stores: [null], strings, and the
    list of slides. *)
Inductive attr :=
| ANull
| AStr (s : string)
| ASlides (l : list Slide).

(** A DynamoDB item (a JS object): attribute name to value. *)
Abbreviation Item := (gmap string attr).

(** JS truthiness, on an attribute that may be absent ([undefined]). *)
Definition attr_truthy (a : option attr) : bool :=
  match a with
  | None | Some ANull => false
  | Some (AStr s) => negb (String.eqb s "")
  | Some (ASlides _) => true            (* an array is truthy, even [[]] *)
  end.

(** [x.length] for the values that have one; for a string, the length of
    the model's (byte) string. *)
Definition attr_length (a : option attr) : nat :=
  match a with
  | Some (ASlides l) => length l
  | Some (AStr s) => String.length s
  | _ => 0
  end.

(** A text field of a multipart body is absent or a string; [required f]
    is the string when [f] is truthy ([!f] is false). *)
Definition required (f : option string) : option string :=
  match f with
  | Some s => if String.eqb s "" then None else Some s
  | None => None
  end.

(** [f || null] *)
Definition or_null (f : option string) : attr :=
  match f with
  | Some s => if String.eqb s "" then ANull else AStr s
  | None => ANull
  end.

(** [f || d] for a string default [d] *)
Definition or_default (f : option string) (d : string) : attr :=
  match f with
  | Some s => if String.eqb s "" then AStr d else AStr s
  | None => AStr d
  end.

(** An object literal of attributes. *)
Definition object_of (fields : list (string * attr)) : Item :=
  list_to_map fields.

(** Decimal rendering of a number inside a template literal. *)
Definition to_string (n : nat) : string :=
  NilEmpty.string_of_uint (Nat.to_uint n).

(** The file multer hands to a handler ([req.file]); [content] is what
    [fs.readFileSync(file.path)] reads back from the temporary file that
    multer has just written (the read is taken to succeed). *)
Record File := mkFile {
  originalname : string;
  mimetype : string;
  content : string
}.

(** An S3 object. *)
Record S3Object := mkObject {
  Body : string;
  ContentType : string
}.

(** ** Service calls *)

(** The two update expressions the slide handler chooses from. *)
Inductive UpdateExpression :=
| SetSlidesListAppend   (* SET slides = list_append(slides, :nuevo_slide), updatedAt = :updatedAt *)
| SetSlides.            (* SET slides = :nuevo_slide, updatedAt = :updatedAt *)

(** The awaited calls, indexed by what they resolve to. *)
Inductive Cmd : Type → Type :=
| DdbGet (Key : string) : Cmd (option Item)
| DdbPut (it : Item) : Cmd unit
| DdbUpdate (Key : string) (e : UpdateExpression)
            (nuevo_slide : list Slide) (updatedAt : string) : Cmd Item
| DdbDelete (Key : string) : Cmd unit
| DdbScan (ProjectionExpression : list string) : Cmd (list Item)
| S3Upload (Key : string) (o : S3Object) : Cmd string
| S3ListObjectsV2 (Prefix : string) : Cmd (list string * bool)
| S3DeleteObjects (Objects : list string) : Cmd unit.

Inductive Level := warn | error.

(** One entry of the log: a call and whether it resolved, or a line
    written to the console. *)
Inductive Event :=
| Called {R} (c : Cmd R) (resolved : bool)
| Console (l : Level) (msg : string).

(** What the handlers do not control: Node's [path.extname], the URL S3
    gives to a key, the page size of an S3 listing (1000 in S3), how many
    items the first page of a scan holds, given the items of the table in
    scan order (DynamoDB ends a page once it has read 1 MB of data), and
    which calls are rejected, with the error message. *)
Record Env := mkEnv {
  extname : string → string;
  Location : string → string;
  MaxKeys : nat;
  ScanPage : list Item → nat;
  rejects : ∀ R, Cmd R → option string
}.

Record World := mkWorld {
  Talleres : gmap string Item;
  Bucket : gmap string S3Object;
  log : list Event
}.

(** ** The services *)

(** The key attribute of an item. *)
Definition item_key (it : Item) : option string :=
  match it !! "id" with
  | Some (AStr k) => Some k
  | _ => None
  end.

(** A projection keeps the named attributes only. *)
Definition project (fields : list string) (it : Item) : Item :=
  filter (λ kv, kv.1 ∈ fields) it.

(** [UpdateItem]: the item at [Key], or a fresh item holding the key when
    there is none; [list_append] needs its operand to be a list. *)
Definition apply_update (e : UpdateExpression) (nuevo_slide : list Slide)
    (updatedAt : string) (it : Item) : option Item :=
  match e with
  | SetSlides =>
      Some (<["updatedAt" := AStr updatedAt]> (<["slides" := ASlides nuevo_slide]> it))
  | SetSlidesListAppend =>
      match it !! "slides" with
      | Some (ASlides l) =>
          Some (<["updatedAt" := AStr updatedAt]>
                  (<["slides" := ASlides (l ++ nuevo_slide)]> it))
      | _ => None
      end
  end.

Definition with_prefix (p : string) (keys : list string) : list string :=
  filter (λ k, Is_true (String.prefix p k)) keys.

Definition delete_keys (keys : list string) (b : gmap string S3Object) :
    gmap string S3Object :=
  foldr delete b keys.

Definition set_Talleres (t : gmap string Item) (w : World) : World :=
  mkWorld t (Bucket w) (log w).
Definition set_Bucket (b : gmap string S3Object) (w : World) : World :=
  mkWorld (Talleres w) b (log w).
Definition logged (e : Event) (w : World) : World :=
  mkWorld (Talleres w) (Bucket w) (log w ++ [e]).

(** The effect of a call that is served: its result, or the service's own
    error, and the new state of the stores.  [put] and [upload] overwrite;
    [update] creates the item when the key is new; [delete] of a missing
    key is not an error; a scan is answered with its first page, the
    first [ScanPage] items of the table ([Items]; the [LastEvaluatedKey]
    that comes with a partial page is not modelled, no handler reads it);
    a listing holds at most [MaxKeys] keys and says whether there are
    more. *)
Definition serve (env : Env) {R} (c : Cmd R) (w : World) : (string + R) * World :=
  match c in Cmd R return (string + R) * World with
  | DdbGet k => (inr (Talleres w !! k), w)
  | DdbPut it =>
      match item_key it with
      | Some k => (inr (), set_Talleres (<[k := it]> (Talleres w)) w)
      | None => (inl "ValidationException", w)
      end
  | DdbUpdate k e v u =>
      match apply_update e v u (default {["id" := AStr k]} (Talleres w !! k)) with
      | Some it => (inr it, set_Talleres (<[k := it]> (Talleres w)) w)
      | None => (inl "ValidationException", w)
      end
  | DdbDelete k => (inr (), set_Talleres (delete k (Talleres w)) w)
  | DdbScan fields =>
      let items := (map_to_list (Talleres w)).*2 in
      (inr (project fields <$> take (ScanPage env items) items), w)
  | S3Upload k o => (inr (Location env k), set_Bucket (<[k := o]> (Bucket w)) w)
  | S3ListObjectsV2 p =>
      let keys := with_prefix p (map_to_list (Bucket w)).*1 in
      (inr (take (MaxKeys env) keys, bool_decide (MaxKeys env < length keys)), w)
  | S3DeleteObjects keys => (inr (), set_Bucket (delete_keys keys (Bucket w)) w)
  end.

Definition resolved {R} (r : string + R) : bool :=
  match r with inl _ => false | inr _ => true end.

(** One call: rejected by the environment (the stores are not changed), or
    served; either way the call is logged. *)
Definition perform (env : Env) {R} (c : Cmd R) (w : World) : (string + R) * World :=
  match rejects env R c with
  | Some msg => (inl msg, logged (Called c false) w)
  | None =>
      let '(r, w') := serve env c w in
      (r, logged (Called c (resolved r)) w')
  end.

(** ** Handler programs *)

(** A handler: it returns, throws, awaits a call (continuing with its
    result, or with the error of a rejected promise), or writes a line to
    the console. *)
Inductive Prog (A : Type) : Type :=
| Ret (a : A)
| Throw (e : string)
| Await {R} (c : Cmd R) (k : R → Prog A) (rej : string → Prog A)
| Log (l : Level) (msg : string) (k : Prog A).

Arguments Ret {A} a.
Arguments Throw {A} e.
Arguments Await {A R} c k rej.
Arguments Log {A} l msg k.

(** [await c]: a rejection propagates as an exception. *)
Definition await {R} (c : Cmd R) : Prog R := Await c Ret Throw.

Fixpoint bind {A B} (p : Prog A) (f : A → Prog B) : Prog B :=
  match p with
  | Ret a => f a
  | Throw e => Throw e
  | Await c k rej => Await c (λ r, bind (k r) f) (λ e, bind (rej e) f)
  | Log l m k => Log l m (bind k f)
  end.

(** [try { p } catch (error) { h error }] *)
Fixpoint try_catch {A} (p : Prog A) (h : string → Prog A) : Prog A :=
  match p with
  | Ret a => Ret a
  | Throw e => h e
  | Await c k rej => Await c (λ r, try_catch (k r) h) (λ e, try_catch (rej e) h)
  | Log l m k => Log l m (try_catch k h)
  end.

#[global] Instance Prog_ret : MRet Prog := @Ret.
#[global] Instance Prog_bind : MBind Prog := λ A B f p, bind p f.

(** Run a handler to its end. *)
Fixpoint run (env : Env) {A} (p : Prog A) (w : World) : (string + A) * World :=
  match p with
  | Ret a => (inr a, w)
  | Throw e => (inl e, w)
  | Await c k rej =>
      let '(r, w') := perform env c w in
      match r with
      | inr x => run env (k x) w'
      | inl e => run env (rej e) w'
      end
  | Log l m k => run env k (logged (Console l m) w)
  end.

(** Run a handler up to its next suspension point. *)
Definition step (env : Env) {A} (p : Prog A) (w : World) : Prog A * World :=
  match p with
  | Await c k rej =>
      let '(r, w') := perform env c w in
      (match r with inr x => k x | inl e => rej e end, w')
  | Log l m k => (k, logged (Console l m) w)
  | _ => (p, w)
  end.

(** Two requests in flight: the schedule says whose turn it is ([true]
    for the first) each time the event loop picks a continuation. *)
Fixpoint run_par (env : Env) {A B} (sched : list bool)
    (p : Prog A) (q : Prog B) (w : World) : Prog A * Prog B * World :=
  match sched with
  | [] => (p, q, w)
  | true :: s => let '(p', w') := step env p w in run_par env s p' q w'
  | false :: s => let '(q', w') := step env q w in run_par env s p q' w'
  end.

(** ** Requests and responses *)

Inductive Json :=
| JError (msg : string) (details : option string)
| JMessage (message : string)
| JTaller (taller : Item)
| JTalleres (Items : list Item)
| JSlide (slide : Slide) (taller : Item).

Record Response := Res {
  status : nat;
  json : Json
}.

(** The values a handler draws while it runs: [uuidv4()] for a file name
    and for an id, [new Date().toISOString()] for [createdAt] and for
    [updatedAt]. *)
Record Fresh := mkFresh {
  file_uuid : string;
  id_uuid : string;
  created_date : string;
  updated_date : string
}.

(** [POST /talleres]: [req.body] and [req.file]. *)
Record TallerRequest := mkTallerRequest {
  body_nombre : option string;
  body_descripcion : option string;
  body_duracion : option string;
  body_nivelDificultad : option string;
  body_materiales : option string;
  body_objetivos : option string;
  body_finalidades : option string;
  body_ciencia : option string;
  body_tecnologia : option string;
  body_ingenieria : option string;
  body_matematicas : option string;
  file_portada : option File
}.

(** [POST /talleres/:tallerId/slides]: [req.params], [req.body] and
    [req.file]. *)
Record SlideRequest := mkSlideRequest {
  params_tallerId : string;
  slide_descripcion : option string;
  file_imagen : option File
}.

(** ** The handlers of [src/index.js] *)

(** [catch (error)]: [console.error(what, error)], then the 500 answer with
    [error.message] as [details]. *)
Definition catch_500 (what : string) (msg : string) (e : string) : Prog Response :=
  Log error what (Ret (Res 500 (JError msg (Some e)))).

(** The S3 key of the cover of a new taller. *)
Definition portada_Key (env : Env) (g : Fresh) (portada : File) : string :=
  let portadaFileName := "portada-" +:+ file_uuid g +:+ extname env (originalname portada) in
  "talleres/" +:+ id_uuid g +:+ "/" +:+ portadaFileName.

(** [tallerParams.Item] *)
Definition tallerParams_Item (g : Fresh) (req : TallerRequest)
    (nombre descripcion portadaS3Response_Location : string) : Item :=
  object_of [
    ("id", AStr (id_uuid g));
    ("nombre", AStr nombre);
    ("descripcion", AStr descripcion);
    ("duracion", or_null (body_duracion req));
    ("nivelDificultad", or_default (body_nivelDificultad req) "FÁCIL");
    ("materiales", or_null (body_materiales req));
    ("objetivos", or_null (body_objetivos req));
    ("finalidades", or_null (body_finalidades req));
    ("ciencia", or_null (body_ciencia req));
    ("tecnologia", or_null (body_tecnologia req));
    ("ingenieria", or_null (body_ingenieria req));
    ("matematicas", or_null (body_matematicas req));
    ("portadaUrl", AStr portadaS3Response_Location);
    ("carpetaS3", AStr ("talleres/" +:+ id_uuid g +:+ "/"));
    ("createdAt", AStr (created_date g));
    ("slides", ASlides [])
  ].

(** Ruta 1: [POST /talleres] *)
Definition post_talleres (env : Env) (g : Fresh) (req : TallerRequest) : Prog Response :=
  match required (body_nombre req), required (body_descripcion req) with
  | Some nombre, Some descripcion =>
      match file_portada req with
      | None => Ret (Res 400 (JError "La portada es requerida" None))
      | Some portada =>
          try_catch
            (portadaS3Response ← await
               (S3Upload (portada_Key env g portada)
                         (mkObject (content portada) (mimetype portada)));
             let Item := tallerParams_Item g req nombre descripcion portadaS3Response in
             _ ← await (DdbPut Item);
             (* the 201 body lists every attribute of the item but [slides] *)
             Ret (Res 201 (JTaller (delete "slides" Item))))
            (catch_500 "Error al crear taller:" "Error al crear taller")
      end
  | _, _ => Ret (Res 400 (JError "Nombre y descripción son requeridos" None))
  end.

(** The title of a new slide, from the item that was read. *)
Definition nuevo_titulo (taller_Item : Item) : string :=
  "Paso " +:+ to_string (if attr_truthy (taller_Item !! "slides")
                         then attr_length (taller_Item !! "slides") + 1
                         else 1).

(** The update expression, chosen from the item that was read. *)
Definition updateExpression (taller_Item : Item) : UpdateExpression :=
  if attr_truthy (taller_Item !! "slides")
     && bool_decide (0 < attr_length (taller_Item !! "slides"))
  then SetSlidesListAppend
  else SetSlides.

(** The S3 key of the image of a new slide. *)
Definition imagen_Key (env : Env) (g : Fresh) (tallerId : string) (imagen : File) : string :=
  let imagenFileName := "slide-" +:+ file_uuid g +:+ extname env (originalname imagen) in
  "talleres/" +:+ tallerId +:+ "/" +:+ imagenFileName.

(** [imagenUrl]: the location of the uploaded image, [null] without one. *)
Definition upload_imagen (env : Env) (g : Fresh) (tallerId : string)
    (imagen : option File) : Prog (option string) :=
  match imagen with
  | Some imagen =>
      imagenS3Response ← await
        (S3Upload (imagen_Key env g tallerId imagen)
                  (mkObject (content imagen) (mimetype imagen)));
      mret (Some imagenS3Response)
  | None => mret None
  end.

Definition nuevoSlide (g : Fresh) (taller_Item : Item) (descripcion : string)
    (imagenUrl : option string) : Slide :=
  {| id := id_uuid g;
     titulo := nuevo_titulo taller_Item;
     descripcion := descripcion;
     imagenUrl := imagenUrl;
     createdAt := created_date g |}.

(** The update that stores the new slide, and the 201 answer. *)
Definition update_taller (g : Fresh) (tallerId : string) (taller_Item : Item)
    (descripcion : string) (imagenUrl : option string) : Prog Response :=
  let nuevoSlide := nuevoSlide g taller_Item descripcion imagenUrl in
  updatedTaller ← await
    (DdbUpdate tallerId (updateExpression taller_Item) [nuevoSlide] (updated_date g));
  Ret (Res 201 (JSlide nuevoSlide updatedTaller)).

(** What the slide handler does once [dynamoDB.get] has answered. *)
Definition with_taller (env : Env) (g : Fresh) (req : SlideRequest) (descripcion : string)
    (taller : option Item) : Prog Response :=
  match taller with
  | None => Ret (Res 404 (JError "Taller no encontrado" None))
  | Some taller_Item =>
      imagenUrl ← upload_imagen env g (params_tallerId req) (file_imagen req);
      update_taller g (params_tallerId req) taller_Item descripcion imagenUrl
  end.

(** The [catch] of the slide handler. *)
Definition slide_catch : string → Prog Response :=
  catch_500 "Error al agregar slide:" "Error al agregar slide".

(** Ruta 2: [POST /talleres/:tallerId/slides] *)
Definition post_talleres_slides (env : Env) (g : Fresh) (req : SlideRequest) : Prog Response :=
  match required (slide_descripcion req) with
  | None => Ret (Res 400 (JError "Descripción es requerida" None))
  | Some descripcion =>
      try_catch
        (taller ← await (DdbGet (params_tallerId req));
         with_taller env g req descripcion taller)
        slide_catch
  end.

(** Ruta 3: [GET /talleres/:tallerId] *)
Definition get_taller (tallerId : string) : Prog Response :=
  try_catch
    (taller ← await (DdbGet tallerId);
     match taller with
     | None => Ret (Res 404 (JError "Taller no encontrado" None))
     | Some taller_Item => Ret (Res 200 (JTaller taller_Item))
     end)
    (catch_500 "Error al obtener taller:" "Error al obtener taller").

Definition ProjectionExpression : list string :=
  ["id"; "nombre"; "descripcion"; "duracion"; "nivelDificultad"; "portadaUrl"; "createdAt"].

(** Ruta 4: [GET /talleres] *)
Definition get_talleres : Prog Response :=
  try_catch
    (data_Items ← await (DdbScan ProjectionExpression);
     Ret (Res 200 (JTalleres data_Items)))
    (catch_500 "Error al obtener talleres:" "Error al obtener talleres").

(** Ruta 5: [DELETE /talleres/:tallerId] *)
Definition delete_taller (tallerId : string) : Prog Response :=
  try_catch
    (taller ← await (DdbGet tallerId);
     match taller with
     | None => Ret (Res 404 (JError "Taller no encontrado" None))
     | Some _ =>
         listedObjects ← await (S3ListObjectsV2 ("talleres/" +:+ tallerId +:+ "/"));
         let Contents : list string := listedObjects.1 in
         let IsTruncated : bool := listedObjects.2 in
         _ ← (if bool_decide (0 < length Contents) then
                _ ← await (S3DeleteObjects Contents);
                if IsTruncated
                then Log warn "El taller tiene más de 1000 objetos, no todos fueron eliminados"
                           (Ret ())
                else Ret ()
              else Ret ());
         _ ← await (DdbDelete tallerId);
         Ret (Res 200 (JMessage "Taller eliminado correctamente"))
     end)
    (catch_500 "Error al eliminar taller:" "Error al eliminar taller").

(** ** Vocabulary of the statements *)

(** A required text field is missing when it is absent or empty. *)
Definition missing (f : option string) : Prop := f = None ∨ f = Some "".

(** Kinds of calls in the log. *)
Definition is_put (e : Event) : bool :=
  match e with
  | Called c _ => match c with DdbPut _ => true | _ => false end
  | Console _ _ => false
  end.

Definition is_upload (e : Event) : bool :=
  match e with
  | Called c _ => match c with S3Upload _ _ => true | _ => false end
  | Console _ _ => false
  end.

(** The slides a record holds: none when the attribute is absent or is
    not a list. *)
Definition slides_of (it : Item) : list Slide :=
  match it !! "slides" with
  | Some (ASlides l) => l
  | _ => []
  end.

Definition is_update (e : Event) : bool :=
  match e with
  | Called c _ => match c with DdbUpdate _ _ _ _ => true | _ => false end
  | Console _ _ => false
  end.

(** Handlers run one after the other, each to its end. *)
Fixpoint run_seq (env : Env) (ps : list (Prog Response)) (w : World) :
    list (string + Response) * World :=
  match ps with
  | [] => ([], w)
  | p :: ps =>
      let '(r, w1) := run env p w in
      let '(rs, w2) := run_seq env ps w1 in
      (r :: rs, w2)
  end.

Definition slide_handlers (env : Env) (reqs : list (Fresh * SlideRequest)) :
    list (Prog Response) :=
  (λ gr, post_talleres_slides env gr.1 gr.2) <$> reqs.

(** No call is rejected. *)
Definition reliable (env : Env) : Prop := ∀ R (c : Cmd R), rejects env R c = None.

(** The location of the image a request carries, [null] without one. *)
Definition imagenUrl_of (env : Env) (g : Fresh) (req : SlideRequest) : option string :=
  (λ f, Location env (imagen_Key env g (params_tallerId req) f)) <$> file_imagen req.

(** The slides that a list of requests is expected to add to a taller that
    has [n] slides. *)
Fixpoint expected_slides (env : Env) (n : nat) (reqs : list (Fresh * SlideRequest)) :
    list Slide :=
  match reqs with
  | [] => []
  | (g, req) :: reqs =>
      {| id := id_uuid g;
         titulo := "Paso " +:+ to_string (n + 1);
         descripcion := default "" (slide_descripcion req);
         imagenUrl := imagenUrl_of env g req;
         createdAt := created_date g |}
      :: expected_slides env (S n) reqs
  end.

(** The turns a schedule gives to a request. *)
Definition turns (who : bool) (sched : list bool) : nat :=
  length (filter (λ b, b = who) sched).

(** Where a slide request stands between two awaits, with a bound on the
    turns it still needs and the slide it has appended, if any: not yet
    started; the taller read, with a list of slides that is not empty;
    the image uploaded; answered 201. *)
Inductive Phase (env : Env) (g : Fresh) (req : SlideRequest) (descr : string) :
    nat → Prog Response → option Slide → Prop :=
| ph_start (n : nat) :
    (3 ≤ n)%nat → Phase env g req descr n (post_talleres_slides env g req) None
| ph_read (n : nat) it l :
    (2 ≤ n)%nat → it !! "slides" = Some (ASlides l) → l ≠ [] →
    Phase env g req descr n
          (try_catch (with_taller env g req descr (Some it)) slide_catch) None
| ph_uploaded (n : nat) it l url :
    (1 ≤ n)%nat → it !! "slides" = Some (ASlides l) → l ≠ [] →
    Phase env g req descr n
          (try_catch (update_taller g (params_tallerId req) it descr url) slide_catch) None
| ph_done (n : nat) s it :
    id s = id_uuid g → descripcion s = descr →
    Phase env g req descr n (Ret (Res 201 (JSlide s it))) (Some s).

(** The taller in the table holds the slides [l0] and then [added]. *)
Definition holds (tallerId : string) (l0 added : list Slide) (w : World) : Prop :=
  ∃ cur, Talleres w !! tallerId = Some cur
         ∧ cur !! "slides" = Some (ASlides (l0 ++ added)).

Definition warning_truncated : string :=
  "El taller tiene más de 1000 objetos, no todos fueron eliminados".

(** The 500 answer of the delete handler. *)
Definition failed_delete (e : string) (w : World) : (string + Response) * World :=
  (inr (Res 500 (JError "Error al eliminar taller" (Some e))),
   logged (Console error "Error al eliminar taller:") w).

(** The last call of the delete handler, on the record, and its answer. *)
Definition run_delete_record (env : Env) (tallerId : string) (w : World) :
    (string + Response) * World :=
  match rejects env _ (DdbDelete tallerId) with
  | Some msg => failed_delete msg (logged (Called (DdbDelete tallerId) false) w)
  | None =>
      (inr (Res 200 (JMessage "Taller eliminado correctamente")),
       logged (Called (DdbDelete tallerId) true)
              (set_Talleres (delete tallerId (Talleres w)) w))
  end.

Definition is_delete_record (e : Event) : bool :=
  match e with
  | Called c _ => match c with DdbDelete _ => true | _ => false end
  | Console _ _ => false
  end.

(** Goals about an explicit list of events. *)
Ltac no_such_event :=
  let He := fresh "He" in
  intros ? He; repeat (apply elem_of_cons in He as [->|He]; [done|]);
  by apply elem_of_nil in He.

Ltac preceded_by j :=
  let Hi := fresh "Hi" in
  let He := fresh "He" in
  intros i e Hi He;
  repeat (destruct i as [|i];
          [cbn in Hi; injection Hi as <-;
           first [discriminate He | exists j; split; [lia|reflexivity]]|]);
  discriminate Hi.

Ltac log_is_extended := simpl; rewrite <- ?app_assoc; reflexivity.

(** The optional text fields of a create request that default to [null],
    with the attribute each is stored under. *)
Definition optional_fields : list (string * (TallerRequest → option string)) :=
  [("duracion", body_duracion); ("materiales", body_materiales);
   ("objetivos", body_objetivos); ("finalidades", body_finalidades);
   ("ciencia", body_ciencia); ("tecnologia", body_tecnologia);
   ("ingenieria", body_ingenieria); ("matematicas", body_matematicas)].

(** The folder of a taller in the bucket ([carpetaS3]). *)
Definition carpetaS3 (tallerId : string) : string := "talleres/" +:+ tallerId +:+ "/".

(** The keys of the bucket that lie in the folder of a taller, as a
    listing would give them without a page limit. *)
Definition folder_keys (tallerId : string) (w : World) : list string :=
  with_prefix (carpetaS3 tallerId) (map_to_list (Bucket w)).*1.

(** Where a slide request stands once its [get] has answered the record
    [it]: the taller read; the image uploaded; answered 201 with the slide
    built from [it].  As in [Phase], with a bound on the turns it still
    needs and the slide it has written, if any. *)
Inductive Resumed (env : Env) (g : Fresh) (req : SlideRequest) (descr : string)
    (it : Item) : nat → Prog Response → option Slide → Prop :=
| rs_read (n : nat) :
    (2 ≤ n)%nat →
    Resumed env g req descr it n
            (try_catch (with_taller env g req descr (Some it)) slide_catch) None
| rs_uploaded (n : nat) url :
    (1 ≤ n)%nat →
    Resumed env g req descr it n
            (try_catch (update_taller g (params_tallerId req) it descr url) slide_catch) None
| rs_done (n : nat) url it' :
    Resumed env g req descr it n
            (Ret (Res 201 (JSlide (nuevoSlide g it descr url) it')))
            (Some (nuevoSlide g it descr url)).

(** What the table holds under [tallerId] after the slides [written] have
    been stored, in that order, by requests that had all read the record
    [it]: with [list_append], the slides of [it] and then all of them;
    with a plain [SET], the last one alone. *)
Definition stale_writes (tallerId : string) (it : Item) (written : list Slide)
    (w : World) : Prop :=
  match updateExpression it with
  | SetSlidesListAppend =>
      ∃ cur, Talleres w !! tallerId = Some cur
             ∧ cur !! "slides" = Some (ASlides (slides_of it ++ written))
  | SetSlides =>
      ∀ s, last written = Some s →
           ∃ cur, Talleres w !! tallerId = Some cur
                  ∧ cur !! "slides" = Some (ASlides [s])
  end.

(** [n] turns in a row for one handler. *)
Fixpoint nsteps (env : Env) {A} (n : nat) (p : Prog A) (w : World) : Prog A * World :=
  match n with
  | 0 => (p, w)
  | S n => let '(p', w') := step env p w in nsteps env n p' w'
  end.

(** A record whose [slides], when present, is a list. *)
Definition slides_is_list (it : Item) : Prop :=
  it !! "slides" = None ∨ ∃ l, it !! "slides" = Some (ASlides l).

(** The record a slide request leaves when nothing else writes to its
    taller. *)
Definition with_slide (g : Fresh) (old : Item) (s : Slide) : Item :=
  <["updatedAt" := AStr (updated_date g)]>
    (<["slides" := ASlides (slides_of old ++ [s])]> old).

(** Where a slide request stands while no other request writes to its
    taller, whose record was [old] when it started: not started, read,
    image uploaded (the table still holds [old]); answered 201 (the table
    holds [old] with the new slide).  With a bound on the turns it still
    needs. *)
Inductive Alone (env : Env) (g : Fresh) (req : SlideRequest) (descr : string)
    (old : Item) : nat → Prog Response → World → Prop :=
| al_start (n : nat) w :
    (3 ≤ n)%nat → Talleres w !! params_tallerId req = Some old →
    Alone env g req descr old n (post_talleres_slides env g req) w
| al_read (n : nat) w :
    (2 ≤ n)%nat → Talleres w !! params_tallerId req = Some old →
    Alone env g req descr old n
          (try_catch (with_taller env g req descr (Some old)) slide_catch) w
| al_uploaded (n : nat) url w :
    (1 ≤ n)%nat → Talleres w !! params_tallerId req = Some old →
    Alone env g req descr old n
          (try_catch (update_taller g (params_tallerId req) old descr url) slide_catch) w
| al_done (n : nat) url w :
    Talleres w !! params_tallerId req
    = Some (with_slide g old (nuevoSlide g old descr url)) →
    Alone env g req descr old n
          (Ret (Res 201 (JSlide (nuevoSlide g old descr url)
                                (with_slide g old (nuevoSlide g old descr url))))) w.

(** ** Requests and worlds used as examples *)

Definition env_ok : Env :=
  mkEnv (λ _, ".png") (λ k, "https://bucket.s3.amazonaws.com/" +:+ k) 1000 (λ _, 1000)
        (λ _ _, None).

Definition fresh_1 : Fresh :=
  mkFresh "f-1" "id-1" "2024-01-01T00:00:00.000Z" "2024-01-01T00:00:01.000Z".

Definition world_empty : World := mkWorld ∅ ∅ [].

Definition slide_request_no_descripcion : SlideRequest :=
  mkSlideRequest "no-such-id" None None.

Definition taller_request_no_portada : TallerRequest :=
  mkTallerRequest (Some "Robots") (Some "Taller de robots") None None None None
                  None None None None None None.

Definition file_1 : File := mkFile "robot.png" "image/png" "PNG-bytes".

Definition taller_request_1 : TallerRequest :=
  mkTallerRequest (Some "Robots") (Some "Taller de robots") None None None None
                  None None None None None (Some file_1).

(** The taller that [taller_request_1] creates in an empty table. *)
Definition Item_1 : Item :=
  tallerParams_Item fresh_1 taller_request_1 "Robots" "Taller de robots"
    (Location env_ok (portada_Key env_ok fresh_1 file_1)).

Definition response_1 : Response := Res 201 (JTaller (delete "slides" Item_1)).

Definition world_1 : World :=
  (run env_ok (post_talleres env_ok fresh_1 taller_request_1) world_empty).2.

Definition slide_request_unknown : SlideRequest :=
  mkSlideRequest "no-such-id" (Some "Cortar la madera") (Some file_1).

Definition fresh_2 : Fresh :=
  mkFresh "f-2" "slide-1" "2024-01-02T00:00:00.000Z" "2024-01-02T00:00:01.000Z".

Definition slide_request_1 : SlideRequest :=
  mkSlideRequest "id-1" (Some "Cortar la madera") (Some file_1).

(** The first slide of the taller of [world_1], and the record after it. *)
Definition slide_1 : Slide :=
  nuevoSlide fresh_2 Item_1 "Cortar la madera"
    (Some (Location env_ok (imagen_Key env_ok fresh_2 "id-1" file_1))).

Definition Item_2 : Item :=
  <["updatedAt" := AStr (updated_date fresh_2)]> (<["slides" := ASlides [slide_1]]> Item_1).

Definition world_2 : World :=
  (run env_ok (post_talleres_slides env_ok fresh_2 slide_request_1) world_1).2.

Definition fresh_3 : Fresh :=
  mkFresh "f-3" "slide-2" "2024-01-03T00:00:00.000Z" "2024-01-03T00:00:01.000Z".

Definition slide_request_2 : SlideRequest :=
  mkSlideRequest "id-1" (Some "Lijar los bordes") None.

Definition fresh_4 : Fresh :=
  mkFresh "f-4" "slide-3" "2024-01-04T00:00:00.000Z" "2024-01-04T00:00:01.000Z".

Definition slide_request_3 : SlideRequest :=
  mkSlideRequest "id-1" (Some "Pintar") None.

(** An S3 whose listings hold one key per page. *)
Definition env_page_1 : Env :=
  mkEnv (extname env_ok) (Location env_ok) 1 (ScanPage env_ok) (λ _ _, None).

(** An environment whose table rejects every [put]. *)
Definition env_put_rejected : Env :=
  mkEnv (extname env_ok) (Location env_ok) 1000 (ScanPage env_ok)
        (λ R c, match c with
                | DdbPut _ => Some "ProvisionedThroughputExceededException"
                | _ => None
                end).

(** An environment whose bucket rejects every upload, and one whose table
    rejects every update. *)
Definition env_upload_rejected : Env :=
  mkEnv (extname env_ok) (Location env_ok) 1000 (ScanPage env_ok)
        (λ R c, match c with S3Upload _ _ => Some "SlowDown" | _ => None end).

Definition env_update_rejected : Env :=
  mkEnv (extname env_ok) (Location env_ok) 1000 (ScanPage env_ok)
        (λ R c, match c with
                | DdbUpdate _ _ _ _ => Some "ProvisionedThroughputExceededException"
                | _ => None
                end).

(** An environment whose table rejects every [delete]. *)
Definition env_delete_rejected : Env :=
  mkEnv (extname env_ok) (Location env_ok) 1000 (ScanPage env_ok)
        (λ R c, match c with DdbDelete _ => Some "InternalServerError" | _ => None end).

(** A second taller, created after the first slide of the first one. *)
Definition fresh_5 : Fresh :=
  mkFresh "f-5" "id-2" "2024-01-05T00:00:00.000Z" "2024-01-05T00:00:01.000Z".

Definition Item_3 : Item :=
  tallerParams_Item fresh_5 taller_request_1 "Robots" "Taller de robots"
    (Location env_ok (portada_Key env_ok fresh_5 file_1)).

Definition world_3 : World :=
  (run env_ok (post_talleres env_ok fresh_5 taller_request_1) world_2).2.

Definition slide_request_4 : SlideRequest :=
  mkSlideRequest "id-2" (Some "Soldar") None.

(** The second slide of the taller of [world_2]. *)
Definition slide_2 : Slide := nuevoSlide fresh_3 Item_2 "Lijar los bordes" None.

(** A record that was not written by [POST /talleres]: it has no [slides]
    attribute.  Its first slide. *)
Definition Item_no_slides : Item := delete "slides" Item_1.

Definition world_no_slides : World := mkWorld {["id-1" := Item_no_slides]} ∅ [].

Definition slide_no_slides : Slide :=
  nuevoSlide fresh_3 Item_no_slides "Lijar los bordes" None.


(** ** Running programs: equations *)

Arguments object_of : simpl never.

Section Run.
Context (env : Env).

Lemma run_bind {A B} (p : Prog A) (f : A → Prog B) (w : World) :
  run env (bind p f) w =
  match run env p w with
  | (inr a, w') => run env (f a) w'
  | (inl e, w') => (inl e, w')
  end.
Proof.
  revert w. induction p as [a|e|R c k IHk rej IHrej|l m k IHk]; intros w; simpl; auto.
  destruct (perform env c w) as [[e|x] w']; auto.
Qed.

Lemma run_try_catch {A} (p : Prog A) (h : string → Prog A) (w : World) :
  run env (try_catch p h) w =
  match run env p w with
  | (inr a, w') => (inr a, w')
  | (inl e, w') => run env (h e) w'
  end.
Proof.
  revert w. induction p as [a|e|R c k IHk rej IHrej|l m k IHk]; intros w; simpl; auto.
  destruct (perform env c w) as [[e|x] w']; auto.
Qed.

Lemma run_await {R} (c : Cmd R) (w : World) :
  run env (await c) w = perform env c w.
Proof.
  unfold await. simpl. by destruct (perform env c w) as [[e|x] w'].
Qed.

(** A handler never lets an exception escape its [catch]. *)
Lemma run_catch_500 (what msg e : string) (w : World) :
  run env (catch_500 what msg e) w =
  (inr (Res 500 (JError msg (Some e))), logged (Console error what) w).
Proof. reflexivity. Qed.
End Run.

Lemma required_None (f : option string) :
  required f = None ↔ f = None ∨ f = Some "".
Proof.
  destruct f as [s|]; simpl; [|tauto].
  destruct (String.eqb_spec s ""); subst; split; (done || eauto || intros [?|?]; congruence).
Qed.

Lemma required_Some (f : option string) (s : string) :
  required f = Some s ↔ f = Some s ∧ s ≠ "".
Proof.
  destruct f as [s'|]; simpl; [|split; [done|intros [? _]; done]].
  destruct (String.eqb_spec s' ""); subst; split.
  - done.
  - intros [[= <-] ?]; done.
  - intros [= <-]; done.
  - intros [[= <-] _]; done.
Qed.

(** ** Validation *)

Lemma required_missing (f : option string) : missing f → required f = None.
Proof. intros H. by apply required_None. Qed.

(** C10: a slide request without its description (absent or empty) is
    answered 400 by a handler that awaits nothing: the table is not read,
    so the answer is 400 whether or not the taller exists, and the table,
    the bucket and the log of calls are as they were. *)
Theorem slide_without_descripcion_is_400 (env : Env) (g : Fresh) (req : SlideRequest) (w : World) :
  missing (slide_descripcion req) →
  post_talleres_slides env g req = Ret (Res 400 (JError "Descripción es requerida" None))
  ∧ run env (post_talleres_slides env g req) w
    = (inr (Res 400 (JError "Descripción es requerida" None)), w)
  ∧ ∀ sched (q : Prog Response),
      (run_par env sched (post_talleres_slides env g req) q w).1.1
      = Ret (Res 400 (JError "Descripción es requerida" None)).
Proof.
  intros Hd%required_missing.
  assert (post_talleres_slides env g req
          = Ret (Res 400 (JError "Descripción es requerida" None))) as Heq.
  { unfold post_talleres_slides. by rewrite Hd. }
  rewrite Heq. split_and!; [done..|].
  intros sched. revert w. induction sched as [|[] s IH]; intros w q; simpl; [done|apply IH|].
  destruct (step env q w) as [q' w']. apply IH.
Qed.

Lemma slide_without_descripcion_is_400_witness :
  missing (slide_descripcion slide_request_no_descripcion)
  ∧ run env_ok (post_talleres_slides env_ok fresh_1 slide_request_no_descripcion) world_empty
    = (inr (Res 400 (JError "Descripción es requerida" None)), world_empty).
Proof.
  split; [by left|].
  apply (slide_without_descripcion_is_400 env_ok fresh_1 slide_request_no_descripcion
           world_empty).
  by left.
Defined.

(** C5: a create request that misses its name, its description or its
    cover is answered 400 by a handler that awaits nothing: neither store
    is called, and the table, the bucket and the log are as they were. *)
Theorem taller_missing_input_is_400 (env : Env) (g : Fresh) (req : TallerRequest) (w : World) :
  missing (body_nombre req) ∨ missing (body_descripcion req) ∨ file_portada req = None →
  ∃ msg,
    post_talleres env g req = Ret (Res 400 (JError msg None))
    ∧ run env (post_talleres env g req) w = (inr (Res 400 (JError msg None)), w).
Proof.
  intros H. unfold post_talleres.
  destruct (required (body_nombre req)) as [nombre|] eqn:Hn;
    [destruct (required (body_descripcion req)) as [descr|] eqn:Hd;
       [destruct (file_portada req) as [portada|] eqn:Hp|]|];
    try (eexists; split; reflexivity).
  exfalso. destruct H as [H|[H|H]].
  - apply required_missing in H. congruence.
  - apply required_missing in H. congruence.
  - discriminate.
Qed.

Lemma taller_missing_input_is_400_witness :
  (missing (body_nombre taller_request_no_portada)
   ∨ missing (body_descripcion taller_request_no_portada)
   ∨ file_portada taller_request_no_portada = None)
  ∧ ∃ msg,
      post_talleres env_ok fresh_1 taller_request_no_portada = Ret (Res 400 (JError msg None))
      ∧ run env_ok (post_talleres env_ok fresh_1 taller_request_no_portada) world_empty
        = (inr (Res 400 (JError msg None)), world_empty).
Proof.
  split; [right; right; reflexivity|].
  apply (taller_missing_input_is_400 env_ok fresh_1 taller_request_no_portada world_empty).
  right; right; reflexivity.
Defined.

(** ** Creating a taller *)

Lemma tallerParams_Item_key (g : Fresh) (req : TallerRequest) (n d loc : string) :
  item_key (tallerParams_Item g req n d loc) = Some (id_uuid g).
Proof. reflexivity. Qed.

Lemma tallerParams_Item_nivelDificultad (g : Fresh) (req : TallerRequest) (n d loc : string) :
  tallerParams_Item g req n d loc !! "nivelDificultad"
  = Some (or_default (body_nivelDificultad req) "FÁCIL").
Proof. reflexivity. Qed.

Lemma tallerParams_Item_portadaUrl (g : Fresh) (req : TallerRequest) (n d loc : string) :
  tallerParams_Item g req n d loc !! "portadaUrl" = Some (AStr loc).
Proof. reflexivity. Qed.

Lemma tallerParams_Item_slides (g : Fresh) (req : TallerRequest) (n d loc : string) :
  tallerParams_Item g req n d loc !! "slides" = Some (ASlides []).
Proof. reflexivity. Qed.

Section Create.
Context (env : Env) (g : Fresh) (req : TallerRequest).
Context (nombre descripcion : string) (portada : File).
Context (Hnombre : required (body_nombre req) = Some nombre).
Context (Hdescripcion : required (body_descripcion req) = Some descripcion).
Context (Hportada : file_portada req = Some portada).

Let Key := portada_Key env g portada.
Let o := mkObject (content portada) (mimetype portada).
Let Item := tallerParams_Item g req nombre descripcion (Location env Key).

(** What a valid create request does, by the fate of its two calls. *)
Lemma run_post_talleres (w : World) :
  run env (post_talleres env g req) w =
  match rejects env _ (S3Upload Key o) with
  | Some msg =>
      (inr (Res 500 (JError "Error al crear taller" (Some msg))),
       logged (Console error "Error al crear taller:")
         (logged (Called (S3Upload Key o) false) w))
  | None =>
      let w1 := logged (Called (S3Upload Key o) true)
                       (set_Bucket (<[Key := o]> (Bucket w)) w) in
      match rejects env _ (DdbPut Item) with
      | Some msg =>
          (inr (Res 500 (JError "Error al crear taller" (Some msg))),
           logged (Console error "Error al crear taller:")
             (logged (Called (DdbPut Item) false) w1))
      | None =>
          (inr (Res 201 (JTaller (delete "slides" Item))),
           logged (Called (DdbPut Item) true)
             (set_Talleres (<[id_uuid g := Item]> (Talleres w1)) w1))
      end
  end.
Proof.
  unfold post_talleres. rewrite Hnombre, Hdescripcion, Hportada.
  rewrite run_try_catch. unfold mbind, Prog_bind. rewrite run_bind, run_await.
  fold Key o. unfold perform at 1.
  destruct (rejects env _ (S3Upload Key o)) as [msg|]; [reflexivity|].
  cbn [serve]. rewrite run_bind, run_await. fold Item.
  unfold perform.
  destruct (rejects env _ (DdbPut Item)) as [msg|]; [reflexivity|].
  cbn [serve]. unfold Item at 1. rewrite tallerParams_Item_key. reflexivity.
Qed.
End Create.

(** C4: for a create request that passes validation, the handler answers
    and, in the calls it made: a [put] is only ever issued after the
    upload of the cover has resolved; when the upload is rejected the
    answer is the 500 "Error al crear taller", the table is unchanged and
    no [put] was issued; and the table changes only by the new record,
    whose [portadaUrl] is the location of the object that is then in the
    bucket. *)
Theorem portada_uploaded_before_record
    (env : Env) (g : Fresh) (req : TallerRequest)
    (nombre descripcion : string) (portada : File) (w : World) :
  required (body_nombre req) = Some nombre →
  required (body_descripcion req) = Some descripcion →
  file_portada req = Some portada →
  let Key := portada_Key env g portada in
  let o := mkObject (content portada) (mimetype portada) in
  let Item := tallerParams_Item g req nombre descripcion (Location env Key) in
  ∃ resp evs w',
    run env (post_talleres env g req) w = (inr resp, w')
    ∧ log w' = log w ++ evs
    ∧ (∀ i e, evs !! i = Some e → is_put e = true →
         ∃ j, j < i ∧ evs !! j = Some (Called (S3Upload Key o) true))
    ∧ (∀ msg, rejects env _ (S3Upload Key o) = Some msg →
         resp = Res 500 (JError "Error al crear taller" (Some msg))
         ∧ Talleres w' = Talleres w
         ∧ Bucket w' = Bucket w
         ∧ ∀ e, e ∈ evs → is_put e = false)
    ∧ (Talleres w' = Talleres w
       ∨ (status resp = 201
          ∧ Talleres w' = <[id_uuid g := Item]> (Talleres w)
          ∧ Item !! "portadaUrl" = Some (AStr (Location env Key))
          ∧ Bucket w' !! Key = Some o)).
Proof.
  intros Hn Hd Hp Key o Item.
  rewrite (run_post_talleres env g req nombre descripcion portada Hn Hd Hp).
  fold Key o. cbv zeta. fold Item.
  destruct (rejects env _ (S3Upload Key o)) as [msg|] eqn:Hup.
  - eexists _, [_; _], _. split; [reflexivity|]. split; [by (simpl; rewrite <- ?app_assoc)|].
    split_and!.
    + intros [|[|i]] e [= <-]; simpl; discriminate.
    + intros msg' [= <-]. split_and!; try done.
      intros e [->|[->|[]%elem_of_nil]%elem_of_cons]%elem_of_cons; done.
    + by left.
  - destruct (rejects env _ (DdbPut Item)) as [msg|] eqn:Hput.
    + eexists _, [_; _; _], _. split; [reflexivity|].
      split; [by (simpl; rewrite <- ?app_assoc)|]. split_and!.
      * intros [|[|[|i]]] e [= <-]; simpl; try discriminate.
        intros _. exists 0. split; [lia|done].
      * intros msg' [=].
      * by left.
    + eexists _, [_; _], _. split; [reflexivity|].
      split; [by (simpl; rewrite <- ?app_assoc)|]. split_and!.
      * intros [|[|i]] e [= <-]; simpl; try discriminate.
        intros _. exists 0. split; [lia|done].
      * intros msg' [=].
      * right. split_and!; try done. simpl. apply lookup_insert_eq.
Qed.

Lemma portada_uploaded_before_record_witness :
  required (body_nombre taller_request_1) = Some "Robots"
  ∧ required (body_descripcion taller_request_1) = Some "Taller de robots"
  ∧ file_portada taller_request_1 = Some file_1
  ∧ ∃ resp evs w',
      run env_ok (post_talleres env_ok fresh_1 taller_request_1) world_empty = (inr resp, w')
      ∧ log w' = log world_empty ++ evs
      ∧ status resp = 201.
Proof.
  split_and!; [reflexivity..|].
  destruct (portada_uploaded_before_record env_ok fresh_1 taller_request_1
              "Robots" "Taller de robots" file_1 world_empty eq_refl eq_refl eq_refl)
    as (resp & evs & w' & Hrun & Hlog & _).
  exists resp, evs, w'. split_and!; [done..|].
  rewrite (run_post_talleres env_ok fresh_1 taller_request_1 _ _ _ eq_refl eq_refl eq_refl)
    in Hrun.
  by injection Hrun as <- _.
Defined.

(** C9 (as the code has it): when a create request carries no
    [nivelDificultad] and the taller is created (201), the record written
    under the new id, and the body of the answer, have [nivelDificultad]
    equal to the default of the source, the string "FÁCIL". *)
Theorem nivelDificultad_defaults_to_FACIL
    (env : Env) (g : Fresh) (req : TallerRequest) (w w' : World) (resp : Response) :
  body_nivelDificultad req = None →
  run env (post_talleres env g req) w = (inr resp, w') →
  status resp = 201 →
  ∃ Item body,
    Talleres w' !! id_uuid g = Some Item
    ∧ Item !! "nivelDificultad" = Some (AStr "FÁCIL")
    ∧ json resp = JTaller body
    ∧ body !! "nivelDificultad" = Some (AStr "FÁCIL").
Proof.
  intros Hnivel Hrun H201.
  destruct (required (body_nombre req)) as [nombre|] eqn:Hn;
    [destruct (required (body_descripcion req)) as [descr|] eqn:Hd;
       [destruct (file_portada req) as [portada|] eqn:Hp|]|].
  - rewrite (run_post_talleres env g req nombre descr portada Hn Hd Hp) in Hrun.
    cbv zeta in Hrun.
    destruct (rejects env _ (S3Upload _ _)); [by injection Hrun as <- _|].
    destruct (rejects env _ (DdbPut _)); [by injection Hrun as <- _|].
    injection Hrun as <- <-. eexists _, _. split; [apply lookup_insert_eq|].
    split; [|split; [reflexivity|]].
    + by rewrite tallerParams_Item_nivelDificultad, Hnivel.
    + rewrite lookup_delete_ne by done.
      by rewrite tallerParams_Item_nivelDificultad, Hnivel.
  - unfold post_talleres in Hrun. rewrite Hn, Hd, Hp in Hrun. by injection Hrun as <- _.
  - unfold post_talleres in Hrun. rewrite Hn, Hd in Hrun. by injection Hrun as <- _.
  - unfold post_talleres in Hrun. rewrite Hn in Hrun. by injection Hrun as <- _.
Qed.

Lemma run_taller_request_1 :
  run env_ok (post_talleres env_ok fresh_1 taller_request_1) world_empty
  = (inr response_1, world_1).
Proof.
  unfold world_1.
  by rewrite (run_post_talleres env_ok fresh_1 taller_request_1 _ _ _ eq_refl eq_refl eq_refl).
Qed.

Lemma Talleres_world_1 : Talleres world_1 = <["id-1" := Item_1]> ∅.
Proof.
  unfold world_1.
  by rewrite (run_post_talleres env_ok fresh_1 taller_request_1 _ _ _ eq_refl eq_refl eq_refl).
Qed.

Lemma nivelDificultad_defaults_to_FACIL_witness :
  body_nivelDificultad taller_request_1 = None
  ∧ run env_ok (post_talleres env_ok fresh_1 taller_request_1) world_empty
    = (inr response_1, world_1)
  ∧ status response_1 = 201
  ∧ ∃ Item body,
      Talleres world_1 !! id_uuid fresh_1 = Some Item
      ∧ Item !! "nivelDificultad" = Some (AStr "FÁCIL")
      ∧ json response_1 = JTaller body
      ∧ body !! "nivelDificultad" = Some (AStr "FÁCIL").
Proof.
  split_and!; [reflexivity|exact run_taller_request_1|reflexivity|].
  exact (nivelDificultad_defaults_to_FACIL env_ok fresh_1 taller_request_1
           world_empty world_1 response_1 eq_refl run_taller_request_1 eq_refl).
Defined.

(** C9 as the spec words it fails: a taller created without
    [nivelDificultad] does not get the value "EASY". *)
Lemma nivelDificultad_default_is_not_EASY :
  body_nivelDificultad taller_request_1 = None
  ∧ run env_ok (post_talleres env_ok fresh_1 taller_request_1) world_empty
    = (inr response_1, world_1)
  ∧ status response_1 = 201
  ∧ ∃ Item,
      Talleres world_1 !! id_uuid fresh_1 = Some Item
      ∧ Item !! "nivelDificultad" = Some (AStr "FÁCIL")
      ∧ Item !! "nivelDificultad" ≠ Some (AStr "EASY").
Proof.
  split_and!; [reflexivity|exact run_taller_request_1|reflexivity|].
  exists Item_1. split_and!.
  - rewrite Talleres_world_1. apply lookup_insert_eq.
  - reflexivity.
  - unfold Item_1. rewrite tallerParams_Item_nivelDificultad. simpl. intros [=].
Qed.

(** ** Adding a slide *)

Section AddSlide.
Context (env : Env) (g : Fresh).

Lemma run_upload_imagen (tallerId : string) (imagen : option File) (w : World) :
  run env (upload_imagen env g tallerId imagen) w =
  match imagen with
  | None => (inr None, w)
  | Some f =>
      let Key := imagen_Key env g tallerId f in
      let o := mkObject (content f) (mimetype f) in
      match rejects env _ (S3Upload Key o) with
      | Some msg => (inl msg, logged (Called (S3Upload Key o) false) w)
      | None => (inr (Some (Location env Key)),
                 logged (Called (S3Upload Key o) true)
                        (set_Bucket (<[Key := o]> (Bucket w)) w))
      end
  end.
Proof.
  destruct imagen as [f|]; [|reflexivity].
  unfold upload_imagen, mbind, Prog_bind. rewrite run_bind, run_await.
  cbv zeta. unfold perform.
  by destruct (rejects env _ (S3Upload _ _)).
Qed.

Lemma run_update_taller (tallerId : string) (taller_Item : Item) (descripcion : string)
    (imagenUrl : option string) (w : World) :
  run env (update_taller g tallerId taller_Item descripcion imagenUrl) w =
  let slide := nuevoSlide g taller_Item descripcion imagenUrl in
  let c := DdbUpdate tallerId (updateExpression taller_Item) [slide] (updated_date g) in
  match rejects env _ c with
  | Some msg => (inl msg, logged (Called c false) w)
  | None =>
      match apply_update (updateExpression taller_Item) [slide] (updated_date g)
              (default {["id" := AStr tallerId]} (Talleres w !! tallerId)) with
      | Some new =>
          (inr (Res 201 (JSlide slide new)),
           logged (Called c true) (set_Talleres (<[tallerId := new]> (Talleres w)) w))
      | None => (inl "ValidationException", logged (Called c false) w)
      end
  end.
Proof.
  unfold update_taller, mbind, Prog_bind. rewrite run_bind, run_await.
  cbv zeta. unfold perform.
  destruct (rejects env _ (DdbUpdate _ _ _ _)); [reflexivity|].
  cbn [serve]. by destruct (apply_update _ _ _ _).
Qed.

Lemma run_post_talleres_slides (req : SlideRequest) (descripcion : string) (w : World) :
  required (slide_descripcion req) = Some descripcion →
  run env (post_talleres_slides env g req) w =
  let tallerId := params_tallerId req in
  let failed e w' :=
    (inr (Res 500 (JError "Error al agregar slide" (Some e))),
     logged (Console error "Error al agregar slide:") w') in
  match rejects env _ (DdbGet tallerId) with
  | Some msg => failed msg (logged (Called (DdbGet tallerId) false) w)
  | None =>
      let w1 := logged (Called (DdbGet tallerId) true) w in
      match Talleres w !! tallerId with
      | None => (inr (Res 404 (JError "Taller no encontrado" None)), w1)
      | Some taller_Item =>
          match run env (upload_imagen env g tallerId (file_imagen req)) w1 with
          | (inl e, w2) => failed e w2
          | (inr imagenUrl, w2) =>
              match run env (update_taller g tallerId taller_Item descripcion imagenUrl) w2 with
              | (inl e, w3) => failed e w3
              | (inr resp, w3) => (inr resp, w3)
              end
          end
      end
  end.
Proof.
  intros Hd. unfold post_talleres_slides. rewrite Hd.
  rewrite run_try_catch. unfold mbind, Prog_bind. rewrite run_bind, run_await.
  cbv zeta. unfold perform.
  destruct (rejects env _ (DdbGet _)); [reflexivity|].
  cbn [serve]. destruct (Talleres w !! params_tallerId req) as [taller_Item|]; [|reflexivity].
  unfold with_taller, mbind, Prog_bind. rewrite run_bind.
  destruct (run env (upload_imagen _ _ _ _) _) as [[e|imagenUrl] w2]; [reflexivity|].
  by destruct (run env (update_taller _ _ _ _ _) _) as [[e|resp] w3].
Qed.
End AddSlide.

(** C6 (as the code has it): when the table holds no taller under the id
    of a slide request, the handler answers without having issued any
    upload, and the bucket and the table are as they were; when moreover
    the request has its description and [dynamoDB.get] is answered, the
    answer is the 404 "Taller no encontrado" and the [get] is the only
    call made. *)
Theorem slide_for_unknown_taller_uploads_nothing
    (env : Env) (g : Fresh) (req : SlideRequest) (w : World) :
  Talleres w !! params_tallerId req = None →
  ∃ resp evs w',
    run env (post_talleres_slides env g req) w = (inr resp, w')
    ∧ log w' = log w ++ evs
    ∧ Bucket w' = Bucket w
    ∧ Talleres w' = Talleres w
    ∧ (∀ e, e ∈ evs → is_upload e = false)
    ∧ (∀ descripcion,
         required (slide_descripcion req) = Some descripcion →
         rejects env _ (DdbGet (params_tallerId req)) = None →
         resp = Res 404 (JError "Taller no encontrado" None)
         ∧ evs = [Called (DdbGet (params_tallerId req)) true]).
Proof.
  intros Hnone.
  destruct (required (slide_descripcion req)) as [descr|] eqn:Hd.
  - rewrite (run_post_talleres_slides env g req descr w Hd). cbv zeta.
    destruct (rejects env _ (DdbGet _)) as [msg|].
    + eexists _, [_; _], _. split; [reflexivity|].
      split; [by (simpl; rewrite <- ?app_assoc)|]. split_and!; try done.
      intros e [->|[->|[]%elem_of_nil]%elem_of_cons]%elem_of_cons; done.
    + rewrite Hnone. eexists _, [_], _. split; [reflexivity|].
      split_and!; try done.
      intros e [->|[]%elem_of_nil]%elem_of_cons; done.
  - unfold post_talleres_slides. rewrite Hd.
    eexists _, [], _. split; [reflexivity|]. split; [by rewrite app_nil_r|].
    split_and!; try done.
    intros e []%elem_of_nil.
Qed.

Lemma slide_for_unknown_taller_uploads_nothing_witness :
  Talleres world_empty !! params_tallerId slide_request_unknown = None
  ∧ ∃ resp evs w',
      run env_ok (post_talleres_slides env_ok fresh_1 slide_request_unknown) world_empty
      = (inr resp, w')
      ∧ log w' = log world_empty ++ evs
      ∧ Bucket w' = Bucket world_empty
      ∧ resp = Res 404 (JError "Taller no encontrado" None)
      ∧ evs = [Called (DdbGet "no-such-id") true].
Proof.
  split; [reflexivity|].
  destruct (slide_for_unknown_taller_uploads_nothing env_ok fresh_1 slide_request_unknown
              world_empty eq_refl)
    as (resp & evs & w' & Hrun & Hlog & Hb & _ & _ & H404).
  destruct (H404 "Cortar la madera" eq_refl eq_refl) as [-> ->].
  by eexists _, _, _.
Defined.

(** C6 as the spec words it fails: for an id that is not in the table, a
    request without description is answered 400, not 404. *)
Lemma slide_for_unknown_taller_not_always_404 :
  Talleres world_empty !! params_tallerId slide_request_no_descripcion = None
  ∧ ∃ resp,
      run env_ok (post_talleres_slides env_ok fresh_1 slide_request_no_descripcion) world_empty
      = (inr resp, world_empty)
      ∧ status resp = 400
      ∧ status resp ≠ 404.
Proof.
  split; [reflexivity|]. eexists. split; [reflexivity|]. split; [reflexivity|]. simpl. lia.
Qed.

(** The expression chosen from a record, applied to that same record. *)
Lemma apply_update_same (old new : Item) (v : list Slide) (u : string) :
  apply_update (updateExpression old) v u old = Some new →
  new = <["updatedAt" := AStr u]> (<["slides" := ASlides (slides_of old ++ v)]> old).
Proof.
  unfold updateExpression, slides_of, apply_update.
  destruct (old !! "slides") as [[|s|l]|] eqn:Hs; simpl.
  - by intros [= <-].
  - destruct (negb (String.eqb s "") && bool_decide (0 < String.length s));
      [discriminate|by intros [= <-]].
  - destruct (bool_decide (0 < length l)) eqn:Hl.
    + by intros [= <-].
    + apply bool_decide_eq_false in Hl. destruct l; [|simpl in Hl; lia].
      by intros [= <-].
  - by intros [= <-].
Qed.

(** On a record whose [slides] is a list, the expression chosen from the
    record appends to that list; on a record without [slides], it sets the
    list. *)
Lemma apply_update_list (it : Item) (l v : list Slide) (u : string) :
  it !! "slides" = Some (ASlides l) →
  apply_update (updateExpression it) v u it
  = Some (<["updatedAt" := AStr u]> (<["slides" := ASlides (l ++ v)]> it)).
Proof.
  intros Hs. unfold updateExpression, apply_update. rewrite Hs. simpl.
  destruct (bool_decide (0 < length l)) eqn:Hl; [done|].
  apply bool_decide_eq_false in Hl. destruct l; [done|simpl in Hl; lia].
Qed.

Lemma apply_update_well_typed (old : Item) (v : list Slide) (u : string) :
  slides_is_list old →
  apply_update (updateExpression old) v u old
  = Some (<["updatedAt" := AStr u]> (<["slides" := ASlides (slides_of old ++ v)]> old)).
Proof.
  intros [Hs|[l Hs]].
  - unfold updateExpression, slides_of, apply_update. by rewrite Hs.
  - rewrite (apply_update_list old l v u Hs). unfold slides_of. by rewrite Hs.
Qed.

(** C2: a slide request run alone, with its description, for a taller
    that is in the table with a list of slides or without [slides], and
    with no call rejected, is answered 201, and the record is replaced by
    one update call: the new record has, as [slides], the old list followed
    by the new slide (the new slide alone when the record had no [slides]),
    has [updatedAt] set by that same call, and is otherwise the old record;
    the answer carries the new slide and that whole new record.  And in
    every case (calls rejected or not, whatever the old record holds), a
    201 answer means exactly that change: the taller was in the table, one
    update call was made, and the answer carries the new record. *)
Theorem add_slide_appends_at_end
    (env : Env) (g : Fresh) (req : SlideRequest) (w : World) :
  (∀ descripcion old,
     reliable env →
     required (slide_descripcion req) = Some descripcion →
     Talleres w !! params_tallerId req = Some old →
     slides_is_list old →
     ∃ slide new evs w',
       slide = nuevoSlide g old descripcion (imagenUrl_of env g req)
       ∧ run env (post_talleres_slides env g req) w
         = (inr (Res 201 (JSlide slide new)), w')
       ∧ Talleres w' = <[params_tallerId req := new]> (Talleres w)
       ∧ (old !! "slides" = None → new !! "slides" = Some (ASlides [slide]))
       ∧ (∀ l, old !! "slides" = Some (ASlides l) →
               new !! "slides" = Some (ASlides (l ++ [slide])))
       ∧ new !! "updatedAt" = Some (AStr (updated_date g))
       ∧ (∀ f, f ≠ "slides" → f ≠ "updatedAt" → new !! f = old !! f)
       ∧ log w' = log w ++ evs
       ∧ filter (λ ev, is_update ev = true) evs
         = [Called (DdbUpdate (params_tallerId req) (updateExpression old) [slide]
                              (updated_date g)) true])
  ∧ (∀ w' resp,
       run env (post_talleres_slides env g req) w = (inr resp, w') →
       status resp = 201 →
       ∃ old new slide evs e,
         Talleres w !! params_tallerId req = Some old
         ∧ new = <["updatedAt" := AStr (updated_date g)]>
                   (<["slides" := ASlides (slides_of old ++ [slide])]> old)
         ∧ Talleres w' = <[params_tallerId req := new]> (Talleres w)
         ∧ json resp = JSlide slide new
         ∧ log w' = log w ++ evs
         ∧ filter (λ ev, is_update ev = true) evs
           = [Called (DdbUpdate (params_tallerId req) e [slide] (updated_date g)) true]).
Proof.
  split.
  - intros descr old Hrel Hd Hold Hlist.
    exists (nuevoSlide g old descr (imagenUrl_of env g req)),
      (<["updatedAt" := AStr (updated_date g)]>
         (<["slides" := ASlides (slides_of old
                                  ++ [nuevoSlide g old descr (imagenUrl_of env g req)])]> old)).
    assert (∃ evs w',
      run env (post_talleres_slides env g req) w
      = (inr (Res 201 (JSlide (nuevoSlide g old descr (imagenUrl_of env g req))
           (<["updatedAt" := AStr (updated_date g)]>
              (<["slides" := ASlides (slides_of old
                   ++ [nuevoSlide g old descr (imagenUrl_of env g req)])]> old)))), w')
      ∧ Talleres w' = <[params_tallerId req :=
           <["updatedAt" := AStr (updated_date g)]>
              (<["slides" := ASlides (slides_of old
                   ++ [nuevoSlide g old descr (imagenUrl_of env g req)])]> old)]> (Talleres w)
      ∧ log w' = log w ++ evs
      ∧ filter (λ ev, is_update ev = true) evs
        = [Called (DdbUpdate (params_tallerId req) (updateExpression old)
                     [nuevoSlide g old descr (imagenUrl_of env g req)]
                     (updated_date g)) true]) as (evs & w' & Hrun & Htab & Hlog & Hupd).
    { rewrite (run_post_talleres_slides env g req descr w Hd). cbv zeta.
      rewrite Hrel, Hold, run_upload_imagen. unfold imagenUrl_of.
      destruct (file_imagen req) as [f|]; cbv zeta.
      - rewrite Hrel, run_update_taller. cbv zeta. rewrite Hrel.
        cbn [Talleres logged set_Bucket fmap option_fmap option_map].
        rewrite Hold. cbn [default from_option Datatypes.id].
        rewrite (apply_update_well_typed old _ _ Hlist).
        eexists [_; _; _], _. split; [reflexivity|]. split; [reflexivity|].
        split; [by (simpl; rewrite <- ?app_assoc)|reflexivity].
      - rewrite run_update_taller. cbv zeta. rewrite Hrel.
        cbn [Talleres logged fmap option_fmap option_map].
        rewrite Hold. cbn [default from_option Datatypes.id].
        rewrite (apply_update_well_typed old _ _ Hlist).
        eexists [_; _], _. split; [reflexivity|]. split; [reflexivity|].
        split; [by (simpl; rewrite <- ?app_assoc)|reflexivity]. }
    exists evs, w'. split; [reflexivity|]. split; [exact Hrun|]. split; [exact Htab|].
    split_and!.
    + intros Hs. rewrite lookup_insert_ne, lookup_insert_eq by discriminate.
      unfold slides_of. by rewrite Hs.
    + intros l Hs. rewrite lookup_insert_ne, lookup_insert_eq by discriminate.
      unfold slides_of. by rewrite Hs.
    + apply lookup_insert_eq.
    + intros f Hf1 Hf2. by rewrite !lookup_insert_ne.
    + exact Hlog.
    + exact Hupd.
  - intros w' resp Hrun H201.
    destruct (required (slide_descripcion req)) as [descr|] eqn:Hd.
    2: { unfold post_talleres_slides in Hrun. rewrite Hd in Hrun. by injection Hrun as <- _. }
    rewrite (run_post_talleres_slides env g req descr w Hd) in Hrun. cbv zeta in Hrun.
    destruct (rejects env _ (DdbGet _)); [by injection Hrun as <- _|].
    destruct (Talleres w !! params_tallerId req) as [old|] eqn:Hold;
      [|by injection Hrun as <- _].
    rewrite run_upload_imagen in Hrun.
    destruct (file_imagen req) as [f|].
    + cbv zeta in Hrun.
      destruct (rejects env _ (S3Upload _ _)); [by injection Hrun as <- _|].
      rewrite run_update_taller in Hrun. cbv zeta in Hrun.
      destruct (rejects env _ (DdbUpdate _ _ _ _)); [by injection Hrun as <- _|].
      cbn [Talleres logged set_Bucket] in Hrun. rewrite Hold in Hrun.
      cbn [default from_option Datatypes.id] in Hrun.
      destruct (apply_update _ _ _ old) as [new|] eqn:Hupd; [|by injection Hrun as <- _].
      apply apply_update_same in Hupd. injection Hrun as <- <-.
      eexists old, new, _, [_; _; _], _. split_and!; try done.
      all: by (simpl; rewrite <- ?app_assoc).
    + rewrite run_update_taller in Hrun. cbv zeta in Hrun.
      destruct (rejects env _ (DdbUpdate _ _ _ _)); [by injection Hrun as <- _|].
      cbn [Talleres logged] in Hrun. rewrite Hold in Hrun.
      cbn [default from_option Datatypes.id] in Hrun.
      destruct (apply_update _ _ _ old) as [new|] eqn:Hupd; [|by injection Hrun as <- _].
      apply apply_update_same in Hupd. injection Hrun as <- <-.
      eexists old, new, _, [_; _], _. split_and!; try done.
      all: by (simpl; rewrite <- ?app_assoc).
Qed.

Lemma run_slide_request_1 :
  run env_ok (post_talleres_slides env_ok fresh_2 slide_request_1) world_1
  = (inr (Res 201 (JSlide slide_1 Item_2)), world_2).
Proof. vm_compute. reflexivity. Qed.

(** One request, served by a reliable environment, on a taller that has a
    list of slides. *)
Lemma run_post_talleres_slides_ok (env : Env) (g : Fresh) (req : SlideRequest)
    (descr : string) (w : World) (it : Item) (l : list Slide) :
  reliable env →
  required (slide_descripcion req) = Some descr →
  Talleres w !! params_tallerId req = Some it →
  it !! "slides" = Some (ASlides l) →
  let slide := nuevoSlide g it descr (imagenUrl_of env g req) in
  let new := <["updatedAt" := AStr (updated_date g)]>
               (<["slides" := ASlides (l ++ [slide])]> it) in
  ∃ w', run env (post_talleres_slides env g req) w = (inr (Res 201 (JSlide slide new)), w')
        ∧ Talleres w' = <[params_tallerId req := new]> (Talleres w).
Proof.
  intros Hrel Hd Hit Hs slide new. subst slide new.
  rewrite (run_post_talleres_slides env g req descr w Hd). cbv zeta.
  rewrite Hrel, Hit, run_upload_imagen.
  unfold imagenUrl_of.
  destruct (file_imagen req) as [f|]; cbv zeta.
  - rewrite Hrel, run_update_taller. cbv zeta. rewrite Hrel.
    cbn [Talleres logged set_Bucket fmap option_fmap option_map].
    rewrite Hit. cbn [default from_option Datatypes.id].
    rewrite (apply_update_list it l _ _ Hs). eexists; split; reflexivity.
  - rewrite run_update_taller. cbv zeta. rewrite Hrel.
    cbn [Talleres logged fmap option_fmap option_map].
    rewrite Hit. cbn [default from_option Datatypes.id].
    rewrite (apply_update_list it l _ _ Hs). eexists; split; reflexivity.
Qed.

Lemma reliable_env_ok : reliable env_ok.
Proof. intros R c. reflexivity. Qed.

Lemma Talleres_world_1_lookup : Talleres world_1 !! "id-1" = Some Item_1.
Proof. rewrite Talleres_world_1. apply lookup_insert_eq. Qed.

Lemma Talleres_world_2_lookup : Talleres world_2 !! "id-1" = Some Item_2.
Proof.
  destruct (run_post_talleres_slides_ok env_ok fresh_2 slide_request_1 "Cortar la madera"
              world_1 Item_1 [] reliable_env_ok eq_refl Talleres_world_1_lookup eq_refl)
    as (w' & Hrun & Hw').
  unfold world_2. rewrite Hrun. simpl. rewrite Hw'. apply lookup_insert_eq.
Qed.

Lemma Talleres_world_3 : Talleres world_3 = <["id-2" := Item_3]> (Talleres world_2).
Proof.
  unfold world_3.
  by rewrite (run_post_talleres env_ok fresh_5 taller_request_1 _ _ _ eq_refl eq_refl eq_refl).
Qed.

Lemma add_slide_appends_at_end_witness :
  (reliable env_ok
   ∧ required (slide_descripcion slide_request_2) = Some "Lijar los bordes"
   ∧ Talleres world_2 !! "id-1" = Some Item_2
   ∧ Item_2 !! "slides" = Some (ASlides [slide_1])
   ∧ ∃ new w',
       run env_ok (post_talleres_slides env_ok fresh_3 slide_request_2) world_2
       = (inr (Res 201 (JSlide slide_2 new)), w')
       ∧ Talleres w' = <["id-1" := new]> (Talleres world_2)
       ∧ new !! "slides" = Some (ASlides [slide_1; slide_2])
       ∧ new !! "updatedAt" = Some (AStr (updated_date fresh_3)))
  ∧ (Talleres world_no_slides !! "id-1" = Some Item_no_slides
     ∧ Item_no_slides !! "slides" = None
     ∧ ∃ new w',
         run env_ok (post_talleres_slides env_ok fresh_3 slide_request_2) world_no_slides
         = (inr (Res 201 (JSlide slide_no_slides new)), w')
         ∧ Talleres w' = <["id-1" := new]> (Talleres world_no_slides)
         ∧ new !! "slides" = Some (ASlides [slide_no_slides]))
  ∧ (run env_ok (post_talleres_slides env_ok fresh_2 slide_request_1) world_1
     = (inr (Res 201 (JSlide slide_1 Item_2)), world_2)
     ∧ status (Res 201 (JSlide slide_1 Item_2)) = 201
     ∧ ∃ old new slide evs e,
         Talleres world_1 !! "id-1" = Some old
         ∧ new = <["updatedAt" := AStr (updated_date fresh_2)]>
                   (<["slides" := ASlides (slides_of old ++ [slide])]> old)
         ∧ Talleres world_2 = <["id-1" := new]> (Talleres world_1)
         ∧ json (Res 201 (JSlide slide_1 Item_2)) = JSlide slide new
         ∧ log world_2 = log world_1 ++ evs
         ∧ filter (λ ev, is_update ev = true) evs
           = [Called (DdbUpdate "id-1" e [slide] (updated_date fresh_2)) true]).
Proof.
  assert (Item_2 !! "slides" = Some (ASlides [slide_1])) as Hs2.
  { unfold Item_2. rewrite lookup_insert_ne by discriminate. apply lookup_insert_eq. }
  assert (Talleres world_no_slides !! "id-1" = Some Item_no_slides) as H0
    by apply lookup_singleton_eq.
  assert (Item_no_slides !! "slides" = None) as Hs0 by apply lookup_delete_eq.
  split; [|split].
  - split; [exact reliable_env_ok|]. split; [reflexivity|].
    split; [exact Talleres_world_2_lookup|]. split; [exact Hs2|].
    destruct (proj1 (add_slide_appends_at_end env_ok fresh_3 slide_request_2 world_2)
                "Lijar los bordes" Item_2 reliable_env_ok eq_refl Talleres_world_2_lookup
                (or_intror (ex_intro _ _ Hs2)))
      as (slide & new & evs & w' & -> & Hrun & Htab & _ & Happ & Hupd & _).
    exists new, w'. exact (conj Hrun (conj Htab (conj (Happ _ Hs2) Hupd))).
  - split; [exact H0|]. split; [exact Hs0|].
    destruct (proj1 (add_slide_appends_at_end env_ok fresh_3 slide_request_2 world_no_slides)
                "Lijar los bordes" Item_no_slides reliable_env_ok eq_refl H0 (or_introl Hs0))
      as (slide & new & evs & w' & -> & Hrun & Htab & Hset & _).
    exists new, w'. exact (conj Hrun (conj Htab (Hset Hs0))).
  - split; [exact run_slide_request_1|]. split; [reflexivity|].
    exact (proj2 (add_slide_appends_at_end env_ok fresh_2 slide_request_1 world_1) world_2
             (Res 201 (JSlide slide_1 Item_2)) run_slide_request_1 eq_refl).
Defined.

(** ** Slides appended one request after the other *)

Lemma nuevo_titulo_list (it : Item) (l : list Slide) :
  it !! "slides" = Some (ASlides l) →
  nuevo_titulo it = "Paso " +:+ to_string (length l + 1).
Proof. intros Hs. unfold nuevo_titulo. by rewrite Hs. Qed.

Lemma run_seq_slides (env : Env) (tallerId : string) (reqs : list (Fresh * SlideRequest)) :
  reliable env →
  Forall (λ gr, params_tallerId gr.2 = tallerId
                ∧ ∃ descr, required (slide_descripcion gr.2) = Some descr) reqs →
  ∀ (w : World) (it : Item) (l : list Slide),
    Talleres w !! tallerId = Some it →
    it !! "slides" = Some (ASlides l) →
    ∃ it',
      Talleres (run_seq env (slide_handlers env reqs) w).2 !! tallerId = Some it'
      ∧ it' !! "slides" = Some (ASlides (l ++ expected_slides env (length l) reqs))
      ∧ Forall (λ r, ∃ resp, r = inr resp ∧ status resp = 201)
               (run_seq env (slide_handlers env reqs) w).1.
Proof.
  intros Hrel. induction 1 as [|[g req] reqs [Hid [descr Hd]] _ IH]; intros w it l Hit Hs.
  - exists it. simpl. by rewrite app_nil_r.
  - simpl in Hid, Hd. subst tallerId.
    destruct (run_post_talleres_slides_ok env g req descr w it l Hrel Hd Hit Hs)
      as (w1 & Hrun & Hw1).
    cbn [slide_handlers fmap list_fmap run_seq fst snd]. rewrite Hrun.
    fold (slide_handlers env reqs).
    edestruct (IH w1) as (it' & Hit' & Hs' & Hall).
    { rewrite Hw1. apply lookup_insert_eq. }
    { rewrite lookup_insert_ne by done. apply lookup_insert_eq. }
    destruct (run_seq env (slide_handlers env reqs) w1) as [rs w2].
    exists it'. split; [done|]. split.
    + rewrite Hs'. f_equal. f_equal. rewrite <- app_assoc. f_equal. simpl. f_equal.
      * unfold nuevoSlide. rewrite (nuevo_titulo_list it l Hs).
        apply required_Some in Hd as [-> _]. reflexivity.
      * rewrite length_app. simpl. by rewrite Nat.add_1_r.
    + constructor; [by eexists|done].
Qed.

Lemma expected_slides_length (env : Env) (n : nat) (reqs : list (Fresh * SlideRequest)) :
  length (expected_slides env n reqs) = length reqs.
Proof.
  revert n. induction reqs as [|[g req] reqs IH]; intros n; simpl; [done|by rewrite IH].
Qed.

Lemma expected_slides_lookup (env : Env) (n i : nat) (reqs : list (Fresh * SlideRequest))
    (g : Fresh) (req : SlideRequest) (s : Slide) :
  reqs !! i = Some (g, req) →
  expected_slides env n reqs !! i = Some s →
  titulo s = "Paso " +:+ to_string (n + i + 1)
  ∧ descripcion s = default "" (slide_descripcion req)
  ∧ imagenUrl s = imagenUrl_of env g req
  ∧ id s = id_uuid g
  ∧ createdAt s = created_date g.
Proof.
  revert n i. induction reqs as [|[g' req'] reqs IH]; intros n [|i]; simpl; try done.
  - intros [= -> ->] [= <-]. simpl. by rewrite Nat.add_0_r.
  - intros Hreq Hs. destruct (IH (S n) i Hreq Hs) as (Ht & Hrest).
    split; [|done]. rewrite Ht. do 2 f_equal. lia.
Qed.

(** C3 (as the code has it): slide requests for one taller, all with a
    description, served one after the other by a reliable environment, are
    all answered 201, and the taller's list is the old list followed by one
    slide per request, in the order of the requests; the slide of the
    [i]-th request (from 0) is titled "Paso " followed by one plus the
    number of slides present when it was added, and has the description
    that was sent, the location of the image that was sent ([null] without
    one) and the id drawn for it.  On a taller without slides the titles
    are "Paso 1", "Paso 2", ... in that order. *)
Theorem sequential_slides_are_numbered
    (env : Env) (tallerId : string) (reqs : list (Fresh * SlideRequest))
    (w : World) (it : Item) (l : list Slide) :
  reliable env →
  Forall (λ gr, params_tallerId gr.2 = tallerId
                ∧ ∃ descr, required (slide_descripcion gr.2) = Some descr) reqs →
  Talleres w !! tallerId = Some it →
  it !! "slides" = Some (ASlides l) →
  let out := run_seq env (slide_handlers env reqs) w in
  ∃ it' news,
    Talleres out.2 !! tallerId = Some it'
    ∧ it' !! "slides" = Some (ASlides (l ++ news))
    ∧ length news = length reqs
    ∧ Forall (λ r, ∃ resp, r = inr resp ∧ status resp = 201) out.1
    ∧ (∀ i g req s,
         reqs !! i = Some (g, req) → news !! i = Some s →
         titulo s = "Paso " +:+ to_string (length l + i + 1)
         ∧ slide_descripcion req = Some (descripcion s)
         ∧ imagenUrl s = imagenUrl_of env g req
         ∧ id s = id_uuid g)
    ∧ (l = [] →
       ∀ i s, (l ++ news) !! i = Some s → titulo s = "Paso " +:+ to_string (i + 1)).
Proof.
  intros Hrel Hreqs Hit Hs out.
  destruct (run_seq_slides env tallerId reqs Hrel Hreqs w it l Hit Hs)
    as (it' & Hit' & Hs' & Hall).
  exists it', (expected_slides env (length l) reqs).
  split_and!; try done.
  - apply expected_slides_length.
  - intros i g req s Hreq Hnew.
    destruct (expected_slides_lookup env (length l) i reqs g req s Hreq Hnew)
      as (Ht & Hdescr & Hurl & Hid & _).
    split_and!; try done.
    rewrite Forall_lookup in Hreqs. destruct (Hreqs i _ Hreq) as [_ [descr Hd]].
    simpl in Hd. apply required_Some in Hd as [Hd _]. rewrite Hdescr, Hd. reflexivity.
  - intros -> i s Hnew. simpl in Hnew.
    assert (is_Some (reqs !! i)) as [[g req] Hreq].
    { apply lookup_lt_is_Some. rewrite <- (expected_slides_length env 0).
      by eapply lookup_lt_Some. }
    by destruct (expected_slides_lookup env 0 i reqs g req s Hreq Hnew) as (-> & _).
Qed.

Lemma sequential_slides_are_numbered_witness :
  let reqs := [(fresh_2, slide_request_1); (fresh_3, slide_request_2)] in
  let out := run_seq env_ok (slide_handlers env_ok reqs) world_1 in
  ∃ it' news,
    Talleres out.2 !! "id-1" = Some it'
    ∧ it' !! "slides" = Some (ASlides ([] ++ news))
    ∧ length news = 2
    ∧ ∀ i s, ([] ++ news) !! i = Some s → titulo s = "Paso " +:+ to_string (i + 1).
Proof.
  intros reqs out.
  destruct (sequential_slides_are_numbered env_ok "id-1" reqs world_1 Item_1 [])
    as (it' & news & H1 & H2 & H3 & _ & _ & H4).
  - exact reliable_env_ok.
  - repeat constructor; by eexists.
  - exact Talleres_world_1_lookup.
  - reflexivity.
  - exists it', news. split_and!; [done..|]. by apply H4.
Defined.

(** C3 as the spec words it fails: the first slide of a taller is titled
    "Paso 1", not "Step 1". *)
Lemma first_slide_is_not_titled_Step_1 :
  Talleres world_1 !! "id-1" = Some Item_1
  ∧ Item_1 !! "slides" = Some (ASlides [])
  ∧ run env_ok (post_talleres_slides env_ok fresh_2 slide_request_1) world_1
    = (inr (Res 201 (JSlide slide_1 Item_2)), world_2)
  ∧ Item_2 !! "slides" = Some (ASlides [slide_1])
  ∧ titulo slide_1 = "Paso 1"
  ∧ titulo slide_1 ≠ "Step 1".
Proof.
  split_and!.
  - exact Talleres_world_1_lookup.
  - reflexivity.
  - exact run_slide_request_1.
  - unfold Item_2. rewrite lookup_insert_ne by done. apply lookup_insert_eq.
  - reflexivity.
  - intros [=].
Qed.

(** ** Two slide requests in flight for the same taller *)

Section Phases.
Context (env : Env) (g : Fresh) (req : SlideRequest) (descr : string).

Lemma updateExpression_nonempty (it : Item) (l : list Slide) :
  it !! "slides" = Some (ASlides l) → l ≠ [] →
  updateExpression it = SetSlidesListAppend.
Proof.
  intros Hs Hl. unfold updateExpression. rewrite Hs. simpl.
  rewrite bool_decide_eq_true_2; [done|]. destruct l; [done|simpl; lia].
Qed.

Lemma Phase_step (n : nat) (p : Prog Response) (o : option Slide)
    (l0 added : list Slide) (w : World) :
  reliable env →
  required (slide_descripcion req) = Some descr →
  l0 ≠ [] →
  Phase env g req descr n p o → holds (params_tallerId req) l0 added w →
  ∃ o', Phase env g req descr (n - 1) (step env p w).1 o'
        ∧ ((o' = o ∧ holds (params_tallerId req) l0 added (step env p w).2)
           ∨ (o = None
              ∧ ∃ s, o' = Some s
                     ∧ holds (params_tallerId req) l0 (added ++ [s]) (step env p w).2)).
Proof.
  intros Hrel Hd Hl0 Hp (cur & Hcur & Hslides).
  destruct Hp as [n Hn|n it l Hn Hs Hl|n it l url Hn Hs Hl|n s it Hid Hdescr].
  - exists None. unfold post_talleres_slides. rewrite Hd. simpl.
    unfold perform. rewrite Hrel. simpl. rewrite Hcur. split.
    + apply (ph_read _ _ _ _ _ cur (l0 ++ added)); [lia|done|].
      destruct l0; [done|discriminate].
    + left. split; [done|]. by exists cur.
  - destruct (file_imagen req) as [f|] eqn:Hf.
    + exists None. unfold with_taller. rewrite Hf. simpl.
      unfold perform. rewrite Hrel. simpl. split.
      * apply (ph_uploaded _ _ _ _ _ it l); [lia|done..].
      * left. split; [done|]. by exists cur.
    + unfold with_taller. rewrite Hf. simpl.
      rewrite (updateExpression_nonempty it l Hs Hl).
      unfold perform. rewrite Hrel. simpl. rewrite Hcur. simpl. rewrite Hslides. simpl.
      eexists (Some _). split; [by apply ph_done|].
      right. split; [done|]. eexists. split; [done|].
      eexists. split; [apply lookup_insert_eq|].
      rewrite lookup_insert_ne by done. rewrite lookup_insert_eq.
      by rewrite <- app_assoc.
  - simpl. rewrite (updateExpression_nonempty it l Hs Hl).
    unfold perform. rewrite Hrel. simpl. rewrite Hcur. simpl. rewrite Hslides. simpl.
    eexists (Some _). split; [by apply ph_done|].
    right. split; [done|]. eexists. split; [done|].
    eexists. split; [apply lookup_insert_eq|].
    rewrite lookup_insert_ne by done. rewrite lookup_insert_eq.
    by rewrite <- app_assoc.
  - exists (Some s). simpl. split; [by apply ph_done|].
    left. split; [done|]. by exists cur.
Qed.

Lemma Phase_done (p : Prog Response) (o : option Slide) :
  Phase env g req descr 0 p o →
  ∃ s it, p = Ret (Res 201 (JSlide s it)) ∧ o = Some s
          ∧ id s = id_uuid g ∧ descripcion s = descr.
Proof. inversion 1; subst; try lia. by eexists _, _. Qed.
End Phases.

Lemma turns_cons_same (who : bool) (sched : list bool) :
  turns who (who :: sched) = S (turns who sched).
Proof. unfold turns. by rewrite filter_cons_True. Qed.

Lemma turns_cons_other (who b : bool) (sched : list bool) :
  b ≠ who → turns who (b :: sched) = turns who sched.
Proof. intros H. unfold turns. by rewrite filter_cons_False. Qed.

Section TwoRequests.
Context (env : Env) (g1 g2 : Fresh) (req1 req2 : SlideRequest) (d1 d2 : string).
Context (l0 : list Slide).
Context (Hrel : reliable env).
Context (Hd1 : required (slide_descripcion req1) = Some d1).
Context (Hd2 : required (slide_descripcion req2) = Some d2).
Context (Hsame : params_tallerId req2 = params_tallerId req1).
Context (Hl0 : l0 ≠ []).

(** Whatever the schedule, once both requests have had their turns both
    are answered 201 and the taller holds the old slides and then the
    two new ones. *)
Lemma run_par_slides (sched : list bool) :
  ∀ (n1 n2 : nat) (p q : Prog Response) (o1 o2 : option Slide)
    (added : list Slide) (w : World),
    Phase env g1 req1 d1 n1 p o1 →
    Phase env g2 req2 d2 n2 q o2 →
    holds (params_tallerId req1) l0 added w →
    added ≡ₚ option_list o1 ++ option_list o2 →
    (n1 ≤ turns true sched)%nat →
    (n2 ≤ turns false sched)%nat →
    ∃ o1' o2' added',
      Phase env g1 req1 d1 0 (run_par env sched p q w).1.1 o1'
      ∧ Phase env g2 req2 d2 0 (run_par env sched p q w).1.2 o2'
      ∧ holds (params_tallerId req1) l0 added' (run_par env sched p q w).2
      ∧ added' ≡ₚ option_list o1' ++ option_list o2'.
Proof.
  induction sched as [|[] s IH]; intros n1 n2 p q o1 o2 added w Hp Hq Hw Hperm Hn1 Hn2.
  - assert (n1 = 0) as -> by (unfold turns in Hn1; simpl in Hn1; lia).
    assert (n2 = 0) as -> by (unfold turns in Hn2; simpl in Hn2; lia).
    by exists o1, o2, added.
  - rewrite turns_cons_same in Hn1. rewrite turns_cons_other in Hn2 by done.
    destruct (Phase_step env g1 req1 d1 n1 p o1 l0 added w Hrel Hd1 Hl0 Hp Hw)
      as (o1' & Hp' & Hstep).
    simpl. destruct (step env p w) as [p' w']. simpl in Hp', Hstep.
    destruct Hstep as [[-> Hw']|(-> & s1 & -> & Hw')].
    + apply (IH (n1 - 1) n2 p' q o1 o2 added w'); try done. lia.
    + apply (IH (n1 - 1) n2 p' q (Some s1) o2 (added ++ [s1]) w'); try done; [|lia].
      simpl in *. rewrite Hperm. by rewrite Permutation_app_comm.
  - rewrite turns_cons_same in Hn2. rewrite turns_cons_other in Hn1 by done.
    rewrite <- Hsame in Hw.
    destruct (Phase_step env g2 req2 d2 n2 q o2 l0 added w Hrel Hd2 Hl0 Hq Hw)
      as (o2' & Hq' & Hstep).
    simpl. destruct (step env q w) as [q' w']. simpl in Hq', Hstep.
    destruct Hstep as [[-> Hw']|(-> & s2 & -> & Hw')]; rewrite Hsame in Hw'.
    + apply (IH n1 (n2 - 1) p q' o1 o2 added w'); try done. lia.
    + apply (IH n1 (n2 - 1) p q' o1 (Some s2) (added ++ [s2]) w'); try done; [|lia].
      simpl in *. rewrite app_nil_r in Hperm. by rewrite Hperm.
Qed.
End TwoRequests.

(** C1 (as the code has it): two slide requests with a description, for
    the same taller, whose list of slides in the table is not empty, are
    served by a reliable environment under any interleaving of their
    awaits: once each has had three turns, both are answered 201 and the
    taller's list is the old list followed by the two new slides, in one
    order or the other: exactly two elements more, none lost. *)
Theorem concurrent_slides_on_nonempty_list
    (env : Env) (g1 g2 : Fresh) (req1 req2 : SlideRequest) (d1 d2 : string)
    (sched : list bool) (w : World) (it : Item) (l : list Slide) :
  reliable env →
  required (slide_descripcion req1) = Some d1 →
  required (slide_descripcion req2) = Some d2 →
  params_tallerId req2 = params_tallerId req1 →
  Talleres w !! params_tallerId req1 = Some it →
  it !! "slides" = Some (ASlides l) →
  l ≠ [] →
  (3 ≤ turns true sched)%nat →
  (3 ≤ turns false sched)%nat →
  ∃ s1 s2 it1 it2 w' it' news,
    run_par env sched (post_talleres_slides env g1 req1) (post_talleres_slides env g2 req2) w
    = (Ret (Res 201 (JSlide s1 it1)), Ret (Res 201 (JSlide s2 it2)), w')
    ∧ id s1 = id_uuid g1 ∧ descripcion s1 = d1
    ∧ id s2 = id_uuid g2 ∧ descripcion s2 = d2
    ∧ Talleres w' !! params_tallerId req1 = Some it'
    ∧ it' !! "slides" = Some (ASlides (l ++ news))
    ∧ news ≡ₚ [s1; s2]
    ∧ length (l ++ news) = length l + 2.
Proof.
  intros Hrel Hd1 Hd2 Hsame Hit Hs Hl H1 H2.
  destruct (run_par_slides env g1 g2 req1 req2 d1 d2 l Hrel Hd1 Hd2 Hsame Hl sched
              3 3 (post_talleres_slides env g1 req1) (post_talleres_slides env g2 req2)
              None None [] w)
    as (o1 & o2 & news & Hp & Hq & (it' & Hit' & Hs') & Hperm); try done.
  { by apply ph_start. }
  { by apply ph_start. }
  { exists it. by rewrite app_nil_r. }
  destruct (run_par env sched _ _ w) as [[p q] w']. simpl in *.
  apply Phase_done in Hp as (s1 & it1 & -> & -> & Hid1 & Hdescr1).
  apply Phase_done in Hq as (s2 & it2 & -> & -> & Hid2 & Hdescr2).
  exists s1, s2, it1, it2, w', it', news. split_and!; try done.
  rewrite length_app, Hperm. reflexivity.
Qed.

Lemma concurrent_slides_on_nonempty_list_witness :
  let sched := [true; false; false; true; true; false; false] in
  ∃ s1 s2 it1 it2 w' it' news,
    run_par env_ok sched (post_talleres_slides env_ok fresh_3 slide_request_2)
            (post_talleres_slides env_ok fresh_4 slide_request_3) world_2
    = (Ret (Res 201 (JSlide s1 it1)), Ret (Res 201 (JSlide s2 it2)), w')
    ∧ Talleres w' !! "id-1" = Some it'
    ∧ it' !! "slides" = Some (ASlides ([slide_1] ++ news))
    ∧ news ≡ₚ [s1; s2]
    ∧ length ([slide_1] ++ news) = 3.
Proof.
  intros sched.
  destruct (concurrent_slides_on_nonempty_list env_ok fresh_3 fresh_4
              slide_request_2 slide_request_3 "Lijar los bordes" "Pintar"
              sched world_2 Item_2 [slide_1])
    as (s1 & s2 & it1 & it2 & w' & it' & news & Hrun & _ & _ & _ & _ & Hit' & Hs' & Hperm & Hlen).
  - exact reliable_env_ok.
  - reflexivity.
  - reflexivity.
  - reflexivity.
  - exact Talleres_world_2_lookup.
  - reflexivity.
  - discriminate.
  - unfold turns. simpl. lia.
  - unfold turns. simpl. lia.
  - exists s1, s2, it1, it2, w', it', news.
    exact (conj Hrun (conj Hit' (conj Hs' (conj Hperm Hlen)))).
Defined.

(** C1 as the spec words it fails: on a taller whose list of slides is
    empty, two requests that both read the taller before either writes are
    both answered 201, and the list ends with one slide, the second
    write having replaced the first. *)
Lemma concurrent_slides_on_empty_list_lose_one :
  let sched := [true; false; true; false] in
  let out := run_par env_ok sched (post_talleres_slides env_ok fresh_3 slide_request_2)
                     (post_talleres_slides env_ok fresh_4 slide_request_3) world_1 in
  slides_of <$> (Talleres world_1 !! "id-1") = Some []
  ∧ ∃ s1 s2 it1 it2,
      out.1 = (Ret (Res 201 (JSlide s1 it1)), Ret (Res 201 (JSlide s2 it2)))
      ∧ id s1 = "slide-2" ∧ id s2 = "slide-3"
      ∧ slides_of <$> (Talleres out.2 !! "id-1") = Some [s2]
      ∧ length [s2] ≠ 0 + 2.
Proof.
  intros sched out. split.
  - rewrite Talleres_world_1_lookup. reflexivity.
  - eexists _, _, _, _. split; [vm_compute; reflexivity|].
    split; [reflexivity|]. split; [reflexivity|].
    split; [vm_compute; reflexivity|]. simpl. lia.
Qed.

(** ** Deleting a taller *)

Section Delete.
Context (env : Env) (tallerId : string).

Let Prefix := "talleres/" +:+ tallerId +:+ "/".

(** What the handler does for a taller that is in the table, by the fate
    of its calls. *)
Lemma run_delete_taller (w : World) (it : Item) :
  Talleres w !! tallerId = Some it →
  rejects env _ (DdbGet tallerId) = None →
  run env (delete_taller tallerId) w =
  let w1 := logged (Called (DdbGet tallerId) true) w in
  let keys := with_prefix Prefix (map_to_list (Bucket w)).*1 in
  let Contents := take (MaxKeys env) keys in
  let IsTruncated := bool_decide (MaxKeys env < length keys) in
  match rejects env _ (S3ListObjectsV2 Prefix) with
  | Some msg => failed_delete msg (logged (Called (S3ListObjectsV2 Prefix) false) w1)
  | None =>
      let w2 := logged (Called (S3ListObjectsV2 Prefix) true) w1 in
      if bool_decide (0 < length Contents) then
        match rejects env _ (S3DeleteObjects Contents) with
        | Some msg => failed_delete msg (logged (Called (S3DeleteObjects Contents) false) w2)
        | None =>
            let w3 := logged (Called (S3DeleteObjects Contents) true)
                             (set_Bucket (delete_keys Contents (Bucket w2)) w2) in
            run_delete_record env tallerId
              (if IsTruncated then logged (Console warn warning_truncated) w3 else w3)
        end
      else run_delete_record env tallerId w2
  end.
Proof.
  intros Hit Hget. unfold delete_taller. rewrite run_try_catch.
  unfold mbind, Prog_bind. rewrite run_bind, run_await.
  unfold perform at 1. rewrite Hget. cbn [serve]. rewrite Hit.
  rewrite run_bind, run_await. fold Prefix. cbv zeta.
  unfold perform at 1.
  destruct (rejects env _ (S3ListObjectsV2 Prefix)) as [msg|]; [reflexivity|].
  cbn [serve fst snd Bucket logged].
  set (keys := with_prefix Prefix (map_to_list (Bucket w)).*1).
  set (Contents := take (MaxKeys env) keys).
  rewrite run_bind.
  destruct (bool_decide (0 < length Contents)).
  - rewrite run_bind, run_await. unfold perform at 1.
    destruct (rejects env _ (S3DeleteObjects Contents)) as [msg|]; [reflexivity|].
    cbn [serve fst snd].
    destruct (bool_decide (MaxKeys env < length keys)).
    + cbn [run]. rewrite run_bind, run_await. unfold run_delete_record, perform.
      by destruct (rejects env _ (DdbDelete tallerId)).
    + cbn [run]. rewrite run_bind, run_await. unfold run_delete_record, perform.
      by destruct (rejects env _ (DdbDelete tallerId)).
  - cbn [run]. rewrite run_bind, run_await. unfold run_delete_record, perform.
    by destruct (rejects env _ (DdbDelete tallerId)).
Qed.
End Delete.

(** C7: for a taller that is in the table (and a [get] that is answered),
    the handler answers and, in the calls it made: the record is deleted
    only after the bulk delete of the listed blobs has resolved; when the
    listing or the bulk delete is rejected the answer is the 500 "Error al
    eliminar taller", no delete of the record was issued and the table and
    the bucket are as they were; and when no call is rejected the answer is
    the 200 "Taller eliminado correctamente" and the record is gone, also
    when the listing was truncated, which only writes a warning to the
    console. *)
Theorem blobs_deleted_before_record (env : Env) (tallerId : string) (w : World) (it : Item) :
  Talleres w !! tallerId = Some it →
  rejects env _ (DdbGet tallerId) = None →
  let Prefix := "talleres/" +:+ tallerId +:+ "/" in
  let keys := with_prefix Prefix (map_to_list (Bucket w)).*1 in
  let Contents := take (MaxKeys env) keys in
  let IsTruncated := bool_decide (MaxKeys env < length keys) in
  ∃ resp evs w',
    run env (delete_taller tallerId) w = (inr resp, w')
    ∧ log w' = log w ++ evs
    ∧ (Contents ≠ [] →
       ∀ i e, evs !! i = Some e → is_delete_record e = true →
              ∃ j, j < i ∧ evs !! j = Some (Called (S3DeleteObjects Contents) true))
    ∧ (∀ msg,
         rejects env _ (S3ListObjectsV2 Prefix) = Some msg
         ∨ (rejects env _ (S3ListObjectsV2 Prefix) = None
            ∧ Contents ≠ []
            ∧ rejects env _ (S3DeleteObjects Contents) = Some msg) →
         resp = Res 500 (JError "Error al eliminar taller" (Some msg))
         ∧ Talleres w' = Talleres w
         ∧ Bucket w' = Bucket w
         ∧ ∀ e, e ∈ evs → is_delete_record e = false)
    ∧ (rejects env _ (S3ListObjectsV2 Prefix) = None →
       rejects env _ (S3DeleteObjects Contents) = None →
       rejects env _ (DdbDelete tallerId) = None →
       resp = Res 200 (JMessage "Taller eliminado correctamente")
       ∧ Talleres w' = delete tallerId (Talleres w)
       ∧ (Contents ≠ [] →
          Bucket w' = delete_keys Contents (Bucket w)
          ∧ (IsTruncated = true → Console warn warning_truncated ∈ evs))).
Proof.
  intros Hit Hget Prefix keys Contents IsTruncated.
  rewrite (run_delete_taller env tallerId w it Hit Hget). cbv zeta.
  fold Prefix keys Contents IsTruncated. unfold run_delete_record, failed_delete.
  destruct (rejects env _ (S3ListObjectsV2 Prefix)) as [msg|] eqn:Hlist.
  { eexists _, [_; _; _], _. split; [reflexivity|]. split; [log_is_extended|].
    split_and!.
    - intros _. preceded_by 0.
    - intros msg' [[= <-]|[[=] _]]. split_and!; try done. no_such_event.
    - intros [=]. }
  destruct (bool_decide (0 < length Contents)) eqn:Hlen.
  2: { apply bool_decide_eq_false in Hlen.
       assert (Contents = []) as Hnil by (destruct Contents; [done|simpl in Hlen; lia]).
       destruct (rejects env _ (DdbDelete tallerId)) as [msg|] eqn:Hdel.
       - eexists _, [_; _; _; _], _. split; [reflexivity|]. split; [log_is_extended|].
         split_and!; try done.
         + intros msg' [[=]|(_ & ? & _)]. done.
       - eexists _, [_; _; _], _. split; [reflexivity|]. split; [log_is_extended|].
         split_and!; try done.
         + intros msg' [[=]|(_ & ? & _)]. done. }
  destruct (rejects env _ (S3DeleteObjects Contents)) as [msg|] eqn:Hbulk.
  { eexists _, [_; _; _; _], _. split; [reflexivity|]. split; [log_is_extended|].
    split_and!.
    - intros _. preceded_by 0.
    - intros msg' [[=]|(_ & _ & [= <-])]. split_and!; try done. no_such_event.
    - intros _ [=]. }
  destruct IsTruncated eqn:Htrunc;
    destruct (rejects env _ (DdbDelete tallerId)) as [msg|] eqn:Hdel.
  - eexists _, [_; _; _; _; _; _], _. split; [reflexivity|]. split; [log_is_extended|].
    split_and!.
    + intros _. preceded_by 2.
    + intros msg' [[=]|(_ & _ & [=])].
    + intros _ _ [=].
  - eexists _, [_; _; _; _; _], _. split; [reflexivity|]. split; [log_is_extended|].
    split_and!.
    + intros _. preceded_by 2.
    + intros msg' [[=]|(_ & _ & [=])].
    + intros _ _ _. split_and!; try done. intros _. split; [done|]. intros _.
      do 3 apply list_elem_of_further. apply list_elem_of_here.
  - eexists _, [_; _; _; _; _], _. split; [reflexivity|]. split; [log_is_extended|].
    split_and!.
    + intros _. preceded_by 2.
    + intros msg' [[=]|(_ & _ & [=])].
    + intros _ _ [=].
  - eexists _, [_; _; _; _], _. split; [reflexivity|]. split; [log_is_extended|].
    split_and!.
    + intros _. preceded_by 2.
    + intros msg' [[=]|(_ & _ & [=])].
    + intros _ _ _. split_and!; try done.
Qed.

Lemma blobs_deleted_before_record_witness :
  Talleres world_2 !! "id-1" = Some Item_2
  ∧ rejects env_page_1 _ (DdbGet "id-1") = None
  ∧ ∃ resp evs w',
      run env_page_1 (delete_taller "id-1") world_2 = (inr resp, w')
      ∧ log w' = log world_2 ++ evs
      ∧ resp = Res 200 (JMessage "Taller eliminado correctamente")
      ∧ Talleres w' = delete "id-1" (Talleres world_2)
      ∧ Console warn warning_truncated ∈ evs.
Proof.
  split; [exact Talleres_world_2_lookup|]. split; [reflexivity|].
  destruct (blobs_deleted_before_record env_page_1 "id-1" world_2 Item_2
              Talleres_world_2_lookup eq_refl)
    as (resp & evs & w' & Hrun & Hlog & _ & _ & Hok).
  destruct (Hok eq_refl eq_refl eq_refl) as (Hresp & Htab & Hblobs).
  destruct Hblobs as [_ Hwarn].
  { vm_compute. discriminate. }
  exists resp, evs, w'.
  refine (conj Hrun (conj Hlog (conj Hresp (conj Htab (Hwarn _))))).
  vm_compute. reflexivity.
Defined.

(** ** Listing the talleres *)

Lemma project_lookup_Some (fields : list string) (it : Item) (f : string) (a : attr) :
  project fields it !! f = Some a ↔ it !! f = Some a ∧ f ∈ fields.
Proof. unfold project. by rewrite map_lookup_filter_Some. Qed.

Lemma project_lookup_in (fields : list string) (it : Item) (f : string) :
  f ∈ fields → project fields it !! f = it !! f.
Proof.
  intros Hf. destruct (it !! f) as [a|] eqn:Ha.
  - by apply project_lookup_Some.
  - unfold project. apply map_lookup_filter_None. by left.
Qed.


Lemma slides_not_projected : "slides" ∉ ProjectionExpression.
Proof.
  unfold ProjectionExpression. rewrite !elem_of_cons, elem_of_nil. intros H.
  repeat (destruct H as [H|H]; [discriminate H|]). done.
Qed.

Lemma run_get_talleres (env : Env) (w : World) :
  run env get_talleres w =
  match rejects env _ (DdbScan ProjectionExpression) with
  | Some msg =>
      (inr (Res 500 (JError "Error al obtener talleres" (Some msg))),
       logged (Console error "Error al obtener talleres:")
         (logged (Called (DdbScan ProjectionExpression) false) w))
  | None =>
      let items := (map_to_list (Talleres w)).*2 in
      (inr (Res 200 (JTalleres
                       (project ProjectionExpression <$> take (ScanPage env items) items))),
       logged (Called (DdbScan ProjectionExpression) true) w)
  end.
Proof.
  unfold get_talleres. rewrite run_try_catch. unfold mbind, Prog_bind.
  rewrite run_bind, run_await. unfold perform.
  by destruct (rejects env _ (DdbScan ProjectionExpression)).
Qed.




(** ** Reading a taller *)

Lemma run_get_taller (env : Env) (tallerId : string) (w : World) :
  run env (get_taller tallerId) w =
  match rejects env _ (DdbGet tallerId) with
  | Some msg =>
      (inr (Res 500 (JError "Error al obtener taller" (Some msg))),
       logged (Console error "Error al obtener taller:")
         (logged (Called (DdbGet tallerId) false) w))
  | None =>
      (inr (match Talleres w !! tallerId with
            | Some it => Res 200 (JTaller it)
            | None => Res 404 (JError "Taller no encontrado" None)
            end),
       logged (Called (DdbGet tallerId) true) w)
  end.
Proof.
  unfold get_taller. rewrite run_try_catch. unfold mbind, Prog_bind.
  rewrite run_bind, run_await. unfold perform.
  destruct (rejects env _ (DdbGet tallerId)); [reflexivity|].
  cbn [serve]. by destruct (Talleres w !! tallerId).
Qed.

(** X1: [GET /talleres/:tallerId] always answers and changes neither the
    table nor the bucket; when the [get] is answered the answer is 200
    with the whole record, slides included, if the id is in the table and
    the 404 "Taller no encontrado" if it is not; when the [get] is
    rejected the answer is the 500 "Error al obtener taller". *)
Theorem get_taller_answers_the_record (env : Env) (tallerId : string) (w : World) :
  ∃ resp w',
    run env (get_taller tallerId) w = (inr resp, w')
    ∧ Talleres w' = Talleres w
    ∧ Bucket w' = Bucket w
    ∧ (rejects env _ (DdbGet tallerId) = None →
       (∀ it, Talleres w !! tallerId = Some it → resp = Res 200 (JTaller it))
       ∧ (Talleres w !! tallerId = None →
          resp = Res 404 (JError "Taller no encontrado" None)))
    ∧ (∀ msg, rejects env _ (DdbGet tallerId) = Some msg →
         resp = Res 500 (JError "Error al obtener taller" (Some msg))).
Proof.
  rewrite run_get_taller.
  destruct (rejects env _ (DdbGet tallerId)) as [msg|].
  - eexists _, _. split; [reflexivity|]. split_and!; try done. by intros msg' [= <-].
  - eexists _, _. split; [reflexivity|]. split_and!; try done.
    intros _. split; [by intros it ->|by intros ->].
Qed.

(** ** More on creating a taller *)

(** A create request is answered 201 only when it passed validation and
    both calls were served. *)
Lemma post_talleres_201 (env : Env) (g : Fresh) (req : TallerRequest)
    (w w' : World) (resp : Response) :
  run env (post_talleres env g req) w = (inr resp, w') →
  status resp = 201 →
  ∃ nombre descripcion portada,
    required (body_nombre req) = Some nombre
    ∧ required (body_descripcion req) = Some descripcion
    ∧ file_portada req = Some portada
    ∧ let Key := portada_Key env g portada in
      let o := mkObject (content portada) (mimetype portada) in
      let Item := tallerParams_Item g req nombre descripcion (Location env Key) in
      resp = Res 201 (JTaller (delete "slides" Item))
      ∧ Talleres w' = <[id_uuid g := Item]> (Talleres w)
      ∧ Bucket w' = <[Key := o]> (Bucket w).
Proof.
  intros Hrun H201.
  destruct (required (body_nombre req)) as [nombre|] eqn:Hn;
    [destruct (required (body_descripcion req)) as [descr|] eqn:Hd;
       [destruct (file_portada req) as [portada|] eqn:Hp|]|].
  - rewrite (run_post_talleres env g req nombre descr portada Hn Hd Hp) in Hrun.
    cbv zeta in Hrun.
    destruct (rejects env _ (S3Upload _ _)).
    { apply (f_equal fst) in Hrun. simpl in Hrun. injection Hrun as <-. discriminate. }
    destruct (rejects env _ (DdbPut _)).
    { apply (f_equal fst) in Hrun. simpl in Hrun. injection Hrun as <-. discriminate. }
    pose proof (f_equal fst Hrun) as H1. pose proof (f_equal snd Hrun) as H2.
    cbn [fst snd] in H1, H2. clear Hrun H201. apply (inj inr) in H1. subst resp w'.
    exists nombre, descr, portada. split_and!; [done..|]. cbv zeta. split_and!; reflexivity.
  - unfold post_talleres in Hrun. rewrite Hn, Hd, Hp in Hrun.
    apply (f_equal fst) in Hrun. simpl in Hrun. injection Hrun as <-. discriminate.
  - unfold post_talleres in Hrun. rewrite Hn, Hd in Hrun.
    apply (f_equal fst) in Hrun. simpl in Hrun. injection Hrun as <-. discriminate.
  - unfold post_talleres in Hrun. rewrite Hn in Hrun.
    apply (f_equal fst) in Hrun. simpl in Hrun. injection Hrun as <-. discriminate.
Qed.

Lemma tallerParams_Item_lookups (g : Fresh) (req : TallerRequest) (n d loc : string) :
  let it := tallerParams_Item g req n d loc in
  it !! "id" = Some (AStr (id_uuid g))
  ∧ it !! "nombre" = Some (AStr n)
  ∧ it !! "descripcion" = Some (AStr d)
  ∧ it !! "carpetaS3" = Some (AStr (carpetaS3 (id_uuid g)))
  ∧ it !! "createdAt" = Some (AStr (created_date g))
  ∧ it !! "updatedAt" = None.
Proof. by split_and!. Qed.

(** X2: a taller that has just been created (201) is read back by
    [GET /talleres/:tallerId] as it was written: the answer is 200 with a
    record that has an empty list of slides, the id drawn for it, the name
    and description that were sent, [carpetaS3] = "talleres/<id>/" and no
    [updatedAt]; the body of the 201 is that record without its
    [slides]. *)
Theorem created_taller_is_read_back
    (env : Env) (g : Fresh) (req : TallerRequest) (w w' : World) (resp : Response) :
  run env (post_talleres env g req) w = (inr resp, w') →
  status resp = 201 →
  rejects env _ (DdbGet (id_uuid g)) = None →
  ∃ it,
    (run env (get_taller (id_uuid g)) w').1 = inr (Res 200 (JTaller it))
    ∧ json resp = JTaller (delete "slides" it)
    ∧ it !! "slides" = Some (ASlides [])
    ∧ it !! "id" = Some (AStr (id_uuid g))
    ∧ AStr <$> body_nombre req = it !! "nombre"
    ∧ AStr <$> body_descripcion req = it !! "descripcion"
    ∧ it !! "carpetaS3" = Some (AStr (carpetaS3 (id_uuid g)))
    ∧ it !! "updatedAt" = None.
Proof.
  intros Hrun H201 Hget.
  destruct (post_talleres_201 env g req w w' resp Hrun H201)
    as (nombre & descr & portada & Hn & Hd & Hp & -> & Htab & _).
  apply required_Some in Hn as [Hn _]. apply required_Some in Hd as [Hd _].
  eexists. rewrite run_get_taller, Hget, Htab, lookup_insert_eq.
  split; [reflexivity|]. split; [reflexivity|].
  destruct (tallerParams_Item_lookups g req nombre descr
              (Location env (portada_Key env g portada)))
    as (Hid & Hnombre & Hdescr & Hcarpeta & _ & Hupd).
  split_and!; try done.
  - by rewrite Hn, Hnombre.
  - by rewrite Hd, Hdescr.
Qed.

Lemma created_taller_is_read_back_witness :
  run env_ok (post_talleres env_ok fresh_1 taller_request_1) world_empty
  = (inr response_1, world_1)
  ∧ status response_1 = 201
  ∧ rejects env_ok _ (DdbGet (id_uuid fresh_1)) = None
  ∧ ∃ it,
      (run env_ok (get_taller (id_uuid fresh_1)) world_1).1 = inr (Res 200 (JTaller it))
      ∧ it !! "slides" = Some (ASlides []).
Proof.
  split; [exact run_taller_request_1|]. split; [reflexivity|]. split; [reflexivity|].
  destruct (created_taller_is_read_back env_ok fresh_1 taller_request_1 world_empty
              world_1 response_1 run_taller_request_1 eq_refl eq_refl)
    as (it & Hget & _ & Hslides & _).
  exists it. exact (conj Hget Hslides).
Defined.

(** X3: a taller that has just been created (201) appears in the listing
    of [GET /talleres] when the table, with the new record, fits in the
    first page of a scan: one element of the answer has, for each of the
    seven projected attributes, the value the 201 body has, with the new
    id; that element has no [carpetaS3], which the 201 body has. *)
Theorem created_taller_is_listed
    (env : Env) (g : Fresh) (req : TallerRequest) (w w' : World) (resp : Response) :
  run env (post_talleres env g req) w = (inr resp, w') →
  status resp = 201 →
  rejects env _ (DdbScan ProjectionExpression) = None →
  (size (Talleres w') ≤ ScanPage env (map_to_list (Talleres w')).*2)%nat →
  ∃ body Items x,
    json resp = JTaller body
    ∧ (run env get_talleres w').1 = inr (Res 200 (JTalleres Items))
    ∧ x ∈ Items
    ∧ x !! "id" = Some (AStr (id_uuid g))
    ∧ (∀ f, f ∈ ProjectionExpression → x !! f = body !! f)
    ∧ x !! "carpetaS3" = None
    ∧ body !! "carpetaS3" = Some (AStr (carpetaS3 (id_uuid g))).
Proof.
  intros Hrun H201 Hscan Hfit.
  destruct (post_talleres_201 env g req w w' resp Hrun H201)
    as (nombre & descr & portada & _ & _ & _ & -> & Htab & _).
  set (it := tallerParams_Item g req nombre descr (Location env (portada_Key env g portada))).
  exists (delete "slides" it), (project ProjectionExpression <$> (map_to_list (Talleres w')).*2),
    (project ProjectionExpression it).
  rewrite run_get_talleres, Hscan. cbv zeta.
  rewrite take_ge by (by rewrite length_fmap, length_map_to_list).
  split_and!; try done.
  - apply list_elem_of_fmap_2, list_elem_of_fmap. exists (id_uuid g, it).
    split; [done|]. apply elem_of_map_to_list. rewrite Htab. apply lookup_insert_eq.
  - intros f Hf. rewrite project_lookup_in by done.
    rewrite lookup_delete_ne; [done|]. intros <-. by apply slides_not_projected.
Qed.

Lemma created_taller_is_listed_witness :
  run env_ok (post_talleres env_ok fresh_1 taller_request_1) world_empty
  = (inr response_1, world_1)
  ∧ status response_1 = 201
  ∧ rejects env_ok _ (DdbScan ProjectionExpression) = None
  ∧ (size (Talleres world_1) ≤ ScanPage env_ok (map_to_list (Talleres world_1)).*2)%nat
  ∧ ∃ Items x,
      (run env_ok get_talleres world_1).1 = inr (Res 200 (JTalleres Items))
      ∧ x ∈ Items
      ∧ x !! "id" = Some (AStr "id-1")
      ∧ x !! "carpetaS3" = None.
Proof.
  assert (size (Talleres world_1) ≤ ScanPage env_ok (map_to_list (Talleres world_1)).*2)%nat
    as Hfit.
  { rewrite Talleres_world_1, map_size_insert_None, map_size_empty by apply lookup_empty.
    simpl. lia. }
  split; [exact run_taller_request_1|]. split; [reflexivity|]. split; [reflexivity|].
  split; [exact Hfit|].
  destruct (created_taller_is_listed env_ok fresh_1 taller_request_1 world_empty
              world_1 response_1 run_taller_request_1 eq_refl eq_refl Hfit)
    as (body & Items & x & _ & Hlist & Hx & Hid & _ & Hc & _).
  exists Items, x. exact (conj Hlist (conj Hx (conj Hid Hc))).
Defined.

(** X4: the listing of an empty table is the 200 answer with an empty
    array, and a rejected scan is answered by the 500 "Error al obtener
    talleres"; in both cases the table and the bucket are not changed. *)
Theorem listing_empty_or_rejected (env : Env) (w : World) :
  ∃ resp w',
    run env get_talleres w = (inr resp, w')
    ∧ Talleres w' = Talleres w
    ∧ Bucket w' = Bucket w
    ∧ (rejects env _ (DdbScan ProjectionExpression) = None → Talleres w = ∅ →
       resp = Res 200 (JTalleres []))
    ∧ (∀ msg, rejects env _ (DdbScan ProjectionExpression) = Some msg →
         resp = Res 500 (JError "Error al obtener talleres" (Some msg))).
Proof.
  rewrite run_get_talleres.
  destruct (rejects env _ (DdbScan ProjectionExpression)) as [msg|].
  - eexists _, _. split; [reflexivity|]. split_and!; try done. by intros msg' [= <-].
  - eexists _, _. split; [reflexivity|]. split_and!; try done.
    intros _ ->. cbv zeta. rewrite map_to_list_empty. by destruct (ScanPage env _).
Qed.

(** X5: when the cover of a valid create request has been uploaded and the
    [put] of the record is then rejected, the answer is the 500 "Error al
    crear taller", the table is as it was, and the cover stays in the
    bucket under its key: a blob that no record refers to. *)
Theorem rejected_put_leaves_the_cover
    (env : Env) (g : Fresh) (req : TallerRequest)
    (nombre descripcion : string) (portada : File) (msg : string) (w : World) :
  required (body_nombre req) = Some nombre →
  required (body_descripcion req) = Some descripcion →
  file_portada req = Some portada →
  let Key := portada_Key env g portada in
  let o := mkObject (content portada) (mimetype portada) in
  let Item := tallerParams_Item g req nombre descripcion (Location env Key) in
  rejects env _ (S3Upload Key o) = None →
  rejects env _ (DdbPut Item) = Some msg →
  ∃ w',
    run env (post_talleres env g req) w
    = (inr (Res 500 (JError "Error al crear taller" (Some msg))), w')
    ∧ Talleres w' = Talleres w
    ∧ Bucket w' = <[Key := o]> (Bucket w)
    ∧ Bucket w' !! Key = Some o.
Proof.
  intros Hn Hd Hp Key o Item Hup Hput.
  rewrite (run_post_talleres env g req nombre descripcion portada Hn Hd Hp).
  fold Key o. cbv zeta. fold Item. rewrite Hup, Hput.
  eexists. split; [reflexivity|]. split_and!; try done. apply lookup_insert_eq.
Qed.

Lemma rejected_put_leaves_the_cover_witness :
  ∃ w',
    run env_put_rejected (post_talleres env_put_rejected fresh_1 taller_request_1) world_empty
    = (inr (Res 500 (JError "Error al crear taller"
                       (Some "ProvisionedThroughputExceededException"))), w')
    ∧ Talleres w' = Talleres world_empty
    ∧ Bucket w' !! portada_Key env_put_rejected fresh_1 file_1
      = Some (mkObject "PNG-bytes" "image/png").
Proof.
  destruct (rejected_put_leaves_the_cover env_put_rejected fresh_1 taller_request_1
              "Robots" "Taller de robots" file_1 "ProvisionedThroughputExceededException"
              world_empty eq_refl eq_refl eq_refl eq_refl eq_refl)
    as (w' & Hrun & Htab & _ & Hblob).
  exists w'. exact (conj Hrun (conj Htab Hblob)).
Defined.

Lemma or_null_missing (f : option string) : missing f → or_null f = ANull.
Proof. by intros [->| ->]. Qed.

Lemma or_null_sent (f : option string) (v : string) :
  f = Some v → v ≠ "" → or_null f = AStr v.
Proof.
  intros -> Hv. simpl. by destruct (String.eqb_spec v "").
Qed.

Lemma or_default_sent (f : option string) (v d : string) :
  f = Some v → v ≠ "" → or_default f d = AStr v.
Proof.
  intros -> Hv. simpl. by destruct (String.eqb_spec v "").
Qed.

Lemma tallerParams_Item_optional (g : Fresh) (req : TallerRequest) (n d loc : string)
    (name : string) (get : TallerRequest → option string) :
  (name, get) ∈ optional_fields →
  tallerParams_Item g req n d loc !! name = Some (or_null (get req)).
Proof.
  unfold optional_fields. intros H.
  repeat (apply elem_of_cons in H as [[= -> ->]|H]; [reflexivity|]).
  by apply elem_of_nil in H.
Qed.

(** X6: in the record of a taller that has just been created (201), each
    of the eight optional text fields ([duracion], [materiales],
    [objetivos], [finalidades], [ciencia], [tecnologia], [ingenieria],
    [matematicas]) is [null] when it was absent or empty in the request
    and the string that was sent otherwise; [nivelDificultad] is the string
    that was sent when it is not empty, and "FÁCIL" when an empty string
    was sent. *)
Theorem optional_fields_are_null_or_as_sent
    (env : Env) (g : Fresh) (req : TallerRequest) (w w' : World) (resp : Response) :
  run env (post_talleres env g req) w = (inr resp, w') →
  status resp = 201 →
  ∃ it,
    Talleres w' !! id_uuid g = Some it
    ∧ (∀ name get, (name, get) ∈ optional_fields →
         (missing (get req) → it !! name = Some ANull)
         ∧ (∀ v, get req = Some v → v ≠ "" → it !! name = Some (AStr v)))
    ∧ (body_nivelDificultad req = Some "" → it !! "nivelDificultad" = Some (AStr "FÁCIL"))
    ∧ (∀ v, body_nivelDificultad req = Some v → v ≠ "" →
            it !! "nivelDificultad" = Some (AStr v)).
Proof.
  intros Hrun H201.
  destruct (post_talleres_201 env g req w w' resp Hrun H201)
    as (nombre & descr & portada & _ & _ & _ & _ & Htab & _).
  eexists. split; [rewrite Htab; apply lookup_insert_eq|]. split_and!.
  - intros name get Hin. rewrite (tallerParams_Item_optional _ _ _ _ _ _ _ Hin). split.
    + intros Hm. by rewrite or_null_missing.
    + intros v Hv Hne. by rewrite (or_null_sent _ v).
  - intros Hnivel. by rewrite tallerParams_Item_nivelDificultad, Hnivel.
  - intros v Hv Hne. by rewrite tallerParams_Item_nivelDificultad, (or_default_sent _ v).
Qed.

Lemma optional_fields_are_null_or_as_sent_witness :
  run env_ok (post_talleres env_ok fresh_1 taller_request_1) world_empty
  = (inr response_1, world_1)
  ∧ status response_1 = 201
  ∧ ∃ it,
      Talleres world_1 !! "id-1" = Some it
      ∧ it !! "duracion" = Some ANull
      ∧ it !! "matematicas" = Some ANull.
Proof.
  split; [exact run_taller_request_1|]. split; [reflexivity|].
  destruct (optional_fields_are_null_or_as_sent env_ok fresh_1 taller_request_1 world_empty
              world_1 response_1 run_taller_request_1 eq_refl)
    as (it & Hit & Hopt & _).
  exists it. split; [exact Hit|]. split.
  - apply (Hopt "duracion" body_duracion); [|by left].
    apply list_elem_of_here.
  - apply (Hopt "matematicas" body_matematicas); [|by left].
    do 7 apply list_elem_of_further. apply list_elem_of_here.
Defined.

(** X7: whatever its outcome, a create request changes no record other
    than the one under the id it drew, removes no blob, and changes no
    blob other than the one under the key of its cover. *)
Theorem create_touches_one_record_one_blob
    (env : Env) (g : Fresh) (req : TallerRequest) (w : World) :
  let w' := (run env (post_talleres env g req) w).2 in
  (∀ k, k ≠ id_uuid g → Talleres w' !! k = Talleres w !! k)
  ∧ (∀ k, is_Some (Bucket w !! k) → is_Some (Bucket w' !! k))
  ∧ (∀ k, Bucket w' !! k ≠ Bucket w !! k →
          ∃ portada, file_portada req = Some portada ∧ k = portada_Key env g portada).
Proof.
  destruct (required (body_nombre req)) as [nombre|] eqn:Hn;
    [destruct (required (body_descripcion req)) as [descr|] eqn:Hd;
       [destruct (file_portada req) as [portada|] eqn:Hp|]|].
  2-4: unfold post_talleres; rewrite ?Hn, ?Hd, ?Hp; simpl; split_and!; done.
  rewrite (run_post_talleres env g req nombre descr portada Hn Hd Hp). cbv zeta.
  assert (∀ (b : gmap string S3Object) k o,
            is_Some (b !! k) → is_Some (<[portada_Key env g portada := o]> b !! k)) as Hkeep.
  { intros b k o Hk. destruct (decide (portada_Key env g portada = k)) as [->|Hne].
    - rewrite lookup_insert_eq. by eexists.
    - by rewrite lookup_insert_ne. }
  assert (∀ (b : gmap string S3Object) k o,
            <[portada_Key env g portada := o]> b !! k ≠ b !! k →
            ∃ p, Some portada = Some p ∧ k = portada_Key env g p) as Hone.
  { intros b k o Hk. exists portada. split; [done|].
    destruct (decide (portada_Key env g portada = k)) as [->|Hne]; [done|].
    by rewrite lookup_insert_ne in Hk. }
  destruct (rejects env _ (S3Upload _ _)); [simpl; split_and!; done|].
  destruct (rejects env _ (DdbPut _)); simpl.
  - split_and!; [done|intros k; apply Hkeep|intros k; apply Hone].
  - split_and!; [|intros k; apply Hkeep|intros k; apply Hone].
    intros k Hk. by rewrite lookup_insert_ne.
Qed.

(** Every way a slide request can go, as cases on the equation of its run:
    no description; [get] rejected; no such taller; then, with or without
    an image: upload rejected, update rejected, update served, update
    refused by the table. *)
Ltac slide_cases env g req w :=
  let descr := fresh "descr" in
  let Hd := fresh "Hd" in
  let Hget := fresh "Hget" in
  let it := fresh "it" in
  let Hit := fresh "Hit" in
  let f := fresh "f" in
  let Hf := fresh "Hf" in
  let Hup := fresh "Hup" in
  let Hupd := fresh "Hupd" in
  let Happ := fresh "Happ" in
  destruct (required (slide_descripcion req)) as [descr|] eqn:Hd;
  [ rewrite (run_post_talleres_slides env g req descr w Hd); cbv zeta;
    destruct (rejects env _ (DdbGet (params_tallerId req))) eqn:Hget;
    [ | destruct (Talleres w !! params_tallerId req) as [it|] eqn:Hit;
        [ rewrite run_upload_imagen;
          destruct (file_imagen req) as [f|] eqn:Hf; cbv zeta;
          [ destruct (rejects env _ (S3Upload _ _)) eqn:Hup;
            [ | rewrite run_update_taller; cbv zeta;
                destruct (rejects env _ (DdbUpdate _ _ _ _)) eqn:Hupd;
                [ | cbn [Talleres logged set_Bucket]; rewrite Hit;
                    cbn [default from_option Datatypes.id];
                    destruct (apply_update _ _ _ it) eqn:Happ ] ]
          | rewrite run_update_taller; cbv zeta;
            destruct (rejects env _ (DdbUpdate _ _ _ _)) eqn:Hupd;
            [ | cbn [Talleres logged]; rewrite Hit;
                cbn [default from_option Datatypes.id];
                destruct (apply_update _ _ _ it) eqn:Happ ] ]
        | ] ]
  | unfold post_talleres_slides; rewrite Hd ].

(** ** More on adding a slide *)

(** X8: a slide request that carries no image issues no upload and leaves
    the bucket as it was, whatever its outcome; when it is answered 201 the
    new slide has [imagenUrl] = [null], in the answer and as the last
    element of the list of the record that the answer carries. *)
Theorem slide_without_imagen_has_null_url
    (env : Env) (g : Fresh) (req : SlideRequest) (w : World) :
  file_imagen req = None →
  ∃ r evs w',
    run env (post_talleres_slides env g req) w = (r, w')
    ∧ log w' = log w ++ evs
    ∧ Bucket w' = Bucket w
    ∧ (∀ e, e ∈ evs → is_upload e = false)
    ∧ (∀ s it, r = inr (Res 201 (JSlide s it)) →
         imagenUrl s = None ∧ last (slides_of it) = Some s).
Proof.
  intros Hnone. slide_cases env g req w; try discriminate.
  - eexists _, [_; _], _. split; [reflexivity|]. split; [log_is_extended|].
    split_and!; try done. no_such_event.
  - eexists _, [_; _; _], _. split; [reflexivity|]. split; [log_is_extended|].
    split_and!; try done. no_such_event.
  - eexists _, [_; _], _. split; [reflexivity|]. split; [log_is_extended|].
    split_and!; try done; [no_such_event|].
    intros s it' [= <- <-]. split; [done|].
    apply apply_update_same in Happ as ->. unfold slides_of.
    rewrite lookup_insert_ne by done. rewrite lookup_insert_eq. apply last_snoc.
  - eexists _, [_; _; _], _. split; [reflexivity|]. split; [log_is_extended|].
    split_and!; try done. no_such_event.
  - eexists _, [_], _. split; [reflexivity|]. split; [log_is_extended|].
    split_and!; try done. no_such_event.
  - eexists _, [], _. split; [reflexivity|]. split; [by rewrite app_nil_r|].
    split_and!; try done. intros e []%elem_of_nil.
Qed.

Lemma slide_without_imagen_has_null_url_witness :
  file_imagen slide_request_2 = None
  ∧ ∃ s it w',
      run env_ok (post_talleres_slides env_ok fresh_3 slide_request_2) world_1
      = (inr (Res 201 (JSlide s it)), w')
      ∧ Bucket w' = Bucket world_1
      ∧ imagenUrl s = None.
Proof.
  split; [reflexivity|].
  destruct (slide_without_imagen_has_null_url env_ok fresh_3 slide_request_2 world_1 eq_refl)
    as (r & evs & w' & Hrun & _ & Hb & _ & Hurl).
  destruct (run_post_talleres_slides_ok env_ok fresh_3 slide_request_2 "Lijar los bordes"
              world_1 Item_1 [] reliable_env_ok eq_refl Talleres_world_1_lookup eq_refl)
    as (w1 & Hrun1 & _).
  rewrite Hrun1 in Hrun.
  pose proof (f_equal fst Hrun) as Hr. pose proof (f_equal snd Hrun) as Hw.
  cbn [fst snd] in Hr, Hw. subst r w'.
  destruct (Hurl _ _ eq_refl) as [Hnull _].
  eexists _, _, _. split; [exact Hrun1|]. split; [exact Hb|exact Hnull].
Defined.

(** X9: when the upload of a slide's image is rejected, the answer is the
    500 "Error al agregar slide" with the error of the upload, no update
    is issued, and the table and the bucket are as they were. *)
Theorem rejected_imagen_upload_leaves_record
    (env : Env) (g : Fresh) (req : SlideRequest) (descr msg : string)
    (imagen : File) (taller_Item : Item) (w : World) :
  required (slide_descripcion req) = Some descr →
  rejects env _ (DdbGet (params_tallerId req)) = None →
  Talleres w !! params_tallerId req = Some taller_Item →
  file_imagen req = Some imagen →
  rejects env _ (S3Upload (imagen_Key env g (params_tallerId req) imagen)
                          (mkObject (content imagen) (mimetype imagen))) = Some msg →
  ∃ evs w',
    run env (post_talleres_slides env g req) w
    = (inr (Res 500 (JError "Error al agregar slide" (Some msg))), w')
    ∧ log w' = log w ++ evs
    ∧ Talleres w' = Talleres w
    ∧ Bucket w' = Bucket w
    ∧ ∀ e, e ∈ evs → is_update e = false.
Proof.
  intros Hd Hget Hit Hf Hup.
  rewrite (run_post_talleres_slides env g req descr w Hd). cbv zeta.
  rewrite Hget, Hit, run_upload_imagen, Hf. cbv zeta. rewrite Hup.
  eexists [_; _; _], _. split; [reflexivity|]. split; [log_is_extended|].
  split_and!; try done. no_such_event.
Qed.

Lemma rejected_imagen_upload_leaves_record_witness :
  ∃ evs w',
    run env_upload_rejected
        (post_talleres_slides env_upload_rejected fresh_2 slide_request_1) world_1
    = (inr (Res 500 (JError "Error al agregar slide" (Some "SlowDown"))), w')
    ∧ log w' = log world_1 ++ evs
    ∧ Talleres w' = Talleres world_1.
Proof.
  destruct (rejected_imagen_upload_leaves_record env_upload_rejected fresh_2 slide_request_1
              "Cortar la madera" "SlowDown" file_1 Item_1 world_1
              eq_refl eq_refl Talleres_world_1_lookup eq_refl eq_refl)
    as (evs & w' & Hrun & Hlog & Htab & _).
  exists evs, w'. exact (conj Hrun (conj Hlog Htab)).
Defined.

(** X10: when the image of a slide has been uploaded and the update of the
    record is then rejected, the answer is the 500 "Error al agregar
    slide", the table is as it was, and the image stays in the bucket
    under its key: a blob that no slide refers to. *)
Theorem rejected_update_leaves_the_imagen
    (env : Env) (g : Fresh) (req : SlideRequest) (descr msg : string)
    (imagen : File) (taller_Item : Item) (w : World) :
  required (slide_descripcion req) = Some descr →
  rejects env _ (DdbGet (params_tallerId req)) = None →
  Talleres w !! params_tallerId req = Some taller_Item →
  file_imagen req = Some imagen →
  let Key := imagen_Key env g (params_tallerId req) imagen in
  let o := mkObject (content imagen) (mimetype imagen) in
  let slide := nuevoSlide g taller_Item descr (Some (Location env Key)) in
  rejects env _ (S3Upload Key o) = None →
  rejects env _ (DdbUpdate (params_tallerId req) (updateExpression taller_Item)
                           [slide] (updated_date g)) = Some msg →
  ∃ w',
    run env (post_talleres_slides env g req) w
    = (inr (Res 500 (JError "Error al agregar slide" (Some msg))), w')
    ∧ Talleres w' = Talleres w
    ∧ Bucket w' = <[Key := o]> (Bucket w)
    ∧ Bucket w' !! Key = Some o.
Proof.
  intros Hd Hget Hit Hf Key o slide Hup Hupd.
  rewrite (run_post_talleres_slides env g req descr w Hd). cbv zeta.
  rewrite Hget, Hit, run_upload_imagen, Hf. cbv zeta. fold Key o. rewrite Hup.
  rewrite run_update_taller. cbv zeta. fold slide. rewrite Hupd.
  eexists. split; [reflexivity|]. split_and!; try done. apply lookup_insert_eq.
Qed.

Lemma rejected_update_leaves_the_imagen_witness :
  ∃ w',
    run env_update_rejected
        (post_talleres_slides env_update_rejected fresh_2 slide_request_1) world_1
    = (inr (Res 500 (JError "Error al agregar slide"
                       (Some "ProvisionedThroughputExceededException"))), w')
    ∧ Talleres w' = Talleres world_1
    ∧ Bucket w' !! imagen_Key env_update_rejected fresh_2 "id-1" file_1
      = Some (mkObject "PNG-bytes" "image/png").
Proof.
  destruct (rejected_update_leaves_the_imagen env_update_rejected fresh_2 slide_request_1
              "Cortar la madera" "ProvisionedThroughputExceededException" file_1 Item_1
              world_1 eq_refl eq_refl Talleres_world_1_lookup eq_refl eq_refl eq_refl)
    as (w' & Hrun & Htab & _ & Hblob).
  exists w'. exact (conj Hrun (conj Htab Hblob)).
Defined.

(** X11: whatever its outcome, a slide request changes no record other
    than the one under its id, removes no record and no blob, and changes
    no blob other than the one under the key of its image; when its answer
    is not a 201 the table is as it was. *)
Theorem slide_touches_one_record_one_blob
    (env : Env) (g : Fresh) (req : SlideRequest) (w : World) :
  ∃ resp w',
    run env (post_talleres_slides env g req) w = (inr resp, w')
    ∧ (∀ k, k ≠ params_tallerId req → Talleres w' !! k = Talleres w !! k)
    ∧ (∀ k, is_Some (Talleres w !! k) → is_Some (Talleres w' !! k))
    ∧ (status resp ≠ 201 → Talleres w' = Talleres w)
    ∧ (∀ k, is_Some (Bucket w !! k) → is_Some (Bucket w' !! k))
    ∧ (∀ k, Bucket w' !! k ≠ Bucket w !! k →
            ∃ imagen, file_imagen req = Some imagen
                      ∧ k = imagen_Key env g (params_tallerId req) imagen).
Proof.
  assert (∀ {A} (m : gmap string A) i x k, is_Some (m !! k) → is_Some (<[i := x]> m !! k))
    as Hkeep.
  { intros A m i x k Hk. destruct (decide (i = k)) as [->|Hne].
    - rewrite lookup_insert_eq. by eexists.
    - by rewrite lookup_insert_ne. }
  assert (∀ {A} (m : gmap string A) i x k, <[i := x]> m !! k ≠ m !! k → k = i) as Hone.
  { intros A m i x k Hk. destruct (decide (i = k)) as [->|Hne]; [done|].
    by rewrite lookup_insert_ne in Hk. }
  slide_cases env g req w; eexists _, _; (split; [reflexivity|]); cbn [Talleres Bucket logged
    set_Talleres set_Bucket status]; split_and!; try done.
  all: try (intros k Hk; by rewrite lookup_insert_ne).
  all: try (intros k; apply Hkeep).
  all: try (intros k Hk; apply Hone in Hk; by eexists).
Qed.

(** A slide request is answered 201 only when the taller was read, and
    then the slide and the new record are these. *)
Lemma post_talleres_slides_201 (env : Env) (g : Fresh) (req : SlideRequest)
    (w w' : World) (resp : Response) :
  run env (post_talleres_slides env g req) w = (inr resp, w') →
  status resp = 201 →
  ∃ descr old,
    required (slide_descripcion req) = Some descr
    ∧ Talleres w !! params_tallerId req = Some old
    ∧ let slide := nuevoSlide g old descr (imagenUrl_of env g req) in
      let new := <["updatedAt" := AStr (updated_date g)]>
                   (<["slides" := ASlides (slides_of old ++ [slide])]> old) in
      resp = Res 201 (JSlide slide new)
      ∧ Talleres w' = <[params_tallerId req := new]> (Talleres w).
Proof.
  intros Hrun H201. revert Hrun. unfold imagenUrl_of.
  slide_cases env g req w; intros Hrun;
    pose proof (f_equal fst Hrun) as Hr; pose proof (f_equal snd Hrun) as Hw;
    cbn [fst snd] in Hr, Hw; apply (inj inr) in Hr; subst resp w'; try discriminate H201.
  - apply apply_update_same in Happ as ->. by exists descr, it.
  - apply apply_update_same in Happ as ->. by exists descr, it.
Qed.

(** X12: a slide that has just been added (201) is read back by
    [GET /talleres/:tallerId]: the answer is 200 with the very record that
    the 201 carried; the last element of its list is the new slide, which
    has the id and date drawn for it and the description that was sent;
    the record's [updatedAt] is the date of the update. *)
Theorem added_slide_is_read_back
    (env : Env) (g : Fresh) (req : SlideRequest) (w w' : World) (s : Slide) (it : Item) :
  run env (post_talleres_slides env g req) w = (inr (Res 201 (JSlide s it)), w') →
  rejects env _ (DdbGet (params_tallerId req)) = None →
  (run env (get_taller (params_tallerId req)) w').1 = inr (Res 200 (JTaller it))
  ∧ last (slides_of it) = Some s
  ∧ it !! "updatedAt" = Some (AStr (updated_date g))
  ∧ id s = id_uuid g
  ∧ createdAt s = created_date g
  ∧ slide_descripcion req = Some (descripcion s).
Proof.
  intros Hrun Hget.
  destruct (post_talleres_slides_201 env g req w w' _ Hrun eq_refl)
    as (descr & old & Hd & Hold & Hresp & Htab).
  cbv zeta in Hresp, Htab. injection Hresp as -> ->.
  rewrite run_get_taller, Hget, Htab, lookup_insert_eq.
  split_and!; try done.
  - unfold slides_of at 1. rewrite lookup_insert_ne by done.
    rewrite lookup_insert_eq. apply last_snoc.
  - apply lookup_insert_eq.
  - by apply required_Some in Hd as [-> _].
Qed.

Lemma added_slide_is_read_back_witness :
  run env_ok (post_talleres_slides env_ok fresh_2 slide_request_1) world_1
  = (inr (Res 201 (JSlide slide_1 Item_2)), world_2)
  ∧ rejects env_ok _ (DdbGet "id-1") = None
  ∧ (run env_ok (get_taller "id-1") world_2).1 = inr (Res 200 (JTaller Item_2))
  ∧ last (slides_of Item_2) = Some slide_1.
Proof.
  split; [exact run_slide_request_1|]. split; [reflexivity|].
  destruct (added_slide_is_read_back env_ok fresh_2 slide_request_1 world_1 world_2
              slide_1 Item_2 run_slide_request_1 eq_refl) as (Hget & Hlast & _).
  exact (conj Hget Hlast).
Defined.

(** ** More on deleting a taller *)

Lemma lookup_delete_keys (keys : list string) (b : gmap string S3Object) (k : string) :
  delete_keys keys b !! k = if decide (k ∈ keys) then None else b !! k.
Proof.
  unfold delete_keys. induction keys as [|x keys IH]; simpl.
  - destruct (decide (k ∈ [])) as [H|H]; [by apply elem_of_nil in H|done].
  - destruct (decide (x = k)) as [->|Hne].
    + rewrite lookup_delete_eq. rewrite decide_True; [done|apply list_elem_of_here].
    + rewrite lookup_delete_ne by done. rewrite IH.
      destruct (decide (k ∈ keys)) as [Hin|Hnin].
      * rewrite decide_True; [done|by apply list_elem_of_further].
      * rewrite decide_False; [done|].
        intros [->|?]%elem_of_cons; done.
Qed.

Lemma elem_of_folder_keys (tallerId : string) (w : World) (k : string) :
  k ∈ folder_keys tallerId w
  ↔ String.prefix (carpetaS3 tallerId) k = true ∧ is_Some (Bucket w !! k).
Proof.
  unfold folder_keys, with_prefix. rewrite list_elem_of_filter, Is_true_true.
  apply and_iff_compat_l. rewrite list_elem_of_fmap. split.
  - intros ([k' o] & -> & Hin). apply elem_of_map_to_list in Hin. by exists o.
  - intros [o Ho]. exists (k, o). split; [done|]. by apply elem_of_map_to_list.
Qed.

Lemma NoDup_folder_keys (tallerId : string) (w : World) : NoDup (folder_keys tallerId w).
Proof. apply NoDup_filter, NoDup_fst_map_to_list. Qed.

(** The delete handler, whatever the table holds. *)
Lemma run_delete_taller_cases (env : Env) (tallerId : string) (w : World) :
  run env (delete_taller tallerId) w =
  match rejects env _ (DdbGet tallerId) with
  | Some msg => failed_delete msg (logged (Called (DdbGet tallerId) false) w)
  | None =>
      let w1 := logged (Called (DdbGet tallerId) true) w in
      match Talleres w !! tallerId with
      | None => (inr (Res 404 (JError "Taller no encontrado" None)), w1)
      | Some _ =>
          let Prefix := carpetaS3 tallerId in
          let keys := folder_keys tallerId w in
          let Contents := take (MaxKeys env) keys in
          let IsTruncated := bool_decide (MaxKeys env < length keys) in
          match rejects env _ (S3ListObjectsV2 Prefix) with
          | Some msg => failed_delete msg (logged (Called (S3ListObjectsV2 Prefix) false) w1)
          | None =>
              let w2 := logged (Called (S3ListObjectsV2 Prefix) true) w1 in
              if bool_decide (0 < length Contents) then
                match rejects env _ (S3DeleteObjects Contents) with
                | Some msg =>
                    failed_delete msg (logged (Called (S3DeleteObjects Contents) false) w2)
                | None =>
                    let w3 := logged (Called (S3DeleteObjects Contents) true)
                                     (set_Bucket (delete_keys Contents (Bucket w2)) w2) in
                    run_delete_record env tallerId
                      (if IsTruncated
                       then logged (Console warn warning_truncated) w3 else w3)
                end
              else run_delete_record env tallerId w2
          end
      end
  end.
Proof.
  destruct (rejects env _ (DdbGet tallerId)) as [msg|] eqn:Hget.
  - unfold delete_taller. rewrite run_try_catch. unfold mbind, Prog_bind.
    rewrite run_bind, run_await. unfold perform. by rewrite Hget.
  - destruct (Talleres w !! tallerId) as [it|] eqn:Hit.
    + by rewrite (run_delete_taller env tallerId w it Hit Hget).
    + unfold delete_taller. rewrite run_try_catch. unfold mbind, Prog_bind.
      rewrite run_bind, run_await. unfold perform. rewrite Hget. cbn [serve].
      by rewrite Hit.
Qed.

(** X13: deleting an id that is not in the table is answered by the 404
    "Taller no encontrado" after the [get] alone: the bucket is not listed,
    nothing is deleted, and the table and the bucket are as they were. *)
Theorem delete_of_unknown_taller_is_404 (env : Env) (tallerId : string) (w : World) :
  Talleres w !! tallerId = None →
  rejects env _ (DdbGet tallerId) = None →
  ∃ w',
    run env (delete_taller tallerId) w
    = (inr (Res 404 (JError "Taller no encontrado" None)), w')
    ∧ log w' = log w ++ [Called (DdbGet tallerId) true]
    ∧ Talleres w' = Talleres w
    ∧ Bucket w' = Bucket w.
Proof.
  intros Hnone Hget. rewrite run_delete_taller_cases, Hget. cbv zeta. rewrite Hnone.
  by eexists.
Qed.

Lemma delete_of_unknown_taller_is_404_witness :
  Talleres world_2 !! "no-such-id" = None
  ∧ rejects env_ok _ (DdbGet "no-such-id") = None
  ∧ ∃ w',
      run env_ok (delete_taller "no-such-id") world_2
      = (inr (Res 404 (JError "Taller no encontrado" None)), w')
      ∧ Bucket w' = Bucket world_2.
Proof.
  assert (Talleres world_2 !! "no-such-id" = None) as Hnone.
  { destruct (run_post_talleres_slides_ok env_ok fresh_2 slide_request_1 "Cortar la madera"
                world_1 Item_1 [] reliable_env_ok eq_refl Talleres_world_1_lookup eq_refl)
      as (w' & Hrun & Hw').
    unfold world_2. rewrite Hrun. simpl. rewrite Hw', Talleres_world_1.
    rewrite lookup_insert_ne by done. rewrite lookup_insert_ne by done. apply lookup_empty. }
  split; [exact Hnone|]. split; [reflexivity|].
  destruct (delete_of_unknown_taller_is_404 env_ok "no-such-id" world_2 Hnone eq_refl)
    as (w' & Hrun & _ & _ & Hb).
  exists w'. exact (conj Hrun Hb).
Defined.

(** A delete that is served, when the folder fits one page of a listing. *)
Lemma run_delete_taller_one_page (env : Env) (tallerId : string) (w : World) (it : Item) :
  Talleres w !! tallerId = Some it →
  reliable env →
  (length (folder_keys tallerId w) ≤ MaxKeys env)%nat →
  ∃ w',
    run env (delete_taller tallerId) w
    = (inr (Res 200 (JMessage "Taller eliminado correctamente")), w')
    ∧ Talleres w' = delete tallerId (Talleres w)
    ∧ Bucket w' = delete_keys (folder_keys tallerId w) (Bucket w).
Proof.
  intros Hit Hrel Hpage. rewrite run_delete_taller_cases. cbv zeta.
  rewrite Hrel, Hit, Hrel, (take_ge _ _ Hpage). unfold run_delete_record.
  rewrite (bool_decide_eq_false_2 (MaxKeys env < _)) by lia.
  destruct (bool_decide (0 < length (folder_keys tallerId w))) eqn:Hlen.
  - rewrite !Hrel. by eexists.
  - rewrite Hrel. apply bool_decide_eq_false in Hlen.
    destruct (folder_keys tallerId w); [by eexists|simpl in Hlen; lia].
Qed.

(** X14: when a taller is in the table, no call is rejected and the blobs
    of its folder fit one page of a listing, deleting it is answered 200
    and leaves no record under its id (a [GET] of the id is then a 404) and
    no blob whose key starts with "talleres/<id>/"; every other record and
    every blob outside that folder is as it was. *)
Theorem delete_removes_record_and_folder
    (env : Env) (tallerId : string) (w : World) (it : Item) :
  Talleres w !! tallerId = Some it →
  reliable env →
  (length (folder_keys tallerId w) ≤ MaxKeys env)%nat →
  ∃ w',
    run env (delete_taller tallerId) w
    = (inr (Res 200 (JMessage "Taller eliminado correctamente")), w')
    ∧ Talleres w' !! tallerId = None
    ∧ (run env (get_taller tallerId) w').1
      = inr (Res 404 (JError "Taller no encontrado" None))
    ∧ (∀ k, k ≠ tallerId → Talleres w' !! k = Talleres w !! k)
    ∧ (∀ k, String.prefix (carpetaS3 tallerId) k = true → Bucket w' !! k = None)
    ∧ (∀ k, String.prefix (carpetaS3 tallerId) k = false → Bucket w' !! k = Bucket w !! k).
Proof.
  intros Hit Hrel Hpage.
  destruct (run_delete_taller_one_page env tallerId w it Hit Hrel Hpage)
    as (w' & Hrun & Htab & Hb).
  exists w'. split; [exact Hrun|]. rewrite run_get_taller, Hrel, Htab, Hb.
  rewrite lookup_delete_eq. split_and!; try done.
  - intros k Hk. by rewrite lookup_delete_ne.
  - intros k Hk. rewrite lookup_delete_keys.
    destruct (decide (k ∈ folder_keys tallerId w)) as [|Hnin]; [done|].
    destruct (Bucket w !! k) as [o|] eqn:Ho; [|done].
    exfalso. apply Hnin, elem_of_folder_keys. split; [done|by exists o].
  - intros k Hk. rewrite lookup_delete_keys.
    destruct (decide (k ∈ folder_keys tallerId w)) as [Hin|]; [|done].
    apply elem_of_folder_keys in Hin as [Hp _]. congruence.
Qed.

Lemma delete_removes_record_and_folder_witness :
  ∃ w',
    run env_ok (delete_taller "id-1") world_2
    = (inr (Res 200 (JMessage "Taller eliminado correctamente")), w')
    ∧ Talleres w' !! "id-1" = None
    ∧ Bucket w' !! portada_Key env_ok fresh_1 file_1 = None.
Proof.
  destruct (delete_removes_record_and_folder env_ok "id-1" world_2 Item_2)
    as (w' & Hrun & Hgone & _ & _ & Hfolder & _).
  - exact Talleres_world_2_lookup.
  - exact reliable_env_ok.
  - vm_compute. lia.
  - exists w'. split; [exact Hrun|]. split; [exact Hgone|]. by apply Hfolder.
Defined.

(** X15: when the folder of a taller holds more blobs than one page of a
    listing and no call is rejected, deleting the taller is answered 200,
    a warning is written to the console and the record is gone, but only
    the blobs of the first page are deleted: every blob of the folder
    beyond the first page, and there is at least one, is still in the
    bucket, with no record left for it. *)
Theorem delete_of_large_folder_leaves_blobs
    (env : Env) (tallerId : string) (w : World) (it : Item) :
  Talleres w !! tallerId = Some it →
  reliable env →
  0 < MaxKeys env →
  MaxKeys env < length (folder_keys tallerId w) →
  ∃ evs w',
    run env (delete_taller tallerId) w
    = (inr (Res 200 (JMessage "Taller eliminado correctamente")), w')
    ∧ log w' = log w ++ evs
    ∧ Console warn warning_truncated ∈ evs
    ∧ Talleres w' !! tallerId = None
    ∧ (∀ k, k ∈ take (MaxKeys env) (folder_keys tallerId w) → Bucket w' !! k = None)
    ∧ (∀ k, k ∈ drop (MaxKeys env) (folder_keys tallerId w) →
            is_Some (Bucket w' !! k) ∧ Bucket w' !! k = Bucket w !! k)
    ∧ drop (MaxKeys env) (folder_keys tallerId w) ≠ [].
Proof.
  intros Hit Hrel Hmax Hmany. rewrite run_delete_taller_cases. cbv zeta.
  rewrite Hrel, Hit, Hrel. unfold run_delete_record.
  rewrite (bool_decide_eq_true_2 (MaxKeys env < _)) by done.
  rewrite (bool_decide_eq_true_2 (0 < _)) by (rewrite length_take; lia).
  rewrite !Hrel.
  eexists [_; _; _; _; _], _. split; [reflexivity|]. split; [log_is_extended|].
  cbn [Talleres Bucket logged set_Talleres set_Bucket].
  pose proof (NoDup_folder_keys tallerId w) as Hnodup.
  rewrite <- (take_drop (MaxKeys env)) in Hnodup.
  apply NoDup_app in Hnodup as (_ & Hdisj & _).
  split_and!.
  - do 3 apply list_elem_of_further. apply list_elem_of_here.
  - apply lookup_delete_eq.
  - intros k Hk. rewrite lookup_delete_keys. by rewrite decide_True.
  - intros k Hk. rewrite lookup_delete_keys.
    rewrite decide_False by (intros Hin; by apply (Hdisj k)).
    split; [|done].
    assert (k ∈ folder_keys tallerId w) as Hin.
    { rewrite <- (take_drop (MaxKeys env)). apply elem_of_app. by right. }
    by apply elem_of_folder_keys in Hin as [_ ?].
  - intros Hnil. apply (f_equal length) in Hnil. rewrite length_drop in Hnil.
    simpl in Hnil. lia.
Qed.

Lemma delete_of_large_folder_leaves_blobs_witness :
  ∃ evs w',
    run env_page_1 (delete_taller "id-1") world_2
    = (inr (Res 200 (JMessage "Taller eliminado correctamente")), w')
    ∧ log w' = log world_2 ++ evs
    ∧ Talleres w' !! "id-1" = None
    ∧ drop (MaxKeys env_page_1) (folder_keys "id-1" world_2) ≠ [].
Proof.
  destruct (delete_of_large_folder_leaves_blobs env_page_1 "id-1" world_2 Item_2)
    as (evs & w' & Hrun & Hlog & _ & Hgone & _ & _ & Hleft).
  - exact Talleres_world_2_lookup.
  - intros R c. reflexivity.
  - simpl. lia.
  - vm_compute. lia.
  - exists evs, w'. exact (conj Hrun (conj Hlog (conj Hgone Hleft))).
Defined.

(** X16: when the blobs listed for a taller have been deleted and the
    delete of the record is then rejected, the answer is the 500 "Error al
    eliminar taller" and the record is still in the table, unchanged,
    while none of the listed blobs is in the bucket any more. *)
Theorem rejected_record_delete_leaves_record_without_blobs
    (env : Env) (tallerId : string) (w : World) (it : Item) (msg : string) :
  Talleres w !! tallerId = Some it →
  rejects env _ (DdbGet tallerId) = None →
  rejects env _ (S3ListObjectsV2 (carpetaS3 tallerId)) = None →
  let Contents := take (MaxKeys env) (folder_keys tallerId w) in
  Contents ≠ [] →
  rejects env _ (S3DeleteObjects Contents) = None →
  rejects env _ (DdbDelete tallerId) = Some msg →
  ∃ w',
    run env (delete_taller tallerId) w
    = (inr (Res 500 (JError "Error al eliminar taller" (Some msg))), w')
    ∧ Talleres w' !! tallerId = Some it
    ∧ Talleres w' = Talleres w
    ∧ ∀ k, k ∈ Contents → is_Some (Bucket w !! k) ∧ Bucket w' !! k = None.
Proof.
  intros Hit Hget Hlist Contents Hne Hbulk Hdel.
  rewrite run_delete_taller_cases, Hget. cbv zeta. rewrite Hit, Hlist.
  fold Contents. rewrite Hbulk. unfold run_delete_record. rewrite Hdel.
  rewrite bool_decide_eq_true_2 by (destruct Contents; [done|simpl; lia]).
  assert (∀ k, k ∈ Contents → is_Some (Bucket w !! k)) as Hin.
  { intros k Hk. apply elem_of_take in Hk as (i & Hk & _).
    apply list_elem_of_lookup_2 in Hk. by apply elem_of_folder_keys in Hk as [_ ?]. }
  destruct (bool_decide (MaxKeys env < length (folder_keys tallerId w)));
    (eexists; split; [reflexivity|]; cbn [Talleres Bucket logged set_Bucket];
     split_and!; try done;
     intros k Hk; split; [by apply Hin|]; rewrite lookup_delete_keys; by rewrite decide_True).
Qed.

Lemma rejected_record_delete_leaves_record_without_blobs_witness :
  ∃ w',
    run env_delete_rejected (delete_taller "id-1") world_2
    = (inr (Res 500 (JError "Error al eliminar taller" (Some "InternalServerError"))), w')
    ∧ Talleres w' !! "id-1" = Some Item_2
    ∧ Bucket w' !! portada_Key env_ok fresh_1 file_1 = None.
Proof.
  destruct (rejected_record_delete_leaves_record_without_blobs env_delete_rejected "id-1"
              world_2 Item_2 "InternalServerError" Talleres_world_2_lookup eq_refl eq_refl)
    as (w' & Hrun & Hrec & _ & Hblobs).
  - vm_compute. discriminate.
  - reflexivity.
  - reflexivity.
  - exists w'. split; [exact Hrun|]. split; [exact Hrec|].
    apply Hblobs. vm_compute.
    apply list_elem_of_further, list_elem_of_here.
Defined.

(** X17: whatever its outcome, deleting a taller changes no record other
    than the one under its id, adds no record and no blob, and changes no
    blob whose key does not start with "talleres/<id>/". *)
Theorem delete_stays_in_its_folder (env : Env) (tallerId : string) (w : World) :
  ∃ resp w',
    run env (delete_taller tallerId) w = (inr resp, w')
    ∧ (∀ k, k ≠ tallerId → Talleres w' !! k = Talleres w !! k)
    ∧ (∀ k, is_Some (Talleres w' !! k) → is_Some (Talleres w !! k))
    ∧ (∀ k, is_Some (Bucket w' !! k) → is_Some (Bucket w !! k))
    ∧ (∀ k, String.prefix (carpetaS3 tallerId) k = false → Bucket w' !! k = Bucket w !! k).
Proof.
  assert (∀ keys k, is_Some (delete_keys keys (Bucket w) !! k) → is_Some (Bucket w !! k))
    as Hsub.
  { intros keys k. rewrite lookup_delete_keys. case_decide; [by intros [? [=]]|done]. }
  assert (∀ n k, String.prefix (carpetaS3 tallerId) k = false →
                 delete_keys (take n (folder_keys tallerId w)) (Bucket w) !! k
                 = Bucket w !! k) as Hout.
  { intros n k Hk. rewrite lookup_delete_keys. case_decide as Hin; [|done].
    apply elem_of_take in Hin as (i & Hin & _). apply list_elem_of_lookup_2 in Hin.
    apply elem_of_folder_keys in Hin as [Hp _]. congruence. }
  assert (∀ k, is_Some (delete tallerId (Talleres w) !! k) → is_Some (Talleres w !! k))
    as Hrec.
  { intros k. destruct (decide (tallerId = k)) as [->|Hne].
    - rewrite lookup_delete_eq. by intros [? [=]].
    - by rewrite lookup_delete_ne. }
  rewrite run_delete_taller_cases. cbv zeta. unfold run_delete_record, failed_delete.
  repeat match goal with
         | |- context [match rejects env ?R ?c with _ => _ end] =>
             destruct (rejects env R c)
         | |- context [match Talleres w !! tallerId with _ => _ end] =>
             destruct (Talleres w !! tallerId)
         | |- context [if bool_decide ?P then _ else _] => destruct (bool_decide P)
         end;
    eexists _, _; (split; [reflexivity|]);
    cbn [Talleres Bucket logged set_Talleres set_Bucket]; split_and!; try done.
  all: try (intros k Hk; by rewrite lookup_delete_ne).
  all: try (intros k; apply Hout).
  all: try (intros k; apply Hsub).
Qed.

Lemma prefix_app (p s : string) : String.prefix p (p +:+ s) = true.
Proof.
  induction p as [|a p IH]; simpl; [by destruct s|].
  destruct (Ascii.ascii_dec a a); [exact IH|done].
Qed.

Lemma string_app_assoc (a b c : string) : (a +:+ b) +:+ c = a +:+ (b +:+ c).
Proof.
  induction a as [|x a IH]; [reflexivity|].
  change (String x ((a +:+ b) +:+ c) = String x (a +:+ (b +:+ c))). by f_equal.
Qed.

Lemma portada_Key_in_folder (env : Env) (g : Fresh) (portada : File) :
  String.prefix (carpetaS3 (id_uuid g)) (portada_Key env g portada) = true.
Proof.
  assert (portada_Key env g portada
          = carpetaS3 (id_uuid g)
            +:+ ("portada-" +:+ file_uuid g +:+ extname env (originalname portada))) as ->.
  { unfold carpetaS3, portada_Key. by rewrite !string_app_assoc. }
  apply prefix_app.
Qed.

Lemma imagen_Key_in_folder (env : Env) (g : Fresh) (tallerId : string) (imagen : File) :
  String.prefix (carpetaS3 tallerId) (imagen_Key env g tallerId imagen) = true.
Proof.
  assert (imagen_Key env g tallerId imagen
          = carpetaS3 tallerId
            +:+ ("slide-" +:+ file_uuid g +:+ extname env (originalname imagen))) as ->.
  { unfold carpetaS3, imagen_Key. by rewrite !string_app_assoc. }
  apply prefix_app.
Qed.

(** X18: the key under which a create request stores its cover and the
    key under which a slide request stores its image both start with
    "talleres/<id>/", the [carpetaS3] written in the record and the prefix
    that the delete handler lists; so after a delete that is served, with
    the folder within one page, the bucket holds neither the cover of that
    taller nor the image of any of its slides. *)
Theorem delete_removes_cover_and_images
    (env : Env) (tallerId : string) (w : World) (it : Item) :
  Talleres w !! tallerId = Some it →
  reliable env →
  (length (folder_keys tallerId w) ≤ MaxKeys env)%nat →
  ∃ w',
    run env (delete_taller tallerId) w
    = (inr (Res 200 (JMessage "Taller eliminado correctamente")), w')
    ∧ (∀ g n d loc req,
         id_uuid g = tallerId →
         tallerParams_Item g req n d loc !! "carpetaS3" = Some (AStr (carpetaS3 tallerId)))
    ∧ (∀ env0 g portada,
         id_uuid g = tallerId →
         String.prefix (carpetaS3 tallerId) (portada_Key env0 g portada) = true
         ∧ Bucket w' !! portada_Key env0 g portada = None)
    ∧ (∀ env0 g imagen,
         String.prefix (carpetaS3 tallerId) (imagen_Key env0 g tallerId imagen) = true
         ∧ Bucket w' !! imagen_Key env0 g tallerId imagen = None).
Proof.
  intros Hit Hrel Hpage.
  destruct (run_delete_taller_one_page env tallerId w it Hit Hrel Hpage)
    as (w' & Hrun & _ & Hb).
  assert (∀ k, String.prefix (carpetaS3 tallerId) k = true → Bucket w' !! k = None) as Hgone.
  { intros k Hk. rewrite Hb, lookup_delete_keys.
    destruct (decide (k ∈ folder_keys tallerId w)) as [|Hnin]; [done|].
    destruct (Bucket w !! k) as [o|] eqn:Ho; [|done].
    exfalso. apply Hnin, elem_of_folder_keys. split; [done|by exists o]. }
  exists w'. split; [exact Hrun|]. split_and!.
  - by intros g n d loc req <-.
  - intros env0 g portada <-. split; [apply portada_Key_in_folder|].
    apply Hgone, portada_Key_in_folder.
  - intros env0 g imagen. split; [apply imagen_Key_in_folder|].
    apply Hgone, imagen_Key_in_folder.
Qed.

Lemma delete_removes_cover_and_images_witness :
  ∃ w',
    run env_ok (delete_taller "id-1") world_2
    = (inr (Res 200 (JMessage "Taller eliminado correctamente")), w')
    ∧ Bucket w' !! imagen_Key env_ok fresh_2 "id-1" file_1 = None.
Proof.
  destruct (delete_removes_cover_and_images env_ok "id-1" world_2 Item_2)
    as (w' & Hrun & _ & _ & Himg).
  - exact Talleres_world_2_lookup.
  - exact reliable_env_ok.
  - vm_compute. lia.
  - exists w'. split; [exact Hrun|]. apply Himg.
Defined.

(** ** Two slide requests that have read the same record *)

Section Stale.
Context (env : Env) (g : Fresh) (req : SlideRequest) (descr : string) (it : Item).

Lemma step_get (w : World) :
  required (slide_descripcion req) = Some descr →
  rejects env _ (DdbGet (params_tallerId req)) = None →
  step env (post_talleres_slides env g req) w
  = (try_catch (with_taller env g req descr (Talleres w !! params_tallerId req)) slide_catch,
     logged (Called (DdbGet (params_tallerId req)) true) w).
Proof.
  intros Hd Hget. unfold post_talleres_slides. rewrite Hd. simpl.
  unfold perform. by rewrite Hget.
Qed.

Lemma step_update_taller (url : option string) (w : World) :
  reliable env →
  step env (try_catch (update_taller g (params_tallerId req) it descr url) slide_catch) w
  = match apply_update (updateExpression it) [nuevoSlide g it descr url] (updated_date g)
            (default {["id" := AStr (params_tallerId req)]}
                     (Talleres w !! params_tallerId req)) with
    | Some new =>
        (Ret (Res 201 (JSlide (nuevoSlide g it descr url) new)),
         logged (Called (DdbUpdate (params_tallerId req) (updateExpression it)
                                   [nuevoSlide g it descr url] (updated_date g)) true)
                (set_Talleres (<[params_tallerId req := new]> (Talleres w)) w))
    | None =>
        (slide_catch "ValidationException",
         logged (Called (DdbUpdate (params_tallerId req) (updateExpression it)
                                   [nuevoSlide g it descr url] (updated_date g)) false) w)
    end.
Proof.
  intros Hrel. simpl. unfold perform. rewrite Hrel. cbn [serve].
  by destruct (apply_update _ _ _ _).
Qed.

Lemma stale_writes_log (written : list Slide) (e : Event) (w : World) :
  stale_writes (params_tallerId req) it written w →
  stale_writes (params_tallerId req) it written (logged e w).
Proof. done. Qed.

Lemma Resumed_step (n : nat) (p : Prog Response) (o : option Slide)
    (written : list Slide) (w : World) :
  reliable env →
  Resumed env g req descr it n p o →
  stale_writes (params_tallerId req) it written w →
  ∃ o', Resumed env g req descr it (n - 1) (step env p w).1 o'
        ∧ ((o' = o ∧ stale_writes (params_tallerId req) it written (step env p w).2)
           ∨ (o = None
              ∧ ∃ s, o' = Some s
                     ∧ stale_writes (params_tallerId req) it (written ++ [s])
                                    (step env p w).2)).
Proof.
  intros Hrel Hp Hw.
  assert (∀ url,
    ∃ o', Resumed env g req descr it (n - 1)
            (step env (try_catch (update_taller g (params_tallerId req) it descr url)
                                 slide_catch) w).1 o'
          ∧ (None = @None Slide
             ∧ ∃ s, o' = Some s
                    ∧ stale_writes (params_tallerId req) it (written ++ [s])
                        (step env (try_catch (update_taller g (params_tallerId req) it
                                                descr url) slide_catch) w).2)) as Hupdate.
  { intros url. rewrite (step_update_taller url w Hrel).
    unfold stale_writes in *. destruct (updateExpression it) eqn:He.
    - destruct Hw as (cur & Hcur & Hs). rewrite Hcur. simpl. rewrite Hs.
      eexists (Some _). split; [apply rs_done|]. split; [done|]. eexists. split; [done|].
      eexists. split; [apply lookup_insert_eq|].
      rewrite lookup_insert_ne by done. rewrite lookup_insert_eq. by rewrite <- app_assoc.
    - simpl. eexists (Some _). split; [apply rs_done|]. split; [done|].
      eexists. split; [done|]. intros s. rewrite last_snoc. intros [= <-].
      eexists. split; [apply lookup_insert_eq|].
      rewrite lookup_insert_ne by done. apply lookup_insert_eq. }
  destruct Hp as [n Hn|n url Hn|n url it'].
  - destruct (file_imagen req) as [f|] eqn:Hf.
    + exists None. unfold with_taller. rewrite Hf. simpl.
      unfold perform. rewrite Hrel. simpl. split; [apply rs_uploaded; lia|]. by left.
    + unfold with_taller. rewrite Hf.
      destruct (Hupdate None) as (o' & Ho' & Hrest). exists o'. split; [exact Ho'|by right].
  - destruct (Hupdate url) as (o' & Ho' & Hrest). exists o'. split; [exact Ho'|by right].
  - eexists. split; [apply rs_done|]. by left.
Qed.

Lemma Resumed_done (p : Prog Response) (o : option Slide) :
  Resumed env g req descr it 0 p o →
  ∃ s it', p = Ret (Res 201 (JSlide s it')) ∧ o = Some s
           ∧ id s = id_uuid g ∧ titulo s = nuevo_titulo it.
Proof. inversion 1; subst; try lia. by eexists _, _. Qed.
End Stale.

Section TwoStale.
Context (env : Env) (g1 g2 : Fresh) (req1 req2 : SlideRequest) (d1 d2 : string) (it : Item).
Context (Hrel : reliable env).
Context (Hsame : params_tallerId req2 = params_tallerId req1).

(** Two requests that have read the same record, under any schedule that
    gives each the turns it needs. *)
Lemma run_par_stale (sched : list bool) :
  ∀ (n1 n2 : nat) (p q : Prog Response) (o1 o2 : option Slide)
    (written : list Slide) (w : World),
    Resumed env g1 req1 d1 it n1 p o1 →
    Resumed env g2 req2 d2 it n2 q o2 →
    stale_writes (params_tallerId req1) it written w →
    written ≡ₚ option_list o1 ++ option_list o2 →
    (n1 ≤ turns true sched)%nat →
    (n2 ≤ turns false sched)%nat →
    ∃ o1' o2' written',
      Resumed env g1 req1 d1 it 0 (run_par env sched p q w).1.1 o1'
      ∧ Resumed env g2 req2 d2 it 0 (run_par env sched p q w).1.2 o2'
      ∧ stale_writes (params_tallerId req1) it written' (run_par env sched p q w).2
      ∧ written' ≡ₚ option_list o1' ++ option_list o2'.
Proof.
  induction sched as [|[] s IH]; intros n1 n2 p q o1 o2 written w Hp Hq Hw Hperm Hn1 Hn2.
  - assert (n1 = 0) as -> by (unfold turns in Hn1; simpl in Hn1; lia).
    assert (n2 = 0) as -> by (unfold turns in Hn2; simpl in Hn2; lia).
    by exists o1, o2, written.
  - rewrite turns_cons_same in Hn1. rewrite turns_cons_other in Hn2 by done.
    destruct (Resumed_step env g1 req1 d1 it n1 p o1 written w Hrel Hp Hw)
      as (o1' & Hp' & Hstep).
    simpl. destruct (step env p w) as [p' w']. simpl in Hp', Hstep.
    destruct Hstep as [[-> Hw']|(-> & s1 & -> & Hw')].
    + apply (IH (n1 - 1) n2 p' q o1 o2 written w'); try done. lia.
    + apply (IH (n1 - 1) n2 p' q (Some s1) o2 (written ++ [s1]) w'); try done; [|lia].
      simpl in *. rewrite Hperm. by rewrite Permutation_app_comm.
  - rewrite turns_cons_same in Hn2. rewrite turns_cons_other in Hn1 by done.
    rewrite <- Hsame in Hw.
    destruct (Resumed_step env g2 req2 d2 it n2 q o2 written w Hrel Hq Hw)
      as (o2' & Hq' & Hstep).
    simpl. destruct (step env q w) as [q' w']. simpl in Hq', Hstep.
    destruct Hstep as [[-> Hw']|(-> & s2 & -> & Hw')]; rewrite Hsame in Hw'.
    + apply (IH n1 (n2 - 1) p q' o1 o2 written w'); try done. lia.
    + apply (IH n1 (n2 - 1) p q' o1 (Some s2) (written ++ [s2]) w'); try done; [|lia].
      simpl in *. rewrite app_nil_r in Hperm. by rewrite Hperm.
Qed.

Context (Hd1 : required (slide_descripcion req1) = Some d1).
Context (Hd2 : required (slide_descripcion req2) = Some d2).

(** Both requests read first, in one order or the other; then any
    schedule. *)
Lemma run_par_reads_first (b : bool) (rest : list bool) (w : World) :
  Talleres w !! params_tallerId req1 = Some it →
  stale_writes (params_tallerId req1) it [] w →
  (2 ≤ turns true rest)%nat →
  (2 ≤ turns false rest)%nat →
  ∃ s1 s2 it1 it2 written w',
    run_par env (b :: negb b :: rest)
            (post_talleres_slides env g1 req1) (post_talleres_slides env g2 req2) w
    = (Ret (Res 201 (JSlide s1 it1)), Ret (Res 201 (JSlide s2 it2)), w')
    ∧ id s1 = id_uuid g1 ∧ id s2 = id_uuid g2
    ∧ titulo s1 = nuevo_titulo it ∧ titulo s2 = nuevo_titulo it
    ∧ stale_writes (params_tallerId req1) it written w'
    ∧ written ≡ₚ [s1; s2].
Proof.
  intros Hit Hw H1 H2.
  assert (∃ w0,
    run_par env (b :: negb b :: rest)
            (post_talleres_slides env g1 req1) (post_talleres_slides env g2 req2) w
    = run_par env rest
        (try_catch (with_taller env g1 req1 d1 (Some it)) slide_catch)
        (try_catch (with_taller env g2 req2 d2 (Some it)) slide_catch) w0
    ∧ stale_writes (params_tallerId req1) it [] w0) as (w0 & -> & Hw0).
  { destruct b; cbn [run_par negb].
    - rewrite (step_get env g1 req1 d1 w Hd1 (Hrel _ _)), Hit.
      rewrite (step_get env g2 req2 d2 _ Hd2 (Hrel _ _)). cbn [Talleres logged].
      rewrite Hsame, Hit. by eexists.
    - rewrite (step_get env g2 req2 d2 w Hd2 (Hrel _ _)), Hsame, Hit.
      rewrite (step_get env g1 req1 d1 _ Hd1 (Hrel _ _)). cbn [Talleres logged].
      rewrite Hit. by eexists. }
  destruct (run_par_stale rest 2 2
              (try_catch (with_taller env g1 req1 d1 (Some it)) slide_catch)
              (try_catch (with_taller env g2 req2 d2 (Some it)) slide_catch)
              None None [] w0)
    as (o1 & o2 & written & Hp & Hq & Hfin & Hperm); try done; [by apply rs_read..|].
  destruct (run_par env rest _ _ w0) as [[p q] w']. simpl in *.
  apply Resumed_done in Hp as (s1 & it1 & -> & -> & Hid1 & Ht1).
  apply Resumed_done in Hq as (s2 & it2 & -> & -> & Hid2 & Ht2).
  by exists s1, s2, it1, it2, written, w'.
Qed.
End TwoStale.

(** X19: two slide requests for the same taller, whose list of slides is
    not empty, that both read the taller before either writes get the same
    title: under any interleaving of what follows, both are answered 201,
    both slides are in the list, at different places, and both are titled
    "Paso " followed by one plus the number of slides that were there when
    they were read. *)
Theorem concurrent_slides_get_the_same_title
    (env : Env) (g1 g2 : Fresh) (req1 req2 : SlideRequest) (d1 d2 : string)
    (b : bool) (rest : list bool) (w : World) (it : Item) (l : list Slide) :
  reliable env →
  required (slide_descripcion req1) = Some d1 →
  required (slide_descripcion req2) = Some d2 →
  params_tallerId req2 = params_tallerId req1 →
  Talleres w !! params_tallerId req1 = Some it →
  it !! "slides" = Some (ASlides l) →
  l ≠ [] →
  (2 ≤ turns true rest)%nat →
  (2 ≤ turns false rest)%nat →
  ∃ s1 s2 it1 it2 w' cur news,
    run_par env (b :: negb b :: rest)
            (post_talleres_slides env g1 req1) (post_talleres_slides env g2 req2) w
    = (Ret (Res 201 (JSlide s1 it1)), Ret (Res 201 (JSlide s2 it2)), w')
    ∧ id s1 = id_uuid g1 ∧ id s2 = id_uuid g2
    ∧ titulo s1 = "Paso " +:+ to_string (length l + 1)
    ∧ titulo s2 = "Paso " +:+ to_string (length l + 1)
    ∧ Talleres w' !! params_tallerId req1 = Some cur
    ∧ cur !! "slides" = Some (ASlides (l ++ news))
    ∧ news ≡ₚ [s1; s2].
Proof.
  intros Hrel Hd1 Hd2 Hsame Hit Hs Hl H1 H2.
  pose proof (updateExpression_nonempty it l Hs Hl) as He.
  destruct (run_par_reads_first env g1 g2 req1 req2 d1 d2 it Hrel Hsame Hd1 Hd2 b rest w)
    as (s1 & s2 & it1 & it2 & news & w' & Hrun & Hid1 & Hid2 & Ht1 & Ht2 & Hw' & Hperm);
    try done.
  { unfold stale_writes. rewrite He. exists it. split; [done|].
    unfold slides_of. by rewrite Hs, app_nil_r. }
  unfold stale_writes in Hw'. rewrite He in Hw'. destruct Hw' as (cur & Hcur & Hslides).
  unfold slides_of in Hslides. rewrite Hs in Hslides.
  rewrite (nuevo_titulo_list it l Hs) in Ht1, Ht2.
  by exists s1, s2, it1, it2, w', cur, news.
Qed.

Lemma concurrent_slides_get_the_same_title_witness :
  ∃ s1 s2 it1 it2 w',
    run_par env_ok [true; false; true; false; true; false]
            (post_talleres_slides env_ok fresh_3 slide_request_2)
            (post_talleres_slides env_ok fresh_4 slide_request_3) world_2
    = (Ret (Res 201 (JSlide s1 it1)), Ret (Res 201 (JSlide s2 it2)), w')
    ∧ titulo s1 = "Paso 2"
    ∧ titulo s2 = "Paso 2".
Proof.
  destruct (concurrent_slides_get_the_same_title env_ok fresh_3 fresh_4
              slide_request_2 slide_request_3 "Lijar los bordes" "Pintar"
              true [true; false; true; false] world_2 Item_2 [slide_1])
    as (s1 & s2 & it1 & it2 & w' & cur & news & Hrun & _ & _ & Ht1 & Ht2 & _).
  - exact reliable_env_ok.
  - reflexivity.
  - reflexivity.
  - reflexivity.
  - exact Talleres_world_2_lookup.
  - reflexivity.
  - discriminate.
  - unfold turns. simpl. lia.
  - unfold turns. simpl. lia.
  - exists s1, s2, it1, it2, w'. exact (conj Hrun (conj Ht1 Ht2)).
Defined.

(** X20: two slide requests for the same taller, whose list of slides is
    empty or absent, that both read the taller before either writes are
    both answered 201 under any interleaving of what follows, both with
    the title "Paso 1", and the taller's list ends with exactly one slide,
    which is one of the two: the other is not in the list. *)
Theorem concurrent_slides_on_empty_list_keep_one
    (env : Env) (g1 g2 : Fresh) (req1 req2 : SlideRequest) (d1 d2 : string)
    (b : bool) (rest : list bool) (w : World) (it : Item) :
  reliable env →
  required (slide_descripcion req1) = Some d1 →
  required (slide_descripcion req2) = Some d2 →
  params_tallerId req2 = params_tallerId req1 →
  Talleres w !! params_tallerId req1 = Some it →
  it !! "slides" = None ∨ it !! "slides" = Some (ASlides []) →
  (2 ≤ turns true rest)%nat →
  (2 ≤ turns false rest)%nat →
  ∃ s1 s2 it1 it2 w' cur s,
    run_par env (b :: negb b :: rest)
            (post_talleres_slides env g1 req1) (post_talleres_slides env g2 req2) w
    = (Ret (Res 201 (JSlide s1 it1)), Ret (Res 201 (JSlide s2 it2)), w')
    ∧ id s1 = id_uuid g1 ∧ id s2 = id_uuid g2
    ∧ titulo s1 = "Paso 1" ∧ titulo s2 = "Paso 1"
    ∧ Talleres w' !! params_tallerId req1 = Some cur
    ∧ cur !! "slides" = Some (ASlides [s])
    ∧ (s = s1 ∨ s = s2).
Proof.
  intros Hrel Hd1 Hd2 Hsame Hit Hs H1 H2.
  assert (updateExpression it = SetSlides ∧ nuevo_titulo it = "Paso 1") as [He Ht].
  { unfold updateExpression, nuevo_titulo. by destruct Hs as [-> | ->]. }
  destruct (run_par_reads_first env g1 g2 req1 req2 d1 d2 it Hrel Hsame Hd1 Hd2 b rest w)
    as (s1 & s2 & it1 & it2 & news & w' & Hrun & Hid1 & Hid2 & Ht1 & Ht2 & Hw' & Hperm);
    try done.
  { unfold stale_writes. rewrite He. intros s [=]. }
  unfold stale_writes in Hw'. rewrite He in Hw'. rewrite Ht in Ht1, Ht2.
  pose proof (Permutation_length Hperm) as Hlen.
  destruct news as [|x [|y [|z news]]]; try discriminate Hlen.
  destruct (Hw' y eq_refl) as (cur & Hcur & Hslides).
  assert (y ∈ [s1; s2]) as Hy.
  { rewrite <- Hperm. apply list_elem_of_further, list_elem_of_here. }
  exists s1, s2, it1, it2, w', cur, y. split_and!; try done.
  apply elem_of_cons in Hy as [->|Hy]; [by left|].
  apply elem_of_cons in Hy as [->|Hy]; [by right|]. by apply elem_of_nil in Hy.
Qed.

Lemma concurrent_slides_on_empty_list_keep_one_witness :
  ∃ s1 s2 it1 it2 w' cur s,
    run_par env_ok [false; true; true; false; true; false]
            (post_talleres_slides env_ok fresh_3 slide_request_2)
            (post_talleres_slides env_ok fresh_4 slide_request_3) world_1
    = (Ret (Res 201 (JSlide s1 it1)), Ret (Res 201 (JSlide s2 it2)), w')
    ∧ Talleres w' !! "id-1" = Some cur
    ∧ cur !! "slides" = Some (ASlides [s]).
Proof.
  destruct (concurrent_slides_on_empty_list_keep_one env_ok fresh_3 fresh_4
              slide_request_2 slide_request_3 "Lijar los bordes" "Pintar"
              false [true; false; true; false] world_1 Item_1)
    as (s1 & s2 & it1 & it2 & w' & cur & s & Hrun & _ & _ & _ & _ & Hcur & Hs & _).
  - exact reliable_env_ok.
  - reflexivity.
  - reflexivity.
  - reflexivity.
  - exact Talleres_world_1_lookup.
  - right. reflexivity.
  - unfold turns. simpl. lia.
  - unfold turns. simpl. lia.
  - exists s1, s2, it1, it2, w', cur, s. exact (conj Hrun (conj Hcur Hs)).
Defined.

(** ** A slide request racing with the deletion of its taller *)

Lemma run_par_replicate_false (env : Env) {A B} (n : nat) (rest : list bool)
    (p : Prog A) (q : Prog B) (w : World) :
  run_par env (replicate n false ++ rest) p q w
  = run_par env rest p (nsteps env n q w).1 (nsteps env n q w).2.
Proof.
  revert q w. induction n as [|n IH]; intros q w; simpl; [done|].
  destruct (step env q w) as [q' w']. apply IH.
Qed.

Lemma run_par_replicate_true (env : Env) {A B} (n : nat)
    (p : Prog A) (q : Prog B) (w : World) :
  run_par env (replicate n true) p q w = ((nsteps env n p w).1, q, (nsteps env n p w).2).
Proof.
  revert p w. induction n as [|n IH]; intros p w; simpl; [done|].
  destruct (step env p w) as [p' w']. apply IH.
Qed.

(** With no call rejected, five turns end the deletion of a taller that
    is in the table. *)
Lemma delete_taller_in_five_turns (env : Env) (tallerId : string) (w : World) (it : Item) :
  reliable env →
  Talleres w !! tallerId = Some it →
  ∃ w',
    nsteps env 5 (delete_taller tallerId) w
    = (Ret (Res 200 (JMessage "Taller eliminado correctamente")), w')
    ∧ Talleres w' = delete tallerId (Talleres w).
Proof.
  intros Hrel Hit. unfold delete_taller. simpl.
  unfold perform. rewrite !Hrel. simpl. rewrite Hit. simpl.
  unfold perform. rewrite !Hrel. simpl.
  destruct (bool_decide (0 < length _)); simpl.
  - unfold perform. rewrite !Hrel. simpl.
    destruct (bool_decide (MaxKeys env < length _)); simpl.
    + unfold perform. rewrite !Hrel. simpl. by eexists.
    + unfold perform. rewrite !Hrel. simpl. by eexists.
  - unfold perform. rewrite !Hrel. simpl. by eexists.
Qed.

(** A slide request that has read the record [it], resumed in a table
    that no longer holds the taller. *)
Lemma resumed_without_record (env : Env) (g : Fresh) (req : SlideRequest)
    (descr : string) (it : Item) (w : World) :
  reliable env →
  Talleres w !! params_tallerId req = None →
  let slide := nuevoSlide g it descr (imagenUrl_of env g req) in
  let stub := <["updatedAt" := AStr (updated_date g)]>
                (<["slides" := ASlides [slide]]>
                   ({["id" := AStr (params_tallerId req)]} : Item)) in
  ∃ r w',
    nsteps env 3 (try_catch (with_taller env g req descr (Some it)) slide_catch) w
    = (Ret r, w')
    ∧ (updateExpression it = SetSlides →
       r = Res 201 (JSlide slide stub) ∧ Talleres w' !! params_tallerId req = Some stub)
    ∧ (updateExpression it = SetSlidesListAppend →
       r = Res 500 (JError "Error al agregar slide" (Some "ValidationException"))
       ∧ Talleres w' !! params_tallerId req = None).
Proof.
  intros Hrel Hnone slide stub. subst slide stub. unfold with_taller, imagenUrl_of.
  destruct (file_imagen req) as [f|]; simpl.
  - unfold perform. rewrite !Hrel. simpl. unfold perform. rewrite !Hrel. simpl.
    rewrite Hnone. simpl.
    destruct (updateExpression it); simpl.
    + eexists _, _. split; [reflexivity|]. split; [intros [=]|done].
    + eexists _, _. split; [reflexivity|]. split; [|intros [=]].
      intros _. split; [done|]. apply lookup_insert_eq.
  - unfold perform. rewrite !Hrel. simpl. rewrite Hnone. simpl.
    destruct (updateExpression it); simpl.
    + eexists _, _. split; [reflexivity|]. split; [intros [=]|done].
    + eexists _, _. split; [reflexivity|]. split; [|intros [=]].
      intros _. split; [done|]. apply lookup_insert_eq.
Qed.

(** X21: a slide request whose taller is deleted between its read and its
    write.  The request reads the taller, the delete handler then runs to
    its end (200, record gone), and the request goes on, no call being
    rejected.  If the list it read was empty or absent, the request is
    answered 201 and the table again holds a record under the id, with
    [id], [slides] (the new slide alone) and [updatedAt] and nothing else,
    neither name nor cover.  If the list it read was not empty, the
    request is answered 500 and the id stays out of the table. *)
Theorem slide_racing_with_delete
    (env : Env) (g : Fresh) (req : SlideRequest) (descr : string) (w : World) (it : Item) :
  reliable env →
  required (slide_descripcion req) = Some descr →
  Talleres w !! params_tallerId req = Some it →
  let slide := nuevoSlide g it descr (imagenUrl_of env g req) in
  ∃ r w',
    run_par env (true :: replicate 5 false ++ replicate 3 true)
            (post_talleres_slides env g req) (delete_taller (params_tallerId req)) w
    = (Ret r, Ret (Res 200 (JMessage "Taller eliminado correctamente")), w')
    ∧ (updateExpression it = SetSlides →
       ∃ stub,
         r = Res 201 (JSlide slide stub)
         ∧ Talleres w' !! params_tallerId req = Some stub
         ∧ stub !! "slides" = Some (ASlides [slide])
         ∧ ∀ f, f ∉ ["id"; "slides"; "updatedAt"] → stub !! f = None)
    ∧ (updateExpression it = SetSlidesListAppend →
       r = Res 500 (JError "Error al agregar slide" (Some "ValidationException"))
       ∧ Talleres w' !! params_tallerId req = None).
Proof.
  intros Hrel Hd Hit slide. cbn [run_par].
  rewrite (step_get env g req descr w Hd (Hrel _ _)), Hit.
  rewrite run_par_replicate_false.
  destruct (delete_taller_in_five_turns env (params_tallerId req)
              (logged (Called (DdbGet (params_tallerId req)) true) w) it Hrel Hit)
    as (w1 & -> & Hw1).
  cbn [fst snd]. rewrite run_par_replicate_true.
  destruct (resumed_without_record env g req descr it w1 Hrel) as (r & w' & -> & Hset & Happ).
  { rewrite Hw1. apply lookup_delete_eq. }
  exists r, w'. split; [done|]. split; [|exact Happ].
  intros He. destruct (Hset He) as [-> Hstub]. eexists. split; [done|].
  split; [exact Hstub|]. split.
  - rewrite lookup_insert_ne by done. apply lookup_insert_eq.
  - intros f Hf. rewrite !lookup_insert_ne; [apply lookup_singleton_ne|..];
      intros <-; apply Hf; rewrite !elem_of_cons; auto.
Qed.

Lemma slide_racing_with_delete_witness :
  ∃ s stub w',
    run_par env_ok (true :: replicate 5 false ++ replicate 3 true)
            (post_talleres_slides env_ok fresh_3 slide_request_2) (delete_taller "id-1") world_1
    = (Ret (Res 201 (JSlide s stub)),
       Ret (Res 200 (JMessage "Taller eliminado correctamente")), w')
    ∧ Talleres w' !! "id-1" = Some stub
    ∧ stub !! "nombre" = None.
Proof.
  destruct (slide_racing_with_delete env_ok fresh_3 slide_request_2 "Lijar los bordes"
              world_1 Item_1 reliable_env_ok eq_refl Talleres_world_1_lookup)
    as (r & w' & Hrun & Hset & _).
  destruct (Hset eq_refl) as (stub & -> & Hstub & _ & Honly).
  eexists _, stub, w'. split; [exact Hrun|]. split; [exact Hstub|].
  apply Honly. rewrite !elem_of_cons, elem_of_nil. intros [H|[H|[H|H]]]; done.
Defined.

(** A status is one of an explicit list. *)
Ltac status_in_list :=
  first [ apply list_elem_of_here
        | apply list_elem_of_further; status_in_list ].

(** ** Every route answers *)

(** X22: whatever the stores hold and whichever calls are rejected, each
    of the five handlers ends with an answer, no exception escaping its
    [catch]: create with 201, 400 or 500; add slide with 201, 400, 404 or
    500; read with 200, 404 or 500; list with 200 or 500; delete with 200,
    404 or 500. *)
Theorem every_handler_answers (env : Env) (w : World) :
  (∀ g req, ∃ resp w',
      run env (post_talleres env g req) w = (inr resp, w')
      ∧ status resp ∈ [201; 400; 500])
  ∧ (∀ g req, ∃ resp w',
      run env (post_talleres_slides env g req) w = (inr resp, w')
      ∧ status resp ∈ [201; 400; 404; 500])
  ∧ (∀ tallerId, ∃ resp w',
      run env (get_taller tallerId) w = (inr resp, w')
      ∧ status resp ∈ [200; 404; 500])
  ∧ (∃ resp w',
      run env get_talleres w = (inr resp, w')
      ∧ status resp ∈ [200; 500])
  ∧ (∀ tallerId, ∃ resp w',
      run env (delete_taller tallerId) w = (inr resp, w')
      ∧ status resp ∈ [200; 404; 500]).
Proof.
  split_and!.
  - intros g req.
    destruct (required (body_nombre req)) as [nombre|] eqn:Hn;
      [destruct (required (body_descripcion req)) as [descr|] eqn:Hd;
         [destruct (file_portada req) as [portada|] eqn:Hp|]|].
    2-4: unfold post_talleres; rewrite ?Hn, ?Hd, ?Hp; eexists _, _;
         (split; [reflexivity|]); cbn [status]; status_in_list.
    rewrite (run_post_talleres env g req nombre descr portada Hn Hd Hp). cbv zeta.
    destruct (rejects env _ (S3Upload _ _)); [|destruct (rejects env _ (DdbPut _))];
      eexists _, _; (split; [reflexivity|]); cbn [status]; status_in_list.
  - intros g req. slide_cases env g req w; eexists _, _; (split; [reflexivity|]);
      cbn [status]; status_in_list.
  - intros tallerId. rewrite run_get_taller.
    destruct (rejects env _ (DdbGet tallerId)); [|destruct (Talleres w !! tallerId)];
      eexists _, _; (split; [reflexivity|]); cbn [status]; status_in_list.
  - rewrite run_get_talleres.
    destruct (rejects env _ (DdbScan ProjectionExpression));
      eexists _, _; (split; [reflexivity|]); cbn [status]; status_in_list.
  - intros tallerId. rewrite run_delete_taller_cases. cbv zeta.
    unfold run_delete_record, failed_delete.
    repeat match goal with
           | |- context [match rejects env ?R ?c with _ => _ end] =>
               destruct (rejects env R c)
           | |- context [match Talleres w !! tallerId with _ => _ end] =>
               destruct (Talleres w !! tallerId)
           | |- context [if bool_decide ?P then _ else _] => destruct (bool_decide P)
           end;
      eexists _, _; (split; [reflexivity|]); cbn [status]; status_in_list.
Qed.

(** ** Slide requests for different talleres *)

Section Alone.
Context (env : Env) (g : Fresh) (req : SlideRequest) (descr : string) (old : Item).
Context (Hrel : reliable env).
Context (Hd : required (slide_descripcion req) = Some descr).
Context (Hold : slides_is_list old).

Lemma Alone_step (n : nat) (p : Prog Response) (w : World) :
  Alone env g req descr old n p w →
  Alone env g req descr old (n - 1) (step env p w).1 (step env p w).2
  ∧ ∀ k, k ≠ params_tallerId req →
         Talleres (step env p w).2 !! k = Talleres w !! k.
Proof.
  assert (∀ url w0 m, Talleres w0 !! params_tallerId req = Some old →
    Alone env g req descr old m
      (step env (try_catch (update_taller g (params_tallerId req) old descr url)
                           slide_catch) w0).1
      (step env (try_catch (update_taller g (params_tallerId req) old descr url)
                           slide_catch) w0).2
    ∧ ∀ k, k ≠ params_tallerId req →
           Talleres (step env (try_catch (update_taller g (params_tallerId req) old descr
                                            url) slide_catch) w0).2 !! k
           = Talleres w0 !! k) as Hupdate.
  { intros url w0 m Hw0. rewrite (step_update_taller env g req descr old url w0 Hrel).
    rewrite Hw0. cbn [default from_option Datatypes.id].
    rewrite (apply_update_well_typed old _ _ Hold). cbn [fst snd]. split.
    - apply al_done. apply lookup_insert_eq.
    - intros k Hk. cbn [Talleres logged set_Talleres]. by rewrite lookup_insert_ne. }
  intros [m w0 Hn Hw0|m w0 Hn Hw0|m url w0 Hn Hw0|m url w0 Hw0].
  - rewrite (step_get env g req descr w0 Hd (Hrel _ _)), Hw0. cbn [fst snd].
    split; [apply al_read; [lia|done]|done].
  - destruct (file_imagen req) as [f|] eqn:Hf.
    + unfold with_taller. rewrite Hf. simpl. unfold perform. rewrite Hrel. simpl.
      split; [apply al_uploaded; [lia|done]|done].
    + unfold with_taller. rewrite Hf. by apply Hupdate.
  - by apply Hupdate.
  - simpl. split; [by apply al_done|done].
Qed.

Lemma Alone_frame (n : nat) (p : Prog Response) (w w' : World) :
  Alone env g req descr old n p w →
  Talleres w' !! params_tallerId req = Talleres w !! params_tallerId req →
  Alone env g req descr old n p w'.
Proof.
  intros [m w0 Hn Hw0|m w0 Hn Hw0|m url w0 Hn Hw0|m url w0 Hw0] Heq;
    rewrite <- Heq in Hw0.
  - by apply al_start.
  - by apply al_read.
  - by apply al_uploaded.
  - by apply al_done.
Qed.

Lemma Alone_done (p : Prog Response) (w : World) :
  Alone env g req descr old 0 p w →
  ∃ s, p = Ret (Res 201 (JSlide s (with_slide g old s)))
       ∧ Talleres w !! params_tallerId req = Some (with_slide g old s)
       ∧ id s = id_uuid g
       ∧ titulo s = nuevo_titulo old.
Proof. inversion 1; subst; try lia. by eexists. Qed.
End Alone.

Section Independent.
Context (env : Env) (g1 g2 : Fresh) (req1 req2 : SlideRequest) (d1 d2 : string).
Context (old1 old2 : Item).
Context (Hrel : reliable env).
Context (Hd1 : required (slide_descripcion req1) = Some d1).
Context (Hd2 : required (slide_descripcion req2) = Some d2).
Context (Hold1 : slides_is_list old1) (Hold2 : slides_is_list old2).
Context (Hdiff : params_tallerId req1 ≠ params_tallerId req2).

Lemma run_par_alone (sched : list bool) :
  ∀ (n1 n2 : nat) (p q : Prog Response) (w : World),
    Alone env g1 req1 d1 old1 n1 p w →
    Alone env g2 req2 d2 old2 n2 q w →
    (n1 ≤ turns true sched)%nat →
    (n2 ≤ turns false sched)%nat →
    Alone env g1 req1 d1 old1 0 (run_par env sched p q w).1.1 (run_par env sched p q w).2
    ∧ Alone env g2 req2 d2 old2 0 (run_par env sched p q w).1.2 (run_par env sched p q w).2.
Proof.
  induction sched as [|[] s IH]; intros n1 n2 p q w Hp Hq Hn1 Hn2.
  - assert (n1 = 0) as -> by (unfold turns in Hn1; simpl in Hn1; lia).
    assert (n2 = 0) as -> by (unfold turns in Hn2; simpl in Hn2; lia).
    done.
  - rewrite turns_cons_same in Hn1. rewrite turns_cons_other in Hn2 by done.
    destruct (Alone_step env g1 req1 d1 old1 Hrel Hd1 Hold1 n1 p w Hp) as [Hp' Hframe].
    simpl. destruct (step env p w) as [p' w']. simpl in Hp', Hframe.
    apply (IH (n1 - 1) n2); [done| |lia|done].
    apply (Alone_frame env g2 req2 d2 old2 n2 q w w' Hq). by apply Hframe.
  - rewrite turns_cons_same in Hn2. rewrite turns_cons_other in Hn1 by done.
    destruct (Alone_step env g2 req2 d2 old2 Hrel Hd2 Hold2 n2 q w Hq) as [Hq' Hframe].
    simpl. destruct (step env q w) as [q' w']. simpl in Hq', Hframe.
    apply (IH n1 (n2 - 1)); [|done|done|lia].
    apply (Alone_frame env g1 req1 d1 old1 n1 p w w' Hp). by apply Hframe.
Qed.
End Independent.

(** X23: two slide requests for different talleres never interfere: when
    both have a description, no call is rejected and each taller's
    [slides] is a list or absent, then under any interleaving of their
    awaits, once each has had three turns, both are answered 201 and each
    taller's record is its old record with its own new slide at the end
    of the list and [updatedAt] set, the title being computed from its own
    list: as if each request had run alone. *)
Theorem slides_for_different_talleres_are_independent
    (env : Env) (g1 g2 : Fresh) (req1 req2 : SlideRequest) (d1 d2 : string)
    (old1 old2 : Item) (sched : list bool) (w : World) :
  reliable env →
  required (slide_descripcion req1) = Some d1 →
  required (slide_descripcion req2) = Some d2 →
  params_tallerId req1 ≠ params_tallerId req2 →
  Talleres w !! params_tallerId req1 = Some old1 →
  Talleres w !! params_tallerId req2 = Some old2 →
  slides_is_list old1 →
  slides_is_list old2 →
  (3 ≤ turns true sched)%nat →
  (3 ≤ turns false sched)%nat →
  ∃ s1 s2 w',
    run_par env sched (post_talleres_slides env g1 req1) (post_talleres_slides env g2 req2) w
    = (Ret (Res 201 (JSlide s1 (with_slide g1 old1 s1))),
       Ret (Res 201 (JSlide s2 (with_slide g2 old2 s2))), w')
    ∧ Talleres w' !! params_tallerId req1 = Some (with_slide g1 old1 s1)
    ∧ Talleres w' !! params_tallerId req2 = Some (with_slide g2 old2 s2)
    ∧ slides_of (with_slide g1 old1 s1) = slides_of old1 ++ [s1]
    ∧ slides_of (with_slide g2 old2 s2) = slides_of old2 ++ [s2]
    ∧ id s1 = id_uuid g1 ∧ titulo s1 = nuevo_titulo old1
    ∧ id s2 = id_uuid g2 ∧ titulo s2 = nuevo_titulo old2.
Proof.
  intros Hrel Hd1 Hd2 Hdiff Hw1 Hw2 Hold1 Hold2 H1 H2.
  destruct (run_par_alone env g1 g2 req1 req2 d1 d2 old1 old2 Hrel Hd1 Hd2 Hold1 Hold2 Hdiff
              sched 3 3 (post_talleres_slides env g1 req1) (post_talleres_slides env g2 req2) w)
    as [Hp Hq]; try done; [by apply al_start..|].
  destruct (run_par env sched _ _ w) as [[p q] w']. simpl in *.
  apply Alone_done in Hp as (s1 & -> & Hfin1 & Hid1 & Ht1).
  apply Alone_done in Hq as (s2 & -> & Hfin2 & Hid2 & Ht2).
  exists s1, s2, w'. split_and!; try done.
  - unfold slides_of at 1, with_slide. rewrite lookup_insert_ne by done.
    by rewrite lookup_insert_eq.
  - unfold slides_of at 1, with_slide. rewrite lookup_insert_ne by done.
    by rewrite lookup_insert_eq.
Qed.

Lemma slides_for_different_talleres_are_independent_witness :
  ∃ s1 s2 w',
    run_par env_ok [true; false; false; true; false; true]
            (post_talleres_slides env_ok fresh_3 slide_request_2)
            (post_talleres_slides env_ok fresh_4 slide_request_4) world_3
    = (Ret (Res 201 (JSlide s1 (with_slide fresh_3 Item_2 s1))),
       Ret (Res 201 (JSlide s2 (with_slide fresh_4 Item_3 s2))), w')
    ∧ slides_of (with_slide fresh_3 Item_2 s1) = [slide_1; s1]
    ∧ slides_of (with_slide fresh_4 Item_3 s2) = [s2].
Proof.
  destruct (slides_for_different_talleres_are_independent env_ok fresh_3 fresh_4
              slide_request_2 slide_request_4 "Lijar los bordes" "Soldar" Item_2 Item_3
              [true; false; false; true; false; true] world_3)
    as (s1 & s2 & w' & Hrun & _ & _ & Hs1 & Hs2 & _).
  - exact reliable_env_ok.
  - reflexivity.
  - reflexivity.
  - discriminate.
  - rewrite Talleres_world_3, lookup_insert_ne by discriminate.
    exact Talleres_world_2_lookup.
  - rewrite Talleres_world_3. apply lookup_insert_eq.
  - right. by exists [slide_1].
  - right. by exists [].
  - unfold turns. simpl. lia.
  - unfold turns. simpl. lia.
  - exists s1, s2, w'. exact (conj Hrun (conj Hs1 Hs2)).
Defined.
